(** * Signal-to-position lifecycle of the trading bot: a shallow embedding

    The development follows the layout of the JavaScript sources:

    - [JsString]   the string builtins the code relies on;
    - [Helpers]    [src/utils/helpers.js];
    - [Settings]   the [config] object of the settings module;
    - [Risk]       [src/services/risk.service.js];
    - [Double]     the rounding helpers and the stop-loss steps over
                   binary64 numbers;
    - [TimeService] the trading-hours module;
    - [Bybit]      the exchange service (its order and leverage calls);
    - [JsMap]      the insertion-ordered [Map] behind [openPositions];
    - [Position]   the records the ledger stores;
    - [Runtime]    the world the services run in: ledger, statistics, the
                   calls that leave the process, and the monad of code that
                   may throw;
    - [TelegramService] the channel service (whether building a message
                   throws);
    - [PositionService] [src/services/position.service.js];
    - [Bot]        the signal pipeline ([validateSignal], [openPosition]).

    The definitions come first, then the vocabulary of the statements,
    then the properties.

    Numbers.  The services are embedded over exact rationals ([Q]): every
    statement about them is a statement about the arithmetic the code
    writes down, evaluated exactly, and says so where the rounding of IEEE
    doubles could change it.  The module [Double] embeds the rounding
    helpers and the stop-loss steps a second time over binary64 numbers,
    with the rounding every operation of the engine applies; the statements
    that depend on that rounding are made there.  [NaN] and the infinities
    are outside both models: where the code tests for [NaN], [null] or
    [undefined] on a value that is a number in the model, the test is
    recorded in a comment and is vacuous. *)

From Stdlib Require Import ZArith QArith Qround Qabs Qpower SpecFloat.
From Stdlib Require Import String Ascii DecimalString List Bool Lia Lqa.
Import ListNotations.

Set Implicit Arguments.

(** ** Results of fallible code *)

(** Every exception the program throws itself is an [Error] object; the
    model keeps the throw site as a constructor and, where the code later
    inspects [error.message], the message itself.  [TypeError member] is
    the engine's own exception for the access of [member] on [undefined]. *)
Inductive error : Type :=
| InvalidBalance (balance : Q)
| InvalidEntryPrice (entryPrice : Q)
| InvalidDirection (direction : string)
| StopLossDistanceZero
| InsufficientBalance (required available : Q)
| ApiError (message : string)
| TypeError (member : string).

Inductive result (A : Type) : Type :=
| Ok (a : A)
| Throw (e : error).

Arguments Ok {A} a.
Arguments Throw {A} e.

(** ** Comparisons on numbers, as booleans *)

Definition Qltb (x y : Q) : bool := negb (Qle_bool y x).
Definition Qgtb (x y : Q) : bool := Qltb y x.
Definition Qleb (x y : Q) : bool := Qle_bool x y.
Definition Qgeb (x y : Q) : bool := Qle_bool y x.

(** ** String builtins *)

Module JsString.

Open Scope string_scope.

Definition upper_ascii (c : ascii) : ascii :=
  let n := nat_of_ascii c in
  if ((97 <=? n) && (n <=? 122))%nat then ascii_of_nat (n - 32) else c.

(** [String.prototype.toUpperCase], on ASCII text. *)
Fixpoint toUpperCase (s : string) : string :=
  match s with
  | EmptyString => EmptyString
  | String c r => String (upper_ascii c) (toUpperCase r)
  end.

Definition is_space (c : ascii) : bool :=
  let n := nat_of_ascii c in
  ((n =? 32) || ((9 <=? n) && (n <=? 13)))%nat.

Fixpoint trimStart (s : string) : string :=
  match s with
  | EmptyString => EmptyString
  | String c r => if is_space c then trimStart r else s
  end.

Fixpoint trimEnd (s : string) : string :=
  match s with
  | EmptyString => EmptyString
  | String c r =>
      let r' := trimEnd r in
      if is_space c && (r' =? EmptyString) then EmptyString else String c r'
  end.

(** [String.prototype.trim]. *)
Definition trim (s : string) : string := trimEnd (trimStart s).

(** [s.split(sep)] for a one-character separator. *)
Fixpoint split (sep : ascii) (s : string) : list string :=
  match s with
  | EmptyString => [EmptyString]
  | String c r =>
      if Ascii.eqb c sep then EmptyString :: split sep r
      else match split sep r with
           | [] => [String c EmptyString]
           | h :: t => String c h :: t
           end
  end.

(** [l.join(sep)]. *)
Fixpoint join (sep : string) (l : list string) : string :=
  match l with
  | [] => EmptyString
  | [x] => x
  | x :: r => x ++ sep ++ join sep r
  end.

Fixpoint startsWith (p s : string) : bool :=
  match p, s with
  | EmptyString, _ => true
  | String a p', String b s' => Ascii.eqb a b && startsWith p' s'
  | String _ _, EmptyString => false
  end.

(** [hay.includes(needle)]. *)
Fixpoint includes (needle hay : string) : bool :=
  startsWith needle hay
  || match hay with
     | EmptyString => false
     | String _ r => includes needle r
     end.

(** [l.includes(x)] on an array of strings. *)
Definition array_includes (x : string) (l : list string) : bool :=
  existsb (String.eqb x) l.

End JsString.

(** ** utils/helpers.js *)

Module Helpers.

Open Scope Q_scope.

(** [Math.round]: the nearest integer, halves towards plus infinity. *)
Definition Math_round (x : Q) : Z := Qfloor (x + (1 # 2)).

(** The second argument of [roundToDecimal].  [roundPrice] passes an
    integer number of decimal places; [roundQuantity] passes
    [Math.abs(Math.log10(tickSize))], which is not a rational in general
    and is kept symbolic. *)
Inductive decimals : Type :=
| Places (n : Z)
| AbsLog10 (tickSize : Q).

(** [Math.pow(10, decimals)], in exact arithmetic.  For [AbsLog10 t] with
    [t > 0] the real number [10 ^ |log10 t|] is [t] when [t >= 1] and
    [1 / t] otherwise.  The engine's [Math.log10] and [Math.pow] return
    exactly that at a power of ten; at another step they return doubles
    next to it, which this definition does not follow. *)
Definition Math_pow10 (d : decimals) : Q :=
  match d with
  | Places n => 10 ^ n
  | AbsLog10 t => if Qle_bool 1 t then t else / t
  end.

(** [roundToDecimal(value, decimals)], in exact arithmetic;
    [Double.roundToDecimal] is the same function on doubles.  The guard
    [isNaN(value) || value === null || value === undefined] returns 0; a
    [value] of the model is always a number. *)
Definition roundToDecimal (value : Q) (d : decimals) : Q :=
  let factor := Math_pow10 d in
  inject_Z (Math_round (value * factor)) / factor.

(** [roundQuantity(quantity, tickSize)]. *)
Definition roundQuantity (quantity tickSize : Q) : Q :=
  if Qle_bool tickSize 0 then quantity
  else
    let precision := AbsLog10 tickSize in
    roundToDecimal quantity precision.

(** [roundPrice(price, pricePrecision)]; [None] is an [undefined] or
    [null] precision. *)
Definition roundPrice (price : Q) (pricePrecision : option Z) : Q :=
  match pricePrecision with
  | None => roundToDecimal price (Places 8)
  | Some p => roundToDecimal price (Places p)
  end.

(** [isValidNumber(value)]: a finite number that is strictly positive. *)
Definition isValidNumber (value : Q) : bool := Qltb 0 value.

(** [calculatePnLPercent]. *)
Definition calculatePnLPercent (entryPrice exitPrice : Q) (direction : string) : Q :=
  if negb (isValidNumber entryPrice) || negb (isValidNumber exitPrice) then 0
  else if (direction =? "LONG")%string then
    ((exitPrice - entryPrice) / entryPrice) * 100
  else if (direction =? "SHORT")%string then
    ((entryPrice - exitPrice) / entryPrice) * 100
  else 0.

(** [calculatePnL]. *)
Definition calculatePnL (entryPrice exitPrice quantity : Q) (direction : string) : Q :=
  if negb (isValidNumber entryPrice) || negb (isValidNumber exitPrice)
     || negb (isValidNumber quantity) then 0
  else if (direction =? "LONG")%string then
    (exitPrice - entryPrice) * quantity
  else if (direction =? "SHORT")%string then
    (entryPrice - exitPrice) * quantity
  else 0.

(** [isSymbolAllowed(symbol, allowedSymbols)]: [allowedSymbols] is the
    comma-separated text. *)
Definition isSymbolAllowed (symbol allowedSymbols : string) : bool :=
  if (symbol =? EmptyString)%string || (allowedSymbols =? EmptyString)%string
  then false
  else
    let symbols :=
      map (fun s => JsString.toUpperCase (JsString.trim s))
          (JsString.split "," allowedSymbols) in
    JsString.array_includes (JsString.toUpperCase symbol) symbols.

End Helpers.

(** ** The configuration object *)

Module Settings.

Record RiskSettings : Type := {
  percentage : Q;
  leverage : Z;
  takeProfitPercent : Q;
  stopLossPercent : Q
}.

Record TradingSettings : Type := {
  allowedSymbols : list string;
  maxDailyTrades : Z;
  maxOpenPositions : Z;
  dryRun : bool
}.

Record TradingHoursSettings : Type := {
  enabled : bool;
  startHour : Z;
  endHour : Z
}.

Record Config : Type := {
  risk : RiskSettings;
  trading : TradingSettings;
  tradingHours : TradingHoursSettings;
  (** [config.bybit.positionMode === 'HEDGE'] *)
  hedgeMode : bool
}.

Open Scope Q_scope.

(** The checks the settings module runs when it is loaded; a configuration
    that fails one of them never reaches the services. *)
Definition validConfig (c : Config) : Prop :=
  0 < percentage (risk c) /\ percentage (risk c) <= 100 /\
  (0 < leverage (risk c) <= 100)%Z /\
  (0 < maxDailyTrades (trading c))%Z /\
  (0 < maxOpenPositions (trading c))%Z /\
  (0 <= startHour (tradingHours c) <= 23)%Z /\
  (0 <= endHour (tradingHours c) <= 23)%Z.

(** The defaults of the settings module (no environment overrides). *)
Definition defaultConfig : Config := {|
  risk := {| percentage := 2.5; leverage := 20;
             takeProfitPercent := 0.5; stopLossPercent := 0.3 |};
  trading := {| allowedSymbols := ["ADAUSDT"; "TAOUSDT"; "UNIUSDT"]%string;
                maxDailyTrades := 20; maxOpenPositions := 3; dryRun := false |};
  tradingHours := {| enabled := false; startHour := 6; endHour := 22 |};
  hedgeMode := false
|}.

End Settings.

(** ** services/risk.service.js *)

Module Risk.

Import Helpers Settings.
Open Scope Q_scope.

(** What [getSymbolInfo] returns; a missing field is [None]. *)
Record SymbolInfo : Type := {
  tickSize : option Q;
  minQty : option Q;
  maxQty : option Q;
  pricePrecision : option Z;
  status : string
}.

(** The default argument [symbolInfo = {}]. *)
Definition emptySymbolInfo : SymbolInfo :=
  {| tickSize := None; minQty := None; maxQty := None;
     pricePrecision := None; status := EmptyString |}.

Record PositionParameters : Type := {
  pp_entryPrice : Q;
  pp_quantity : Q;
  pp_positionSize : Q;
  pp_leverage : Z;
  pp_requiredMargin : Q;
  pp_stopLoss : Q;
  pp_takeProfit : Q;
  pp_riskAmount : Q;
  pp_direction : string
}.

(** [x || dflt] on an optional number: [undefined] and [0] are falsy. *)
Definition orElse (x : option Q) (dflt : Q) : Q :=
  match x with
  | Some v => if Qeq_bool v 0 then dflt else v
  | None => dflt
  end.

(** [symbolInfo.maxQty || Infinity]; [None] stands for [Infinity]. *)
Definition orInfinity (x : option Q) : option Q :=
  match x with
  | Some v => if Qeq_bool v 0 then None else Some v
  | None => None
  end.

Section WithConfig.

Variable config : Config.

(** Step 1. *)
Definition riskAmount (balance : Q) : Q :=
  balance * (percentage (risk config) / 100).

(** Step 2. *)
Definition stopLossPrice (entryPrice : Q) (direction : string) : Q :=
  if (direction =? "LONG")%string
  then entryPrice * (1 - stopLossPercent (risk config) / 100)
  else entryPrice * (1 + stopLossPercent (risk config) / 100).

(** Step 3, in exact arithmetic; [Double.stopLossDistance] is the same
    step on doubles, where a percent too small to move 1 gives 0. *)
Definition stopLossDistance (entryPrice : Q) (direction : string) : Q :=
  Qabs (entryPrice - stopLossPrice entryPrice direction).

(** Step 4: the position size in USDT before any clamp. *)
Definition positionSize (balance entryPrice : Q) (direction : string) : Q :=
  (riskAmount balance / stopLossDistance entryPrice direction) * entryPrice.

(** Step 5: the margin the unclamped size needs. *)
Definition requiredMargin (balance entryPrice : Q) (direction : string) : Q :=
  positionSize balance entryPrice direction / inject_Z (leverage (risk config)).

(** Step 5, the reassignment of [positionSize]. *)
Definition clampedPositionSize (balance entryPrice : Q) (direction : string) : Q :=
  if Qgtb (requiredMargin balance entryPrice direction) balance
  then balance * inject_Z (leverage (risk config))
  else positionSize balance entryPrice direction.

(** Step 6: the quantity before rounding. *)
Definition quantity (balance entryPrice : Q) (direction : string) : Q :=
  clampedPositionSize balance entryPrice direction / entryPrice.

(** Step 7. *)
Definition takeProfitPrice (entryPrice : Q) (direction : string) : Q :=
  if (direction =? "LONG")%string
  then entryPrice * (1 + takeProfitPercent (risk config) / 100)
  else entryPrice * (1 - takeProfitPercent (risk config) / 100).

(** [calculatePositionParameters(balance, entryPrice, direction, symbolInfo)]. *)
Definition calculatePositionParameters
    (balance entryPrice : Q) (direction : string) (symbolInfo : SymbolInfo)
    : result PositionParameters :=
  if negb (isValidNumber balance) || Qleb balance 0 then
    Throw (InvalidBalance balance)
  else if negb (isValidNumber entryPrice) || Qleb entryPrice 0 then
    Throw (InvalidEntryPrice entryPrice)
  else if negb (direction =? "LONG")%string && negb (direction =? "SHORT")%string then
    Throw (InvalidDirection direction)
  else
    let riskAmount := riskAmount balance in
    let stopLossPrice := stopLossPrice entryPrice direction in
    let stopLossDistance := stopLossDistance entryPrice direction in
    if Qleb stopLossDistance 0 then Throw StopLossDistanceZero
    else
      let positionSize := clampedPositionSize balance entryPrice direction in
      let leverage := leverage (risk config) in
      let quantity := quantity balance entryPrice direction in
      let takeProfitPrice := takeProfitPrice entryPrice direction in
      (* 8. rounding to the exchange's requirements *)
      let tickSize := orElse (tickSize symbolInfo) 0.0001 in
      let pricePrecision :=
        match pricePrecision symbolInfo with Some p => p | None => 4%Z end in
      let minQty := orElse (minQty symbolInfo) 0 in
      let maxQty := orInfinity (maxQty symbolInfo) in
      let quantity := roundQuantity quantity tickSize in
      let roundedEntryPrice := roundPrice entryPrice (Some pricePrecision) in
      let roundedStopLoss := roundPrice stopLossPrice (Some pricePrecision) in
      let roundedTakeProfit := roundPrice takeProfitPrice (Some pricePrecision) in
      let '(quantity, positionSize) :=
        if Qltb quantity minQty then (minQty, minQty * entryPrice)
        else (quantity, positionSize) in
      let '(quantity, positionSize) :=
        match maxQty with
        | Some m =>
            if Qgtb quantity m then (m, m * entryPrice)
            else (quantity, positionSize)
        | None => (quantity, positionSize)
        end in
      let finalRequiredMargin := (quantity * entryPrice) / inject_Z leverage in
      if Qgtb finalRequiredMargin balance then
        Throw (InsufficientBalance finalRequiredMargin balance)
      else
        Ok {| pp_entryPrice := roundedEntryPrice;
              pp_quantity := quantity;
              pp_positionSize := positionSize;
              pp_leverage := leverage;
              pp_requiredMargin := finalRequiredMargin;
              pp_stopLoss := roundedStopLoss;
              pp_takeProfit := roundedTakeProfit;
              pp_riskAmount := riskAmount;
              pp_direction := direction |}.

End WithConfig.

(** [hasSufficientBalance(balance, requiredMargin)]. *)
Definition hasSufficientBalance (balance requiredMargin : Q) : bool :=
  isValidNumber balance && isValidNumber requiredMargin && Qgeb balance requiredMargin.

End Risk.

(** ** Binary64 arithmetic *)

(** The engine computes on IEEE 754 binary64 numbers.  A finite double is
    given here by its exact value, a rational, and [fl] is the rounding
    that every arithmetic operator applies to its exact result: to the
    nearest double, a tie going to the even significand.  A decimal literal
    of the program text denotes the double [fl] of its value.  Overflow to
    an infinity, [NaN] and the sign of zero are outside the model. *)
Module Double.

Import Settings.
Open Scope Q_scope.

Definition pow2 (e : Z) : Q := 2 ^ e.

(** [floor (log2 |q|)], for a [q] that is not zero: the difference of the
    bit lengths of numerator and denominator, or one less. *)
Definition ilog2 (q : Q) : Z :=
  let l := (Z.log2 (Z.abs (Qnum q)) - Z.log2 (Zpos (Qden q)))%Z in
  if Qle_bool (pow2 l) (Qabs q) then l else (l - 1)%Z.

(** The exponent of the last bit of the significand of the double nearest
    to [q]: 53 bits are kept, and never a bit below [2 ^ -1074]. *)
Definition lastBit (q : Q) : Z := Z.max (ilog2 q - 52) (-1074).

(** The nearest integer, a half going to the even one. *)
Definition nearestEven (q : Q) : Z :=
  let f := Qfloor q in
  match Qcompare (q - inject_Z f) (1 # 2) with
  | Lt => f
  | Gt => (f + 1)%Z
  | Eq => if Z.even f then f else (f + 1)%Z
  end.

(** The double nearest to [q]. *)
Definition fl (q : Q) : Q :=
  if Qeq_bool q 0 then 0
  else
    let e := lastBit q in
    Qred (inject_Z (nearestEven (q / pow2 e)) * pow2 e).

(** The operators [+], [-], [*] and [/] on doubles. *)
Definition add (x y : Q) : Q := fl (x + y).
Definition sub (x y : Q) : Q := fl (x - y).
Definition mul (x y : Q) : Q := fl (x * y).
Definition div (x y : Q) : Q := fl (x / y).

(** [Math.pow(10, decimals)] for a whole number of decimal places.  The
    powers of ten up to [10 ^ 22] are doubles and the engine returns them
    exactly; beyond them the language leaves the last bit of the result to
    the engine, and no statement is made there. *)
Definition Math_pow10 (decimals : Z) : Q := fl (10 ^ decimals).

(** [roundToDecimal(value, decimals)] on doubles.  [Math.round] is exact:
    the nearest integer to a double is a double. *)
Definition roundToDecimal (value : Q) (decimals : Z) : Q :=
  let factor := Math_pow10 decimals in
  div (inject_Z (Helpers.Math_round (mul value factor))) factor.

(** [roundPrice(price, pricePrecision)] on doubles. *)
Definition roundPrice (price : Q) (pricePrecision : option Z) : Q :=
  match pricePrecision with
  | None => roundToDecimal price 8
  | Some p => roundToDecimal price p
  end.

Section WithConfig.

Variable config : Config.

(** Step 2 of [calculatePositionParameters] on doubles. *)
Definition stopLossPrice (entryPrice : Q) (direction : string) : Q :=
  if (direction =? "LONG")%string
  then mul entryPrice (sub 1 (div (stopLossPercent (risk config)) 100))
  else mul entryPrice (add 1 (div (stopLossPercent (risk config)) 100)).

(** Step 3 on doubles; [Math.abs] is exact. *)
Definition stopLossDistance (entryPrice : Q) (direction : string) : Q :=
  Qabs (sub entryPrice (stopLossPrice entryPrice direction)).

End WithConfig.

End Double.

(** ** The trading-hours module *)

Module TimeService.

Import Settings.
Open Scope Z_scope.

(** The UTC reading of [new Date()]. *)
Record Clock : Type := {
  utcHours : Z;
  utcMinutes : Z;
  utcSeconds : Z;
  utcMilliseconds : Z
}.

(** [isTradingHoursActive()]. *)
Definition isTradingHoursActive (config : Config) (now : Clock) : bool :=
  if negb (enabled (tradingHours config)) then true
  else
    let currentHour := utcHours now in
    let startHour := startHour (tradingHours config) in
    let endHour := endHour (tradingHours config) in
    if endHour >? startHour
    then (currentHour >=? startHour) && (currentHour <? endHour)
    else (currentHour >=? startHour) || (currentHour <? endHour).

Record TradingHoursInfo : Type := {
  isActive : bool;
  currentHour : Z;
  currentMinute : Z;
  info_startHour : Z;
  info_endHour : Z;
  (** hours and minutes of [nextTradingIn], [None] for [null] *)
  nextTradingIn : option (Z * Z)
}.

Definition msOfDay (now : Clock) : Z :=
  ((utcHours now * 60 + utcMinutes now) * 60 + utcSeconds now) * 1000
  + utcMilliseconds now.

(** [getTradingHoursInfo()]. *)
Definition getTradingHoursInfo (config : Config) (now : Clock) : TradingHoursInfo :=
  let currentHour := utcHours now in
  let currentMinute := utcMinutes now in
  let startHour := startHour (tradingHours config) in
  let endHour := endHour (tradingHours config) in
  let isActive := isTradingHoursActive config now in
  let nextTradingIn :=
    if negb isActive then
      let nextStart := startHour * 3600000 in
      let nextStart :=
        if endHour >? startHour then
          if currentHour >=? endHour then nextStart + 86400000 else nextStart
        else
          if currentHour <? startHour then nextStart else nextStart + 86400000 in
      let diffMs := nextStart - msOfDay now in
      let diffHours := diffMs / 3600000 in
      let diffMinutes := Z.rem diffMs 3600000 / 60000 in
      Some (diffHours, diffMinutes)
    else None in
  {| isActive := isActive;
     currentHour := currentHour;
     currentMinute := currentMinute;
     info_startHour := startHour;
     info_endHour := endHour;
     nextTradingIn := nextTradingIn |}.

End TimeService.

(** ** The exchange service *)

Module Bybit.

Import Settings.
Open Scope string_scope.

(** The response object of the REST client. *)
Record Response : Type := {
  retCode : Z;
  retMsg : string;
  (** [response.result?.orderId] *)
  result_orderId : option string
}.

(** What awaiting a client call yields: a response, or a rejection with
    an error message. *)
Inductive ClientOutcome : Type :=
| Resolved (response : Response)
| Rejected (message : string).

Record OrderResult : Type := {
  orderId : option string
}.

(** [getPositionIdx(direction)]. *)
Definition getPositionIdx (config : Config) (direction : string) : Z :=
  if hedgeMode config then (if direction =? "LONG" then 1%Z else 2%Z)
  else 0%Z.

(** The test of the [catch] block of [setLeverage]. *)
Definition mentionsNotModified (message : string) : bool :=
  JsString.includes "leverage not modified" message
  || JsString.includes "110043" message.

(** [setLeverage(symbol, leverage)], given what the client call yields.
    The [throw] of the [try] block is caught by the [catch] block of the
    same function. *)
Definition setLeverage (outcome : ClientOutcome) : result bool :=
  let tried :=
    match outcome with
    | Resolved response =>
        if (retMsg response =? "leverage not modified")
           || (retCode response =? 110043)%Z
        then Ok true
        else if negb (retCode response =? 0)%Z
        then Throw (ApiError ("Failed to set leverage: " ++ retMsg response))
        else Ok true
    | Rejected message => Throw (ApiError message)
    end in
  match tried with
  | Ok b => Ok b
  | Throw (ApiError message) =>
      if mentionsNotModified message then Ok true
      else Throw (ApiError message)
  | Throw e => Throw e
  end.

(** [openMarketOrder(symbol, side, quantity, positionIdx)]. *)
Definition openMarketOrder (outcome : ClientOutcome) : result OrderResult :=
  match outcome with
  | Resolved response =>
      if negb (retCode response =? 0)%Z
      then Throw (ApiError ("Failed to open order: " ++ retMsg response))
      else Ok {| orderId := result_orderId response |}
  | Rejected message => Throw (ApiError message)
  end.

(** [x || dflt] on an optional string: [undefined] and the empty string
    are falsy. *)
Definition orString (x : option string) (dflt : string) : string :=
  match x with
  | Some s => if s =? EmptyString then dflt else s
  | None => dflt
  end.

(** [setTakeProfit(symbol, side, takeProfitPrice, quantity, positionIdx)];
    the client is the V5 client, which has [setTradingStop]. *)
Definition setTakeProfit (outcome : ClientOutcome) : result OrderResult :=
  match outcome with
  | Resolved response =>
      if negb (retCode response =? 0)%Z
      then Throw (ApiError ("Failed to set Take Profit: " ++ retMsg response))
      else Ok {| orderId := Some (orString (result_orderId response) "TP_SET_TRADING_STOP") |}
  | Rejected message => Throw (ApiError message)
  end.

(** [setStopLoss(symbol, side, stopLossPrice, quantity, positionIdx)]. *)
Definition setStopLoss (outcome : ClientOutcome) : result OrderResult :=
  match outcome with
  | Resolved response =>
      if negb (retCode response =? 0)%Z
      then Throw (ApiError ("Failed to set Stop Loss: " ++ retMsg response))
      else Ok {| orderId := Some (orString (result_orderId response) "SL_SET_TRADING_STOP") |}
  | Rejected message => Throw (ApiError message)
  end.

(** An entry of [getOpenPositions()]. *)
Record ExchangePosition : Type := {
  ep_symbol : string;
  ep_side : string;
  ep_size : Q;
  ep_unrealisedPnl : Q
}.

(** An entry of [getTradeHistory(symbol, limit)], which hands on the
    exchange's execution list as it is.  [handlePositionClosed] reads the
    symbol, the side and [execPrice] (here already read as a number);
    [execTime] is the time the exchange gives the execution, which the code
    never reads. *)
Record Trade : Type := {
  t_symbol : string;
  t_side : string;
  execPrice : Q;
  execTime : Z
}.

End Bybit.

(** ** An insertion-ordered [Map] with string keys *)

Module JsMap.

Section Values.

Variable V : Type.

Definition t : Type := list (string * V).

Definition empty : t := [].

Fixpoint get (k : string) (m : t) : option V :=
  match m with
  | [] => None
  | (k', v) :: r => if (k =? k')%string then Some v else get k r
  end.

Definition has (k : string) (m : t) : bool :=
  match get k m with Some _ => true | None => false end.

(** [m.set(k, v)]: an existing key keeps its place, a new key goes last. *)
Fixpoint set (k : string) (v : V) (m : t) : t :=
  match m with
  | [] => [(k, v)]
  | (k', v') :: r =>
      if (k =? k')%string then (k, v) :: r else (k', v') :: set k v r
  end.

Fixpoint delete (k : string) (m : t) : t :=
  match m with
  | [] => []
  | (k', v') :: r =>
      if (k =? k')%string then r else (k', v') :: delete k r
  end.

Definition size (m : t) : Z := Z.of_nat (length m).

Definition entries (m : t) : list (string * V) := m.

Definition values (m : t) : list V := map snd m.

Definition keys (m : t) : list string := map fst m.

(** How many entries are stored under [k]. *)
Definition count (k : string) (m : t) : nat :=
  length (filter (fun e => (k =? fst e)%string) m).

End Values.

End JsMap.

(** ** The records of the position ledger *)

Module Position.

(** The argument of [addOpenPosition]; a field that may be [undefined]
    is an option. *)
Record PositionData : Type := {
  pd_symbol : string;
  pd_direction : string;
  pd_entryPrice : Q;
  pd_quantity : Q;
  pd_takeProfit : Q;
  pd_stopLoss : Q;
  pd_orderId : option string;
  pd_timestamp : option Z;
  pd_tpOrderId : option string;
  pd_slOrderId : option string
}.

(** A value of the [openPositions] map. *)
Record OpenPosition : Type := {
  op_symbol : string;
  op_direction : string;
  op_entryPrice : Q;
  op_quantity : Q;
  op_takeProfit : Q;
  op_stopLoss : Q;
  op_orderId : option string;
  op_timestamp : Z;
  op_tpOrderId : option string;
  op_slOrderId : option string
}.

(** [closedPositionData] of [handlePositionClosed]: the tracked position
    spread out, plus the exit fields.  [cpd_duration] is the number of
    seconds that [formatDuration] renders. *)
Record ClosedPositionData : Type := {
  cpd_position : OpenPosition;
  cpd_exitPrice : Q;
  cpd_pnl : Q;
  cpd_pnlPercent : Q;
  cpd_duration : Z
}.

(** An element of the [closedPositions] array. *)
Record ClosedPosition : Type := {
  cp_data : ClosedPositionData;
  cp_closedAt : Z
}.

(** The fields of a [PositionService] object; the timer handle
    [monitoringInterval] is not part of the model. *)
Record Ledger : Type := {
  openPositions : JsMap.t OpenPosition;
  closedPositions : list ClosedPosition
}.

End Position.

(** ** The world the services run in *)

Module Runtime.

Import Position.

(** The [statistics] object of the entry point. *)
Record Statistics : Type := {
  totalTrades : Z;
  winTrades : Z;
  loseTrades : Z;
  totalProfit : Q;
  startBalance : Q;
  currentBalance : Q;
  dailyTrades : Z;
  signalsIgnored : Z;
  totalSignals : Z;
  lastResetDate : string
}.

(** The object [formatPositionOpenedMessage] is given: [symbol] is the
    property it destructures next to those of the sizing result ([None]
    when the object has no such property), [balance] and [timestamp] the
    two it reads from the object itself. *)
Record PositionOpenedData : Type := {
  pod_symbol : option string;
  pod_params : Risk.PositionParameters;
  pod_balance : Q;
  pod_timestamp : option Z
}.

(** What is sent to the channel; the text formatting is not modelled. *)
Inductive Notification : Type :=
| PositionOpened (positionData : PositionOpenedData)
| PositionClosed (closed : ClosedPositionData).

(** The calls that leave the process, in the order they are made. *)
Inductive Call : Type :=
| GetUSDTBalance
| GetCurrentPrice (symbol : string)
| GetSymbolInfo (symbol : string)
| SetLeverage (symbol : string) (leverage : Z)
| OpenMarketOrder (symbol side : string) (quantity : Q) (positionIdx : Z)
| SetTakeProfit (symbol side : string) (takeProfitPrice quantity : Q) (positionIdx : Z)
| SetStopLoss (symbol side : string) (stopLossPrice quantity : Q) (positionIdx : Z)
| GetOpenPositions
| GetTradeHistory (symbol : string) (limit : Z)
| SendMessage (message : Notification).

(** The answers of the outside world while one operation runs: the
    exchange, the channel and the clock.  Read-only queries are given by
    the result of the service method; the calls that place orders or set
    leverage are given by what the REST client yields, and go through the
    service methods of [Bybit]. *)
Record Env : Type := {
  getUSDTBalance : result Q;
  getCurrentPrice : string -> result Q;
  getSymbolInfo : string -> result Risk.SymbolInfo;
  client_setLeverage : string -> Z -> Bybit.ClientOutcome;
  client_submitOrder : string -> string -> Q -> Z -> Bybit.ClientOutcome;
  client_setTakeProfit : string -> Z -> Q -> Bybit.ClientOutcome;
  client_setStopLoss : string -> Z -> Q -> Bybit.ClientOutcome;
  getOpenPositions : result (list Bybit.ExchangePosition);
  getTradeHistory : string -> Z -> result (list Bybit.Trade);
  sendMessage : Notification -> result unit;
  (** [Date.now()] *)
  dateNow : Z;
  (** [new Date()] *)
  clock : TimeService.Clock
}.

Record World : Type := {
  ledger : Ledger;
  statistics : Statistics;
  calls : list Call
}.

(** Code that reads and writes the world and may throw.  A throw keeps
    the writes made before it. *)
Definition M (A : Type) : Type := World -> result A * World.

Definition ret {A} (a : A) : M A := fun w => (Ok a, w).

Definition throw {A} (e : error) : M A := fun w => (Throw e, w).

Definition bind {A B} (m : M A) (k : A -> M B) : M B :=
  fun w =>
    match m w with
    | (Ok a, w') => k a w'
    | (Throw e, w') => (Throw e, w')
    end.

(** [try { m } catch (error) { handler(error) }]. *)
Definition try_catch {A} (m : M A) (handler : error -> M A) : M A :=
  fun w =>
    match m w with
    | (Ok a, w') => (Ok a, w')
    | (Throw e, w') => handler e w'
    end.

(** A synchronous computation that may throw. *)
Definition lift {A} (r : result A) : M A := fun w => (r, w).

(** [await service.method(...)]: the call is recorded, then its answer is
    returned or thrown. *)
Definition await {A} (c : Call) (answer : result A) : M A :=
  fun w =>
    (answer,
     {| ledger := ledger w; statistics := statistics w;
        calls := calls w ++ [c] |}).

Definition getLedger : M Ledger := fun w => (Ok (ledger w), w).

Definition getStats : M Statistics := fun w => (Ok (statistics w), w).

Definition updateLedger (f : Ledger -> Ledger) : M unit :=
  fun w =>
    (Ok tt,
     {| ledger := f (ledger w); statistics := statistics w;
        calls := calls w |}).

Definition updateStats (f : Statistics -> Statistics) : M unit :=
  fun w =>
    (Ok tt,
     {| ledger := ledger w; statistics := f (statistics w);
        calls := calls w |}).

(** [for (const x of l) { body(x) }]. *)
Fixpoint forEach {A} (l : list A) (body : A -> M unit) : M unit :=
  match l with
  | [] => ret tt
  | x :: r => bind (body x) (fun _ => forEach r body)
  end.

Declare Scope js_scope.
Delimit Scope js_scope with js.
Notation "x <- m ;; k" := (bind m (fun x => k))
  (at level 61, m at next level, right associativity) : js_scope.
Notation "m ;;; k" := (bind m (fun _ => k))
  (at level 61, right associativity) : js_scope.

End Runtime.

(** ** The channel service *)

Module TelegramService.

Import Runtime.

(** [formatPositionOpenedMessage(positionData)].  The text is not
    modelled, only whether building it throws.  The template evaluates
    [symbol.replace('USDT', '')] on the destructured [symbol], which is a
    [TypeError] when the object has no [symbol]; its other member calls,
    [quantity.toLocaleString()] and [riskAmount.toFixed(2)], are made on
    numbers of the sizing result. *)
Definition formatPositionOpenedMessage (positionData : PositionOpenedData)
    : result Notification :=
  match pod_symbol positionData with
  | Some _ => Ok (PositionOpened positionData)
  | None =>
      Throw (TypeError "replace")
  end.

End TelegramService.

(** ** services/position.service.js *)

Module PositionService.

Import Position Runtime Helpers Settings.
Open Scope js_scope.

(** [constructor()]. *)
Definition constructor : Ledger :=
  {| openPositions := JsMap.empty OpenPosition; closedPositions := [] |}.

(** [timestamp || Date.now()]: [undefined] and [0] are falsy. *)
Definition timestampOr (timestamp : option Z) (now : Z) : Z :=
  match timestamp with
  | Some t => if (t =? 0)%Z then now else t
  | None => now
  end.

(** The object literal that [addOpenPosition] stores. *)
Definition trackedRecord (positionData : PositionData) (now : Z) : OpenPosition :=
  {| op_symbol := pd_symbol positionData;
     op_direction := pd_direction positionData;
     op_entryPrice := pd_entryPrice positionData;
     op_quantity := pd_quantity positionData;
     op_takeProfit := pd_takeProfit positionData;
     op_stopLoss := pd_stopLoss positionData;
     op_orderId := pd_orderId positionData;
     op_timestamp := timestampOr (pd_timestamp positionData) now;
     op_tpOrderId := pd_tpOrderId positionData;
     op_slOrderId := pd_slOrderId positionData |}.

(** [addOpenPosition(positionData)]; [now] is the reading of [Date.now()]. *)
Definition addOpenPosition (this : Ledger) (positionData : PositionData) (now : Z) : Ledger :=
  {| openPositions :=
       JsMap.set (pd_symbol positionData) (trackedRecord positionData now)
                 (openPositions this);
     closedPositions := closedPositions this |}.

(** [removeOpenPosition(symbol)]: the new state and the returned value
    ([None] for [null]). *)
Definition removeOpenPosition (this : Ledger) (symbol : string) : Ledger * option OpenPosition :=
  match JsMap.get symbol (openPositions this) with
  | Some position =>
      ({| openPositions := JsMap.delete symbol (openPositions this);
          closedPositions := closedPositions this |},
       Some position)
  | None => (this, None)
  end.

(** [addClosedPosition(positionData)]. *)
Definition addClosedPosition (this : Ledger) (positionData : ClosedPositionData) (now : Z) : Ledger :=
  {| openPositions := openPositions this;
     closedPositions :=
       closedPositions this ++ [ {| cp_data := positionData; cp_closedAt := now |} ] |}.

(** [hasOpenPosition(symbol)]. *)
Definition hasOpenPosition (this : Ledger) (symbol : string) : bool :=
  JsMap.has symbol (openPositions this).

(** [getOpenPosition(symbol)]. *)
Definition getOpenPosition (this : Ledger) (symbol : string) : option OpenPosition :=
  JsMap.get symbol (openPositions this).

(** [getAllOpenPositions()]. *)
Definition getAllOpenPositions (this : Ledger) : list OpenPosition :=
  JsMap.values (openPositions this).

(** [getOpenPositionsCount()]. *)
Definition getOpenPositionsCount (this : Ledger) : Z :=
  JsMap.size (openPositions this).

Record PositionStatistics : Type := {
  ps_totalTrades : Z;
  ps_winTrades : Z;
  ps_loseTrades : Z;
  ps_totalPnl : Q;
  ps_openPositions : Z;
  ps_closedPositions : Z
}.

(** [getStatistics()]. *)
Definition getStatistics (this : Ledger) : PositionStatistics :=
  let totalTrades := Z.of_nat (length (closedPositions this)) in
  let winTrades :=
    Z.of_nat (length (filter (fun p => Qgeb (cpd_pnl (cp_data p)) 0)
                             (closedPositions this))) in
  let loseTrades := (totalTrades - winTrades)%Z in
  let totalPnl :=
    fold_left (fun sum p => (sum + cpd_pnl (cp_data p))%Q) (closedPositions this) 0%Q in
  {| ps_totalTrades := totalTrades;
     ps_winTrades := winTrades;
     ps_loseTrades := loseTrades;
     ps_totalPnl := totalPnl;
     ps_openPositions := JsMap.size (openPositions this);
     ps_closedPositions := totalTrades |}.

(** [resetDailyStatistics()]. *)
Definition resetDailyStatistics (this : Ledger) : Ledger :=
  {| openPositions := openPositions this; closedPositions := [] |}.

Section WithEnv.

Variable config : Config.
Variable env : Env.

(** The predicate of [trades.find(...)] in [handlePositionClosed]. *)
Definition isCloseTrade (symbol : string) (trackedPosition : OpenPosition)
    (t : Bybit.Trade) : bool :=
  (Bybit.t_symbol t =? symbol)%string
  && (((Bybit.t_side t =? "Sell")%string
       && (op_direction trackedPosition =? "LONG")%string)
      || ((Bybit.t_side t =? "Buy")%string
          && (op_direction trackedPosition =? "SHORT")%string)).

(** The record [handlePositionClosed] builds from the trade list. *)
Definition closedPositionData (symbol : string) (trackedPosition : OpenPosition)
    (trades : list Bybit.Trade) : ClosedPositionData :=
  let closeTrade := find (isCloseTrade symbol trackedPosition) trades in
  let exitPrice :=
    match closeTrade with
    | Some t => Bybit.execPrice t
    | None => op_entryPrice trackedPosition
    end in
  let duration := ((dateNow env - op_timestamp trackedPosition) / 1000)%Z in
  let pnl :=
    calculatePnL (op_entryPrice trackedPosition) exitPrice
                 (op_quantity trackedPosition) (op_direction trackedPosition) in
  let pnlPercent :=
    calculatePnLPercent (op_entryPrice trackedPosition) exitPrice
                        (op_direction trackedPosition) in
  {| cpd_position := trackedPosition;
     cpd_exitPrice := exitPrice;
     cpd_pnl := pnl;
     cpd_pnlPercent := pnlPercent;
     cpd_duration := duration |}.

(** [handlePositionClosed(symbol, trackedPosition)]: the [catch] block
    logs the error and returns. *)
Definition handlePositionClosed (symbol : string) (trackedPosition : OpenPosition) : M unit :=
  try_catch
    (trades <- await (GetTradeHistory symbol 10) (getTradeHistory env symbol 10) ;;
     let closedPositionData := closedPositionData symbol trackedPosition trades in
     updateLedger (fun this => addClosedPosition this closedPositionData (dateNow env)) ;;;
     updateLedger (fun this => fst (removeOpenPosition this symbol)) ;;;
     if negb (dryRun (trading config)) then
       await (SendMessage (PositionClosed closedPositionData))
             (sendMessage env (PositionClosed closedPositionData))
     else ret tt)
    (fun _ => ret tt).

(** [updatePositionData(symbol, exchangePosition)]: it only logs. *)
Definition updatePositionData (symbol : string)
    (exchangePosition : Bybit.ExchangePosition) : M unit :=
  ret tt.

(** The body of the loop of [checkPositions]. *)
Definition checkPosition (exchangePositions : list Bybit.ExchangePosition)
    (entry : string * OpenPosition) : M unit :=
  let '(symbol, trackedPosition) := entry in
  let exchangePosition :=
    find (fun pos => (Bybit.ep_symbol pos =? symbol)%string) exchangePositions in
  match exchangePosition with
  | None => handlePositionClosed symbol trackedPosition
  | Some pos =>
      if Qeq_bool (Bybit.ep_size pos) 0
      then handlePositionClosed symbol trackedPosition
      else updatePositionData symbol pos
  end.

(** [checkPositions()].  The loop runs over the entries of the map; the
    only change made to the map while it runs is the removal of the
    entry being visited, so the entries visited are those present when
    the loop starts. *)
Definition checkPositions : M unit :=
  try_catch
    (this <- getLedger ;;
     if (JsMap.size (openPositions this) =? 0)%Z then ret tt
     else
       exchangePositions <- await GetOpenPositions (getOpenPositions env) ;;
       forEach (JsMap.entries (openPositions this))
               (checkPosition exchangePositions))
    (fun _ => ret tt).

End WithEnv.

End PositionService.

(** ** The signal pipeline of the entry point *)

Module Bot.

Import Position Runtime Helpers Settings.
Open Scope js_scope.

Record Signal : Type := {
  sig_symbol : string;
  sig_direction : string;
  sig_signalType : string;
  sig_timestamp : option Z
}.

(** The [reason] of a rejection, one constructor per message. *)
Inductive Reason : Type :=
| SymbolNotAllowed (symbol : string)
| InvalidDirectionReason (direction : string)
| OutsideTradingHours
| OpenPositionExists (symbol : string)
| MaxOpenPositionsReached (maxOpenPositions : Z)
| MaxDailyTradesReached (maxDailyTrades : Z)
| InsufficientBalanceReason
| ErrorCheckingBalance (e : error)
| SymbolNotTrading (symbol : string)
| SymbolNotFound (symbol : string) (e : error).

(** [{ valid: true }] or [{ valid: false, reason, info }]; [info] is the
    trading-hours record the three texts are rendered from, or [None]
    for the empty object. *)
Inductive ValidationResult : Type :=
| Valid
| Invalid (reason : Reason) (info : option TimeService.TradingHoursInfo).

Definition setCurrentBalance (balance : Q) (s : Statistics) : Statistics :=
  {| totalTrades := totalTrades s; winTrades := winTrades s;
     loseTrades := loseTrades s; totalProfit := totalProfit s;
     startBalance := startBalance s; currentBalance := balance;
     dailyTrades := dailyTrades s; signalsIgnored := signalsIgnored s;
     totalSignals := totalSignals s; lastResetDate := lastResetDate s |}.

(** [statistics.totalTrades++; statistics.dailyTrades++]. *)
Definition countTrade (s : Statistics) : Statistics :=
  {| totalTrades := (totalTrades s + 1)%Z; winTrades := winTrades s;
     loseTrades := loseTrades s; totalProfit := totalProfit s;
     startBalance := startBalance s; currentBalance := currentBalance s;
     dailyTrades := (dailyTrades s + 1)%Z; signalsIgnored := signalsIgnored s;
     totalSignals := totalSignals s; lastResetDate := lastResetDate s |}.

Section WithEnv.

Variable config : Config.
Variable env : Env.

(** Check 7 of [validateSignal], with its [try]/[catch]: [Some r] when
    the block returns [r], [None] when it falls through. *)
Definition checkBalance : M (option ValidationResult) :=
  try_catch
    (balance <- await GetUSDTBalance (getUSDTBalance env) ;;
     updateStats (setCurrentBalance balance) ;;;
     if Qleb balance 0
     then ret (Some (Invalid InsufficientBalanceReason None))
     else ret None)
    (fun error => ret (Some (Invalid (ErrorCheckingBalance error) None))).

(** Check 8 of [validateSignal]. *)
Definition checkTradable (symbol : string) : M (option ValidationResult) :=
  try_catch
    (symbolInfo <- await (GetSymbolInfo symbol) (getSymbolInfo env symbol) ;;
     if negb (Risk.status symbolInfo =? "Trading")%string
     then ret (Some (Invalid (SymbolNotTrading symbol) None))
     else ret None)
    (fun error => ret (Some (Invalid (SymbolNotFound symbol error) None))).

(** [validateSignal(signal)]. *)
Definition validateSignal (signal : Signal) : M ValidationResult :=
  let symbol := sig_symbol signal in
  let direction := sig_direction signal in
  (* 1 *)
  if negb (isSymbolAllowed symbol
             (JsString.join "," (allowedSymbols (trading config))))
  then ret (Invalid (SymbolNotAllowed symbol) None)
  (* 2 *)
  else if negb (direction =? "LONG")%string && negb (direction =? "SHORT")%string
  then ret (Invalid (InvalidDirectionReason direction) None)
  (* 3 *)
  else if negb (TimeService.isTradingHoursActive config (clock env))
  then ret (Invalid OutsideTradingHours
                    (Some (TimeService.getTradingHoursInfo config (clock env))))
  else
    positionService <- getLedger ;;
    (* 4 *)
    if PositionService.hasOpenPosition positionService symbol
    then ret (Invalid (OpenPositionExists symbol) None)
    (* 5 *)
    else if (PositionService.getOpenPositionsCount positionService
             >=? maxOpenPositions (trading config))%Z
    then ret (Invalid (MaxOpenPositionsReached (maxOpenPositions (trading config))) None)
    else
      statistics <- getStats ;;
      (* 6 *)
      if (dailyTrades statistics >=? maxDailyTrades (trading config))%Z
      then ret (Invalid (MaxDailyTradesReached (maxDailyTrades (trading config))) None)
      else
        (* 7 *)
        returned <- checkBalance ;;
        match returned with
        | Some r => ret r
        | None =>
            (* 8 *)
            returned <- checkTradable symbol ;;
            match returned with
            | Some r => ret r
            | None => ret Valid
            end
        end.

(** [{ ...positionParams, balance, timestamp }], the object step 7 of
    [openPosition] hands to [formatPositionOpenedMessage]: the properties
    of the sizing result and two more.  The sizing result has no [symbol]
    property, so neither has this object. *)
Definition openedMessageData (positionParams : Risk.PositionParameters)
    (balance : Q) (timestamp : option Z) : PositionOpenedData :=
  {| pod_symbol := None;
     pod_params := positionParams;
     pod_balance := balance;
     pod_timestamp := timestamp |}.

(** [openPosition(signal)]: the [catch] block logs and rethrows. *)
Definition openPosition (signal : Signal) : M unit :=
  let symbol := sig_symbol signal in
  let direction := sig_direction signal in
  let timestamp := sig_timestamp signal in
  try_catch
    (balance <- await GetUSDTBalance (getUSDTBalance env) ;;
     updateStats (setCurrentBalance balance) ;;;
     currentPrice <- await (GetCurrentPrice symbol) (getCurrentPrice env symbol) ;;
     symbolInfo <- await (GetSymbolInfo symbol) (getSymbolInfo env symbol) ;;
     positionParams <-
       lift (Risk.calculatePositionParameters config balance currentPrice
               direction symbolInfo) ;;
     if negb (Risk.hasSufficientBalance balance (Risk.pp_requiredMargin positionParams))
     then throw (InsufficientBalance (Risk.pp_requiredMargin positionParams) balance)
     else if dryRun (trading config) then
       updateLedger (fun positionService =>
         PositionService.addOpenPosition positionService
           {| pd_symbol := symbol;
              pd_direction := direction;
              pd_entryPrice := Risk.pp_entryPrice positionParams;
              pd_quantity := Risk.pp_quantity positionParams;
              pd_takeProfit := Risk.pp_takeProfit positionParams;
              pd_stopLoss := Risk.pp_stopLoss positionParams;
              pd_orderId :=
                Some ("DRY_RUN_" ++
                      DecimalString.NilZero.string_of_int (Z.to_int (dateNow env)))%string;
              pd_timestamp := timestamp;
              pd_tpOrderId := Some "DRY_RUN_TP"%string;
              pd_slOrderId := Some "DRY_RUN_SL"%string |}
           (dateNow env)) ;;;
       updateStats countTrade
     else
       (* 1 *)
       let leverage := leverage (risk config) in
       await (SetLeverage symbol leverage)
             (Bybit.setLeverage (client_setLeverage env symbol leverage)) ;;;
       (* 2 *)
       let side := if (direction =? "LONG")%string then "Buy"%string else "Sell"%string in
       let positionIdx := Bybit.getPositionIdx config direction in
       let quantity := Risk.pp_quantity positionParams in
       orderResult <-
         await (OpenMarketOrder symbol side quantity positionIdx)
               (Bybit.openMarketOrder
                  (client_submitOrder env symbol side quantity positionIdx)) ;;
       (* 3 *)
       tpResult <-
         await (SetTakeProfit symbol side (Risk.pp_takeProfit positionParams)
                              quantity positionIdx)
               (Bybit.setTakeProfit
                  (client_setTakeProfit env symbol positionIdx
                     (Risk.pp_takeProfit positionParams))) ;;
       (* 4 *)
       slResult <-
         await (SetStopLoss symbol side (Risk.pp_stopLoss positionParams)
                            quantity positionIdx)
               (Bybit.setStopLoss
                  (client_setStopLoss env symbol positionIdx
                     (Risk.pp_stopLoss positionParams))) ;;
       (* 5 *)
       updateLedger (fun positionService =>
         PositionService.addOpenPosition positionService
           {| pd_symbol := symbol;
              pd_direction := direction;
              pd_entryPrice := Risk.pp_entryPrice positionParams;
              pd_quantity := Risk.pp_quantity positionParams;
              pd_takeProfit := Risk.pp_takeProfit positionParams;
              pd_stopLoss := Risk.pp_stopLoss positionParams;
              pd_orderId := Bybit.orderId orderResult;
              pd_timestamp := timestamp;
              pd_tpOrderId := Bybit.orderId tpResult;
              pd_slOrderId := Bybit.orderId slResult |}
           (dateNow env)) ;;;
       (* 6 *)
       updateStats countTrade ;;;
       (* 7: the argument of [sendMessage] is built first *)
       message <-
         lift (TelegramService.formatPositionOpenedMessage
                 (openedMessageData positionParams balance timestamp)) ;;
       await (SendMessage message) (sendMessage env message))
    (fun error => throw error).

End WithEnv.

End Bot.


(** ** The daily report of the entry point *)

Module DailyReport.

Import Position Runtime Settings.
Open Scope js_scope.

(** The [report] object of [sendDailyReport]. *)
Record Report : Type := {
  rep_date : string;
  rep_tradingHoursStart : Z;
  rep_tradingHoursEnd : Z;
  rep_totalSignals : Z;
  rep_signalsIgnored : Z;
  rep_totalTrades : Z;
  rep_winTrades : Z;
  rep_loseTrades : Z;
  rep_totalPnl : Q;
  rep_roi : Q;
  rep_startBalance : Q;
  rep_currentBalance : Q
}.

(** The three assignments to [statistics] on a new day. *)
Definition rollover (currentDate : string) (s : Statistics) : Statistics :=
  {| totalTrades := totalTrades s; winTrades := winTrades s;
     loseTrades := loseTrades s; totalProfit := totalProfit s;
     startBalance := startBalance s; currentBalance := currentBalance s;
     dailyTrades := 0; signalsIgnored := 0;
     totalSignals := totalSignals s; lastResetDate := currentDate |}.

Section WithEnv.

Variable config : Config.
Variable env : Env.

(** [sendDailyReport()], with the reading of [getCurrentDate()] as an
    argument.  The function returns nothing; the model returns the report
    it builds, [None] when the [catch] block is reached before.  Outside
    dry-run mode the report is then formatted and sent to the channel:
    that message is not one of [Call], and whether it is delivered changes
    neither the world nor the report. *)
Definition sendDailyReport (currentDate : string) : M (option Report) :=
  try_catch
    (statistics <- getStats ;;
     (if negb (currentDate =? lastResetDate statistics)%string then
        updateStats (rollover currentDate) ;;;
        updateLedger PositionService.resetDailyStatistics
      else ret tt) ;;;
     positionService <- getLedger ;;
     let posStats := PositionService.getStatistics positionService in
     currentBalance <- await GetUSDTBalance (getUSDTBalance env) ;;
     statistics <- getStats ;;
     let startBalance := startBalance statistics in
     let totalPnl := (currentBalance - startBalance)%Q in
     let roi :=
       if Qgtb startBalance 0 then ((totalPnl / startBalance) * 100)%Q else 0%Q in
     let report :=
       {| rep_date := currentDate;
          rep_tradingHoursStart := startHour (tradingHours config);
          rep_tradingHoursEnd := endHour (tradingHours config);
          rep_totalSignals := totalSignals statistics;
          rep_signalsIgnored := signalsIgnored statistics;
          rep_totalTrades := PositionService.ps_totalTrades posStats;
          rep_winTrades := PositionService.ps_winTrades posStats;
          rep_loseTrades := PositionService.ps_loseTrades posStats;
          rep_totalPnl := totalPnl;
          rep_roi := roi;
          rep_startBalance := startBalance;
          rep_currentBalance := currentBalance |} in
     ret (Some report))
    (fun _ => ret None).

End WithEnv.

End DailyReport.

(** ** The polling timer of the position service *)

Module Monitoring.

(** The timers of the process, as far as the position service is
    concerned: the handle kept in [monitoringInterval] ([None] for
    [null]), the handles of the intervals that are running, and the next
    handle [setInterval] will return. *)
Record Timers : Type := {
  monitoringInterval : option nat;
  running : list nat;
  nextHandle : nat
}.

(** The state a new [PositionService] starts in. *)
Definition constructor : Timers :=
  {| monitoringInterval := None; running := []; nextHandle := 0 |}.

(** [clearInterval(handle)]. *)
Definition clearInterval (handle : nat) (l : list nat) : list nat :=
  filter (fun h => negb (Nat.eqb h handle)) l.

(** [startMonitoring(intervalMs)]: a second start warns and returns. *)
Definition startMonitoring (this : Timers) : Timers :=
  match monitoringInterval this with
  | Some _ => this
  | None =>
      {| monitoringInterval := Some (nextHandle this);
         running := nextHandle this :: running this;
         nextHandle := S (nextHandle this) |}
  end.

(** [stopMonitoring()]. *)
Definition stopMonitoring (this : Timers) : Timers :=
  match monitoringInterval this with
  | Some handle =>
      {| monitoringInterval := None;
         running := clearInterval handle (running this);
         nextHandle := nextHandle this |}
  | None => this
  end.

End Monitoring.
(** * Vocabulary of the statements *)

Import Helpers Settings.

(** The number of decimal places [roundPrice] rounds to. *)
Definition placesOf (pricePrecision : option Z) : Z :=
  match pricePrecision with Some p => p | None => 8%Z end.

(** *** The Standard Library's binary64

    [SpecFloat] is the Standard Library's specification of IEEE 754
    arithmetic; at 53 bits of precision and a largest exponent of 1024 it
    is binary64.  The functions below run [roundToDecimal] on it, for the
    computations that are replayed there. *)

(** The value of a finite number of [SpecFloat]. *)
Definition binary64_value (x : spec_float) : Q :=
  match x with
  | S754_finite s m e =>
      Qred ((if s then -1 else 1) * inject_Z (Z.pos m) * 2 ^ e)
  | _ => 0%Q
  end.

(** The integer [n] as a number of [SpecFloat], rounded to binary64. *)
Definition binary64_integer (n : Z) : spec_float :=
  binary_normalize 53 1024 n 0 false.

(** The binary64 number nearest to [n / d], for whole [n] and [d] that are
    positive: the value of a decimal literal with numerator [n]. *)
Definition binary64_quotient (n d : positive) : spec_float :=
  SFdiv 53 1024 (S754_finite false n 0) (S754_finite false d 0).

(** [roundToDecimal(value, decimals)] on [SpecFloat], for a [decimals]
    from 0 to 22. *)
Definition binary64_roundToDecimal (value : spec_float) (decimals : Z) : spec_float :=
  let factor := binary64_integer (10 ^ decimals) in
  let scaled := SFmul 53 1024 value factor in
  SFdiv 53 1024 (binary64_integer (Math_round (binary64_value scaled))) factor.

(** [base] with the trading-hours window enabled from [start] to [stop]. *)
Definition hoursConfig (base : Config) (start stop : Z) : Config :=
  {| risk := risk base;
     trading := trading base;
     tradingHours := {| enabled := true; startHour := start; endHour := stop |};
     hedgeMode := hedgeMode base |}.

(** [base] with the risk settings of the sizing scenario: risk 2.5 %,
    leverage 20, stop-loss 0.3 %, take-profit 0.5 %. *)
Definition scenarioConfig (base : Config) : Config :=
  {| risk := {| percentage := 2.5; leverage := 20;
                takeProfitPercent := 0.5; stopLossPercent := 0.3 |};
     trading := trading base;
     tradingHours := tradingHours base;
     hedgeMode := hedgeMode base |}.

(** [q] is a whole number of steps of size [step]. *)
Definition isMultipleOf (q step : Q) : Prop :=
  exists k : Z, (q == inject_Z k * step)%Q.

(** [q] shown with two decimal places. *)
Definition toFixed2 (q : Q) : Q := roundToDecimal q (Places 2).

(** An instrument whose quantity step is 10 contracts. *)
Definition stepTenInstrument : Risk.SymbolInfo :=
  {| Risk.tickSize := Some 10%Q;
     Risk.minQty := Some 10%Q;
     Risk.maxQty := Some 1000000%Q;
     Risk.pricePrecision := Some 4%Z;
     Risk.status := "Trading" |}.

(** The open positions the ledger holds for [symbol]. *)
Definition positionsFor (symbol : string) (this : Position.Ledger) : list Position.OpenPosition :=
  filter (fun p => (Position.op_symbol p =? symbol)%string)
         (PositionService.getAllOpenPositions this).

(** I1: at most one open position per symbol. *)
Definition uniqueSymbols (this : Position.Ledger) : Prop :=
  forall symbol, (length (positionsFor symbol this) <= 1)%nat.

(** Every entry of the map is stored under the symbol of its record, and
    no key occurs twice. *)
Definition wellKeyed (this : Position.Ledger) : Prop :=
  NoDup (JsMap.keys (Position.openPositions this))
  /\ Forall (fun e => Position.op_symbol (snd e) = fst e)
            (Position.openPositions this).

(** The ledgers the methods that write the ledger can produce from a new
    [PositionService]. *)
Inductive reachable : Position.Ledger -> Prop :=
| reach_constructor : reachable PositionService.constructor
| reach_addOpenPosition this positionData now :
    reachable this ->
    reachable (PositionService.addOpenPosition this positionData now)
| reach_removeOpenPosition this symbol :
    reachable this ->
    reachable (fst (PositionService.removeOpenPosition this symbol))
| reach_addClosedPosition this positionData now :
    reachable this ->
    reachable (PositionService.addClosedPosition this positionData now)
| reach_resetDailyStatistics this :
    reachable this ->
    reachable (PositionService.resetDailyStatistics this).



(** The steps of [openPosition] that come before any order: the balance,
    the price and the instrument are read, the position is sized and the
    balance covers the margin. *)
Definition sizingSucceeds (config : Config) (env : Runtime.Env) (signal : Bot.Signal)
    (balance : Q) (params : Risk.PositionParameters) : Prop :=
  exists currentPrice symbolInfo,
    Runtime.getUSDTBalance env = Ok balance
    /\ Runtime.getCurrentPrice env (Bot.sig_symbol signal) = Ok currentPrice
    /\ Runtime.getSymbolInfo env (Bot.sig_symbol signal) = Ok symbolInfo
    /\ Risk.calculatePositionParameters config balance currentPrice
         (Bot.sig_direction signal) symbolInfo = Ok params
    /\ Risk.hasSufficientBalance balance (Risk.pp_requiredMargin params) = true.

(** The calls [openPosition] makes up to and including [setLeverage]. *)
Definition callsUpToLeverage (config : Config) (signal : Bot.Signal) : list Runtime.Call :=
  [ Runtime.GetUSDTBalance;
    Runtime.GetCurrentPrice (Bot.sig_symbol signal);
    Runtime.GetSymbolInfo (Bot.sig_symbol signal);
    Runtime.SetLeverage (Bot.sig_symbol signal) (leverage (risk config)) ].

(** The market entry order [openPosition] places for [params]. *)
Definition entryOrderCall (config : Config) (signal : Bot.Signal)
    (params : Risk.PositionParameters) : Runtime.Call :=
  Runtime.OpenMarketOrder (Bot.sig_symbol signal)
    (if (Bot.sig_direction signal =? "LONG")%string then "Buy" else "Sell")%string
    (Risk.pp_quantity params)
    (Bybit.getPositionIdx config (Bot.sig_direction signal)).

(** The client outcomes of the order legs of [openPosition] for [params]. *)
Definition leverageOutcome (config : Config) (env : Runtime.Env) (signal : Bot.Signal)
    : Bybit.ClientOutcome :=
  Runtime.client_setLeverage env (Bot.sig_symbol signal) (leverage (risk config)).

Definition entryOutcome (config : Config) (env : Runtime.Env) (signal : Bot.Signal)
    (params : Risk.PositionParameters) : Bybit.ClientOutcome :=
  Runtime.client_submitOrder env (Bot.sig_symbol signal)
    (if (Bot.sig_direction signal =? "LONG")%string then "Buy" else "Sell")%string
    (Risk.pp_quantity params)
    (Bybit.getPositionIdx config (Bot.sig_direction signal)).

Definition takeProfitOutcome (config : Config) (env : Runtime.Env) (signal : Bot.Signal)
    (params : Risk.PositionParameters) : Bybit.ClientOutcome :=
  Runtime.client_setTakeProfit env (Bot.sig_symbol signal)
    (Bybit.getPositionIdx config (Bot.sig_direction signal))
    (Risk.pp_takeProfit params).

Definition stopLossOutcome (config : Config) (env : Runtime.Env) (signal : Bot.Signal)
    (params : Risk.PositionParameters) : Bybit.ClientOutcome :=
  Runtime.client_setStopLoss env (Bot.sig_symbol signal)
    (Bybit.getPositionIdx config (Bot.sig_direction signal))
    (Risk.pp_stopLoss params).

(** A response with the given code and message. *)
Definition respond (code : Z) (msg : string) (id : option string) : Bybit.ClientOutcome :=
  Bybit.Resolved {| Bybit.retCode := code; Bybit.retMsg := msg;
                    Bybit.result_orderId := id |}.

(** An instrument with quantity step 0.01 that is trading. *)
Definition scriptedInstrument : Risk.SymbolInfo :=
  {| Risk.tickSize := Some 0.01%Q; Risk.minQty := Some 0.01%Q;
     Risk.maxQty := Some 100000%Q; Risk.pricePrecision := Some 2%Z;
     Risk.status := "Trading" |}.

(** An outside world with a balance of 1000, a price of 100, the instrument
    [scriptedInstrument], no live position, no trade, a channel that
    accepts every message, and the given outcomes of the four order
    legs. *)
Definition scriptedEnv (lev entry tp sl : Bybit.ClientOutcome) : Runtime.Env :=
  {| Runtime.getUSDTBalance := Ok 1000%Q;
     Runtime.getCurrentPrice := fun _ => Ok 100%Q;
     Runtime.getSymbolInfo := fun _ => Ok scriptedInstrument;
     Runtime.client_setLeverage := fun _ _ => lev;
     Runtime.client_submitOrder := fun _ _ _ _ => entry;
     Runtime.client_setTakeProfit := fun _ _ _ => tp;
     Runtime.client_setStopLoss := fun _ _ _ => sl;
     Runtime.getOpenPositions := Ok [];
     Runtime.getTradeHistory := fun _ _ => Ok [];
     Runtime.sendMessage := fun _ => Ok tt;
     Runtime.dateNow := 1700000000000%Z;
     Runtime.clock := {| TimeService.utcHours := 12; TimeService.utcMinutes := 0;
                         TimeService.utcSeconds := 0;
                         TimeService.utcMilliseconds := 0 |} |}.

(** A world with a new ledger, zeroed statistics and no call made. *)
Definition initialWorld : Runtime.World :=
  {| Runtime.ledger := PositionService.constructor;
     Runtime.statistics :=
       {| Runtime.totalTrades := 0; Runtime.winTrades := 0; Runtime.loseTrades := 0;
          Runtime.totalProfit := 0; Runtime.startBalance := 1000;
          Runtime.currentBalance := 1000; Runtime.dailyTrades := 0;
          Runtime.signalsIgnored := 0; Runtime.totalSignals := 0;
          Runtime.lastResetDate := "2024-01-01" |};
     Runtime.calls := [] |}.

(** A LONG signal on ADAUSDT. *)
Definition longSignal : Bot.Signal :=
  {| Bot.sig_symbol := "ADAUSDT"; Bot.sig_direction := "LONG";
     Bot.sig_signalType := "UNKNOWN"; Bot.sig_timestamp := Some 1699999999000%Z |}.

(** The world after [openPosition] read a balance and made the calls [cs],
    with the ledger untouched. *)
Definition afterCalls (w : Runtime.World) (balance : Q) (cs : list Runtime.Call) : Runtime.World :=
  {| Runtime.ledger := Runtime.ledger w;
     Runtime.statistics := Bot.setCurrentBalance balance (Runtime.statistics w);
     Runtime.calls := Runtime.calls w ++ cs |}.

(** The take-profit and stop-loss calls [openPosition] makes for [params]. *)
Definition takeProfitCall (config : Config) (signal : Bot.Signal)
    (params : Risk.PositionParameters) : Runtime.Call :=
  Runtime.SetTakeProfit (Bot.sig_symbol signal)
    (if (Bot.sig_direction signal =? "LONG")%string then "Buy" else "Sell")%string
    (Risk.pp_takeProfit params) (Risk.pp_quantity params)
    (Bybit.getPositionIdx config (Bot.sig_direction signal)).

Definition stopLossCall (config : Config) (signal : Bot.Signal)
    (params : Risk.PositionParameters) : Runtime.Call :=
  Runtime.SetStopLoss (Bot.sig_symbol signal)
    (if (Bot.sig_direction signal =? "LONG")%string then "Buy" else "Sell")%string
    (Risk.pp_stopLoss params) (Risk.pp_quantity params)
    (Bybit.getPositionIdx config (Bot.sig_direction signal)).

(** The argument [openPosition] passes to [addOpenPosition] when all three
    orders are placed. *)
Definition livePositionData (signal : Bot.Signal) (params : Risk.PositionParameters)
    (orderResult tpResult slResult : Bybit.OrderResult) : Position.PositionData :=
  {| Position.pd_symbol := Bot.sig_symbol signal;
     Position.pd_direction := Bot.sig_direction signal;
     Position.pd_entryPrice := Risk.pp_entryPrice params;
     Position.pd_quantity := Risk.pp_quantity params;
     Position.pd_takeProfit := Risk.pp_takeProfit params;
     Position.pd_stopLoss := Risk.pp_stopLoss params;
     Position.pd_orderId := Bybit.orderId orderResult;
     Position.pd_timestamp := Bot.sig_timestamp signal;
     Position.pd_tpOrderId := Bybit.orderId tpResult;
     Position.pd_slOrderId := Bybit.orderId slResult |}.

(** The parameters [calculatePositionParameters] returns in the world of
    [scriptedEnv] for a LONG signal under the default settings: quantity
    83.33, margin 416.65, stop-loss 99.7, take-profit 100.5. *)
Definition scriptedParams : Risk.PositionParameters :=
  Eval vm_compute in
    match Risk.calculatePositionParameters defaultConfig 1000 100 "LONG"
            scriptedInstrument with
    | Ok p => p
    | Throw _ =>
        {| Risk.pp_entryPrice := 0; Risk.pp_quantity := 0; Risk.pp_positionSize := 0;
           Risk.pp_leverage := 0; Risk.pp_requiredMargin := 0; Risk.pp_stopLoss := 0;
           Risk.pp_takeProfit := 0; Risk.pp_riskAmount := 0;
           Risk.pp_direction := EmptyString |}
    end.



(** The exchange no longer reports a live position for [symbol]: the
    symbol is absent from the list, or its entry has size zero. *)
Definition closedOnExchange (exchangePositions : list Bybit.ExchangePosition)
    (symbol : string) : Prop :=
  match find (fun pos => (Bybit.ep_symbol pos =? symbol)%string) exchangePositions with
  | None => True
  | Some pos => (Bybit.ep_size pos == 0)%Q
  end.

(** A trade of [symbol] on the side that closes a position of the given
    direction: Sell for LONG, Buy for SHORT. *)
Definition closesDirection (symbol direction : string) (t : Bybit.Trade) : Prop :=
  Bybit.t_symbol t = symbol
  /\ ((Bybit.t_side t = "Sell"%string /\ direction = "LONG"%string)
      \/ (Bybit.t_side t = "Buy"%string /\ direction = "SHORT"%string)).

(** The realized profit by the direction formula. *)
Definition directionPnl (direction : string) (entryPrice exitPrice quantity : Q) : Q :=
  if (direction =? "LONG")%string then ((exitPrice - entryPrice) * quantity)%Q
  else if (direction =? "SHORT")%string then ((entryPrice - exitPrice) * quantity)%Q
  else 0%Q.

(** A tracked LONG position on ADAUSDT: 10 contracts entered at 100. *)
Definition trackedLong : Position.OpenPosition :=
  {| Position.op_symbol := "ADAUSDT"; Position.op_direction := "LONG";
     Position.op_entryPrice := 100; Position.op_quantity := 10;
     Position.op_takeProfit := 100.5; Position.op_stopLoss := 99.7;
     Position.op_orderId := Some "E1"%string;
     Position.op_timestamp := 1699999999000;
     Position.op_tpOrderId := Some "TP_SET_TRADING_STOP"%string;
     Position.op_slOrderId := Some "SL_SET_TRADING_STOP"%string |}.

(** A world whose ledger tracks [trackedLong] and nothing else. *)
Definition trackingWorld : Runtime.World :=
  {| Runtime.ledger :=
       {| Position.openPositions := [("ADAUSDT"%string, trackedLong)];
          Position.closedPositions := [] |};
     Runtime.statistics := Runtime.statistics initialWorld;
     Runtime.calls := [] |}.

(** The scripted world with a given answer to the trade-history query. *)
Definition withTrades (trades : result (list Bybit.Trade)) : Runtime.Env :=
  let env := scriptedEnv (respond 0 "OK" None) (respond 0 "OK" None)
               (respond 0 "OK" None) (respond 0 "OK" None) in
  {| Runtime.getUSDTBalance := Runtime.getUSDTBalance env;
     Runtime.getCurrentPrice := Runtime.getCurrentPrice env;
     Runtime.getSymbolInfo := Runtime.getSymbolInfo env;
     Runtime.client_setLeverage := Runtime.client_setLeverage env;
     Runtime.client_submitOrder := Runtime.client_submitOrder env;
     Runtime.client_setTakeProfit := Runtime.client_setTakeProfit env;
     Runtime.client_setStopLoss := Runtime.client_setStopLoss env;
     Runtime.getOpenPositions := Runtime.getOpenPositions env;
     Runtime.getTradeHistory := fun _ _ => trades;
     Runtime.sendMessage := Runtime.sendMessage env;
     Runtime.dateNow := Runtime.dateNow env;
     Runtime.clock := Runtime.clock env |}.

(** A trade of ADAUSDT executed at [time]. *)
Definition tradeAt (time : Z) (side : string) (price : Q) : Bybit.Trade :=
  {| Bybit.t_symbol := "ADAUSDT"; Bybit.t_side := side; Bybit.execPrice := price;
     Bybit.execTime := time |}.

(** A trade of ADAUSDT, when its time plays no part. *)
Definition trade (side : string) (price : Q) : Bybit.Trade := tradeAt 0 side price.

(** The order in which the exchange lists executions: the most recent
    first. *)
Fixpoint mostRecentFirst (trades : list Bybit.Trade) : Prop :=
  match trades with
  | [] => True
  | t :: rest =>
      Forall (fun t' => (Bybit.execTime t' <= Bybit.execTime t)%Z) rest
      /\ mostRecentFirst rest
  end.

(** The calls [handlePositionClosed] makes when the trade history is
    answered. *)
Definition closingCalls (config : Config) (symbol : string)
    (data : Position.ClosedPositionData) : list Runtime.Call :=
  Runtime.GetTradeHistory symbol 10
  :: (if dryRun (trading config) then []
      else [Runtime.SendMessage (Runtime.PositionClosed data)]).

(** The methods of [PositionService], as operations on the ledger. *)
Inductive LedgerOp : Type :=
| OpAddOpenPosition (positionData : Position.PositionData)
| OpRemoveOpenPosition (symbol : string)
| OpAddClosedPosition (positionData : Position.ClosedPositionData)
| OpHasOpenPosition (symbol : string)
| OpGetOpenPosition (symbol : string)
| OpGetAllOpenPositions
| OpGetOpenPositionsCount
| OpCheckPositions
| OpHandlePositionClosed (symbol : string) (trackedPosition : Position.OpenPosition)
| OpUpdatePositionData (symbol : string) (exchangePosition : Bybit.ExchangePosition)
| OpGetStatistics
| OpResetDailyStatistics.

(** Running a method in the world; the methods that only read leave the
    world as it is. *)
Definition runOp (config : Config) (env : Runtime.Env) (op : LedgerOp) : Runtime.M unit :=
  match op with
  | OpAddOpenPosition positionData =>
      Runtime.updateLedger (fun this =>
        PositionService.addOpenPosition this positionData (Runtime.dateNow env))
  | OpRemoveOpenPosition symbol =>
      Runtime.updateLedger (fun this =>
        fst (PositionService.removeOpenPosition this symbol))
  | OpAddClosedPosition positionData =>
      Runtime.updateLedger (fun this =>
        PositionService.addClosedPosition this positionData (Runtime.dateNow env))
  | OpCheckPositions => PositionService.checkPositions config env
  | OpHandlePositionClosed symbol trackedPosition =>
      PositionService.handlePositionClosed config env symbol trackedPosition
  | OpUpdatePositionData symbol exchangePosition =>
      PositionService.updatePositionData symbol exchangePosition
  | OpResetDailyStatistics =>
      Runtime.updateLedger PositionService.resetDailyStatistics
  | OpHasOpenPosition _ | OpGetOpenPosition _ | OpGetAllOpenPositions
  | OpGetOpenPositionsCount | OpGetStatistics => Runtime.ret tt
  end.

(** The closed history after running [m] in [w]. *)
Definition historyAfter (m : Runtime.M unit) (w : Runtime.World) : list Position.ClosedPosition :=
  Position.closedPositions (Runtime.ledger (snd (m w))).

(** The open positions after running [m] in [w]. *)
Definition openAfter (m : Runtime.M unit) (w : Runtime.World) : JsMap.t Position.OpenPosition :=
  Position.openPositions (Runtime.ledger (snd (m w))).

(** The most records one call of a method can add to the history. *)
Definition maxAppended (op : LedgerOp) (w : Runtime.World) : nat :=
  match op with
  | OpAddClosedPosition _ | OpHandlePositionClosed _ _ => 1
  | OpCheckPositions => length (Position.openPositions (Runtime.ledger w))
  | _ => 0
  end.

(** [m] keeps the history of [w] and adds at most [n] records at its end. *)
Definition appendsAtMost (n : nat) (m : Runtime.M unit) (w : Runtime.World) : Prop :=
  exists added,
    historyAfter m w
    = (Position.closedPositions (Runtime.ledger w) ++ added)%list
    /\ (length added <= n)%nat.

(** [w] with another closed history. *)
Definition withHistory (w : Runtime.World) (history : list Position.ClosedPosition) : Runtime.World :=
  {| Runtime.ledger :=
       {| Position.openPositions := Position.openPositions (Runtime.ledger w);
          Position.closedPositions := history |};
     Runtime.statistics := Runtime.statistics w;
     Runtime.calls := Runtime.calls w |}.

(** Two worlds that differ at most in their closed history. *)
Definition sameButHistory (w1 w2 : Runtime.World) : Prop :=
  Position.openPositions (Runtime.ledger w1) = Position.openPositions (Runtime.ledger w2)
  /\ Runtime.statistics w1 = Runtime.statistics w2
  /\ Runtime.calls w1 = Runtime.calls w2.

(** What [m] returns, what it does to the open positions, to the
    statistics and to the calls does not depend on the closed history. *)
Definition oblivious (m : Runtime.M unit) : Prop :=
  forall w1 w2,
    sameButHistory w1 w2 ->
    fst (m w1) = fst (m w2) /\ sameButHistory (snd (m w1)) (snd (m w2)).

(** A closed record of [trackedLong]: exit at 100.5, profit 5. *)
Definition closedLong : Position.ClosedPositionData :=
  {| Position.cpd_position := trackedLong;
     Position.cpd_exitPrice := 100.5;
     Position.cpd_pnl := 5;
     Position.cpd_pnlPercent := 0.5;
     Position.cpd_duration := 1 |}.

(** The eight checks of signal validation. *)
Inductive Check : Type :=
| SymbolAllowed
| DirectionWellFormed
| TradingHoursActive
| NoOpenPosition
| OpenCountBelowMax
| DailyCountBelowMax
| BalancePositive
| InstrumentTradable.

(** The order the specification fixes. *)
Definition checkOrder : list Check :=
  [ SymbolAllowed; DirectionWellFormed; TradingHoursActive; NoOpenPosition;
    OpenCountBelowMax; DailyCountBelowMax; BalancePositive; InstrumentTradable ].

Section Checks.

Variable config : Config.
Variable env : Runtime.Env.
Variable w : Runtime.World.
Variable signal : Bot.Signal.

(** Whether a check passes. *)
Definition passes (c : Check) : bool :=
  match c with
  | SymbolAllowed =>
      isSymbolAllowed (Bot.sig_symbol signal)
        (JsString.join "," (allowedSymbols (trading config)))
  | DirectionWellFormed =>
      (Bot.sig_direction signal =? "LONG")%string
      || (Bot.sig_direction signal =? "SHORT")%string
  | TradingHoursActive => TimeService.isTradingHoursActive config (Runtime.clock env)
  | NoOpenPosition =>
      negb (PositionService.hasOpenPosition (Runtime.ledger w) (Bot.sig_symbol signal))
  | OpenCountBelowMax =>
      (PositionService.getOpenPositionsCount (Runtime.ledger w)
       <? maxOpenPositions (trading config))%Z
  | DailyCountBelowMax =>
      (Runtime.dailyTrades (Runtime.statistics w) <? maxDailyTrades (trading config))%Z
  | BalancePositive =>
      match Runtime.getUSDTBalance env with
      | Ok balance => Qltb 0 balance
      | Throw _ => false
      end
  | InstrumentTradable =>
      match Runtime.getSymbolInfo env (Bot.sig_symbol signal) with
      | Ok symbolInfo => (Risk.status symbolInfo =? "Trading")%string
      | Throw _ => false
      end
  end.

(** The rejection a failing check produces. *)
Definition rejection (c : Check) : Bot.ValidationResult :=
  match c with
  | SymbolAllowed => Bot.Invalid (Bot.SymbolNotAllowed (Bot.sig_symbol signal)) None
  | DirectionWellFormed =>
      Bot.Invalid (Bot.InvalidDirectionReason (Bot.sig_direction signal)) None
  | TradingHoursActive =>
      Bot.Invalid Bot.OutsideTradingHours
        (Some (TimeService.getTradingHoursInfo config (Runtime.clock env)))
  | NoOpenPosition => Bot.Invalid (Bot.OpenPositionExists (Bot.sig_symbol signal)) None
  | OpenCountBelowMax =>
      Bot.Invalid (Bot.MaxOpenPositionsReached (maxOpenPositions (trading config))) None
  | DailyCountBelowMax =>
      Bot.Invalid (Bot.MaxDailyTradesReached (maxDailyTrades (trading config))) None
  | BalancePositive =>
      match Runtime.getUSDTBalance env with
      | Ok _ => Bot.Invalid Bot.InsufficientBalanceReason None
      | Throw e => Bot.Invalid (Bot.ErrorCheckingBalance e) None
      end
  | InstrumentTradable =>
      match Runtime.getSymbolInfo env (Bot.sig_symbol signal) with
      | Ok _ => Bot.Invalid (Bot.SymbolNotTrading (Bot.sig_symbol signal)) None
      | Throw e => Bot.Invalid (Bot.SymbolNotFound (Bot.sig_symbol signal) e) None
      end
  end.

(** The call to the exchange that evaluating a check takes. *)
Definition callsOf (c : Check) : list Runtime.Call :=
  match c with
  | BalancePositive => [Runtime.GetUSDTBalance]
  | InstrumentTradable => [Runtime.GetSymbolInfo (Bot.sig_symbol signal)]
  | _ => []
  end.

(** The checks that are evaluated when they run in the order [checks] and
    stop at the first failure. *)
Fixpoint evaluated (checks : list Check) : list Check :=
  match checks with
  | [] => []
  | c :: rest => c :: (if passes c then evaluated rest else [])
  end.

(** Validation by the words of the specification: the rejection of the
    first check of [checkOrder] that fails, valid when none fails. *)
Definition firstRejection : Bot.ValidationResult :=
  match find (fun c => negb (passes c)) checkOrder with
  | Some c => rejection c
  | None => Bot.Valid
  end.

End Checks.

(** ** Vocabulary of the further properties *)

(** The spacing of the values [roundQuantity] returns for a positive
    [tickSize]: [1 / 10 ^ |log10 tickSize|]. *)
Definition quantityGrid (tickSize : Q) : Q :=
  if Qle_bool 1 tickSize then (/ tickSize)%Q else tickSize.

(** The default settings with another stop-loss percent. *)
Definition withStopLoss (percent : Q) : Config :=
  {| risk := {| percentage := percentage (risk defaultConfig);
                leverage := leverage (risk defaultConfig);
                takeProfitPercent := takeProfitPercent (risk defaultConfig);
                stopLossPercent := percent |};
     trading := trading defaultConfig;
     tradingHours := tradingHours defaultConfig;
     hedgeMode := hedgeMode defaultConfig |}.

(** A reading of the clock: hours 0 to 23, minutes and seconds 0 to 59,
    milliseconds 0 to 999. *)
Definition validClock (now : TimeService.Clock) : Prop :=
  (0 <= TimeService.utcHours now <= 23
   /\ 0 <= TimeService.utcMinutes now <= 59
   /\ 0 <= TimeService.utcSeconds now <= 59
   /\ 0 <= TimeService.utcMilliseconds now <= 999)%Z.

(** The hours the settings module accepts: 0 to 23. *)
Definition validHours (config : Config) : Prop :=
  (0 <= startHour (tradingHours config) <= 23
   /\ 0 <= endHour (tradingHours config) <= 23)%Z.

(** An instrument without a minimum quantity, with step 0.01. *)
Definition noMinimumInstrument : Risk.SymbolInfo :=
  {| Risk.tickSize := Some 0.01%Q; Risk.minQty := Some 0%Q;
     Risk.maxQty := Some 100000%Q; Risk.pricePrecision := Some 2%Z;
     Risk.status := "Trading" |}.

(** The scripted world with another balance and another instrument. *)
Definition withAccount (balance : Q) (symbolInfo : Risk.SymbolInfo) : Runtime.Env :=
  let env := scriptedEnv (respond 0 "OK" None) (respond 0 "OK" (Some "E1"%string))
               (respond 0 "OK" None) (respond 0 "OK" None) in
  {| Runtime.getUSDTBalance := Ok balance;
     Runtime.getCurrentPrice := Runtime.getCurrentPrice env;
     Runtime.getSymbolInfo := fun _ => Ok symbolInfo;
     Runtime.client_setLeverage := Runtime.client_setLeverage env;
     Runtime.client_submitOrder := Runtime.client_submitOrder env;
     Runtime.client_setTakeProfit := Runtime.client_setTakeProfit env;
     Runtime.client_setStopLoss := Runtime.client_setStopLoss env;
     Runtime.getOpenPositions := Runtime.getOpenPositions env;
     Runtime.getTradeHistory := Runtime.getTradeHistory env;
     Runtime.sendMessage := Runtime.sendMessage env;
     Runtime.dateNow := Runtime.dateNow env;
     Runtime.clock := Runtime.clock env |}.

(** The three reads [openPosition] starts with. *)
Definition sizingCalls (signal : Bot.Signal) : list Runtime.Call :=
  [ Runtime.GetUSDTBalance;
    Runtime.GetCurrentPrice (Bot.sig_symbol signal);
    Runtime.GetSymbolInfo (Bot.sig_symbol signal) ].

(** What one reconciliation tick decides for a tracked entry, given the
    live positions the exchange lists: [Some r] when the position is
    closed, with the record [r] appended to the history; [None] when it
    stays open, either because the exchange lists it with a size that is
    not zero or because the trade history could not be read. *)
Definition tickRecord (env : Runtime.Env)
    (exchangePositions : list Bybit.ExchangePosition)
    (entry : string * Position.OpenPosition) : option Position.ClosedPosition :=
  let closing :=
    match Runtime.getTradeHistory env (fst entry) 10 with
    | Ok trades =>
        Some {| Position.cp_data :=
                  PositionService.closedPositionData env (fst entry) (snd entry) trades;
                Position.cp_closedAt := Runtime.dateNow env |}
    | Throw _ => None
    end in
  match find (fun pos => (Bybit.ep_symbol pos =? fst entry)%string) exchangePositions with
  | Some pos => if Qeq_bool (Bybit.ep_size pos) 0 then closing else None
  | None => closing
  end.

(** The entries a tick keeps open. *)
Definition keptByTick (env : Runtime.Env)
    (exchangePositions : list Bybit.ExchangePosition)
    (entries : list (string * Position.OpenPosition))
    : list (string * Position.OpenPosition) :=
  filter (fun entry =>
            match tickRecord env exchangePositions entry with
            | Some _ => false
            | None => true
            end) entries.

(** The records a tick appends, in the order of the entries. *)
Definition closedByTick (env : Runtime.Env)
    (exchangePositions : list Bybit.ExchangePosition)
    (entries : list (string * Position.OpenPosition))
    : list Position.ClosedPosition :=
  flat_map (fun entry =>
              match tickRecord env exchangePositions entry with
              | Some r => [r]
              | None => []
              end) entries.

(** A second tracked position, SHORT on TAOUSDT. *)
Definition trackedShort : Position.OpenPosition :=
  {| Position.op_symbol := "TAOUSDT"; Position.op_direction := "SHORT";
     Position.op_entryPrice := 400; Position.op_quantity := 2;
     Position.op_takeProfit := 398; Position.op_stopLoss := 401.2;
     Position.op_orderId := Some "E2"%string;
     Position.op_timestamp := 1699999999500;
     Position.op_tpOrderId := Some "TP_SET_TRADING_STOP"%string;
     Position.op_slOrderId := Some "SL_SET_TRADING_STOP"%string |}.

(** A world whose ledger tracks [trackedLong] and [trackedShort]. *)
Definition twoPositionsWorld : Runtime.World :=
  {| Runtime.ledger :=
       {| Position.openPositions :=
            [("ADAUSDT"%string, trackedLong); ("TAOUSDT"%string, trackedShort)];
          Position.closedPositions := [] |};
     Runtime.statistics := Runtime.statistics initialWorld;
     Runtime.calls := [] |}.

(** The scripted world in which the exchange lists the given live
    positions and answers every trade-history query with the given trades. *)
Definition withLive (live : result (list Bybit.ExchangePosition))
    (trades : result (list Bybit.Trade)) : Runtime.Env :=
  let env := withTrades trades in
  {| Runtime.getUSDTBalance := Runtime.getUSDTBalance env;
     Runtime.getCurrentPrice := Runtime.getCurrentPrice env;
     Runtime.getSymbolInfo := Runtime.getSymbolInfo env;
     Runtime.client_setLeverage := Runtime.client_setLeverage env;
     Runtime.client_submitOrder := Runtime.client_submitOrder env;
     Runtime.client_setTakeProfit := Runtime.client_setTakeProfit env;
     Runtime.client_setStopLoss := Runtime.client_setStopLoss env;
     Runtime.getOpenPositions := live;
     Runtime.getTradeHistory := Runtime.getTradeHistory env;
     Runtime.sendMessage := Runtime.sendMessage env;
     Runtime.dateNow := Runtime.dateNow env;
     Runtime.clock := Runtime.clock env |}.

(** A live position of the exchange. *)
Definition live (symbol : string) (size : Q) : Bybit.ExchangePosition :=
  {| Bybit.ep_symbol := symbol; Bybit.ep_side := "Buy"; Bybit.ep_size := size;
     Bybit.ep_unrealisedPnl := 0 |}.

(** The default settings in dry-run mode. *)
Definition dryRunConfig : Config :=
  {| risk := risk defaultConfig;
     trading := {| allowedSymbols := allowedSymbols (trading defaultConfig);
                   maxDailyTrades := maxDailyTrades (trading defaultConfig);
                   maxOpenPositions := maxOpenPositions (trading defaultConfig);
                   dryRun := true |};
     tradingHours := tradingHours defaultConfig;
     hedgeMode := hedgeMode defaultConfig |}.

(** The argument [openPosition] passes to [addOpenPosition] in dry-run
    mode. *)
Definition dryRunPositionData (env : Runtime.Env) (signal : Bot.Signal)
    (params : Risk.PositionParameters) : Position.PositionData :=
  {| Position.pd_symbol := Bot.sig_symbol signal;
     Position.pd_direction := Bot.sig_direction signal;
     Position.pd_entryPrice := Risk.pp_entryPrice params;
     Position.pd_quantity := Risk.pp_quantity params;
     Position.pd_takeProfit := Risk.pp_takeProfit params;
     Position.pd_stopLoss := Risk.pp_stopLoss params;
     Position.pd_orderId :=
       Some ("DRY_RUN_"
             ++ DecimalString.NilZero.string_of_int (Z.to_int (Runtime.dateNow env)))%string;
     Position.pd_timestamp := Bot.sig_timestamp signal;
     Position.pd_tpOrderId := Some "DRY_RUN_TP"%string;
     Position.pd_slOrderId := Some "DRY_RUN_SL"%string |}.

(** The scripted world with a channel that gives the answer [sent] to
    every message. *)
Definition withChannel (sent : result unit) : Runtime.Env :=
  let env := scriptedEnv (respond 0 "OK" None) (respond 0 "OK" (Some "E1"%string))
               (respond 0 "OK" None) (respond 0 "OK" (Some "S1"%string)) in
  {| Runtime.getUSDTBalance := Runtime.getUSDTBalance env;
     Runtime.getCurrentPrice := Runtime.getCurrentPrice env;
     Runtime.getSymbolInfo := Runtime.getSymbolInfo env;
     Runtime.client_setLeverage := Runtime.client_setLeverage env;
     Runtime.client_submitOrder := Runtime.client_submitOrder env;
     Runtime.client_setTakeProfit := Runtime.client_setTakeProfit env;
     Runtime.client_setStopLoss := Runtime.client_setStopLoss env;
     Runtime.getOpenPositions := Runtime.getOpenPositions env;
     Runtime.getTradeHistory := Runtime.getTradeHistory env;
     Runtime.sendMessage := fun _ => sent;
     Runtime.dateNow := Runtime.dateNow env;
     Runtime.clock := Runtime.clock env |}.

(** What [openPosition] did to the ledger and the trade counters: nothing,
    or one [addOpenPosition] for the symbol of the signal together with
    one counted trade. *)
Definition openedNothing (w w' : Runtime.World) : Prop :=
  Runtime.ledger w' = Runtime.ledger w
  /\ Runtime.totalTrades (Runtime.statistics w')
     = Runtime.totalTrades (Runtime.statistics w)
  /\ Runtime.dailyTrades (Runtime.statistics w')
     = Runtime.dailyTrades (Runtime.statistics w).

Definition openedOne (env : Runtime.Env) (signal : Bot.Signal)
    (w w' : Runtime.World) : Prop :=
  exists positionData,
    Position.pd_symbol positionData = Bot.sig_symbol signal
    /\ Runtime.ledger w'
       = PositionService.addOpenPosition (Runtime.ledger w) positionData
           (Runtime.dateNow env)
    /\ Runtime.totalTrades (Runtime.statistics w')
       = (Runtime.totalTrades (Runtime.statistics w) + 1)%Z
    /\ Runtime.dailyTrades (Runtime.statistics w')
       = (Runtime.dailyTrades (Runtime.statistics w) + 1)%Z.

(** A text without a comma, as every element of [allowedSymbols] is: the
    settings module obtains the list by splitting at commas. *)
Fixpoint noComma (s : string) : bool :=
  match s with
  | EmptyString => true
  | String c r => negb (Ascii.eqb c ",") && noComma r
  end.

(** The form under which [isSymbolAllowed] compares symbols. *)
Definition normalized (s : string) : string :=
  JsString.toUpperCase (JsString.trim s).

(** A request made to the polling timer. *)
Inductive TimerRequest : Type :=
| Start
| Stop.

(** The timers after a sequence of requests. *)
Fixpoint afterRequests (requests : list TimerRequest) (this : Monitoring.Timers)
    : Monitoring.Timers :=
  match requests with
  | [] => this
  | Start :: rest => afterRequests rest (Monitoring.startMonitoring this)
  | Stop :: rest => afterRequests rest (Monitoring.stopMonitoring this)
  end.

(** A world on the day "2024-01-01" with two closed positions, a win and a
    loss, 5 daily trades and 3 ignored signals. *)
Definition eveningWorld : Runtime.World :=
  {| Runtime.ledger :=
       {| Position.openPositions := [("ADAUSDT"%string, trackedLong)];
          Position.closedPositions :=
            [ {| Position.cp_data := closedLong; Position.cp_closedAt := 7 |};
              {| Position.cp_data :=
                   {| Position.cpd_position := trackedShort;
                      Position.cpd_exitPrice := 401.2;
                      Position.cpd_pnl := - (2.4);
                      Position.cpd_pnlPercent := - (0.3);
                      Position.cpd_duration := 60 |};
                 Position.cp_closedAt := 9 |} ] |};
     Runtime.statistics :=
       {| Runtime.totalTrades := 5; Runtime.winTrades := 0; Runtime.loseTrades := 0;
          Runtime.totalProfit := 0; Runtime.startBalance := 1000;
          Runtime.currentBalance := 1000; Runtime.dailyTrades := 5;
          Runtime.signalsIgnored := 3; Runtime.totalSignals := 9;
          Runtime.lastResetDate := "2024-01-01" |};
     Runtime.calls := [] |}.

(** The world after the day check of [sendDailyReport]: unchanged on the
    day of the last reset, rolled over on another day. *)
Definition dayChecked (currentDate : string) (w : Runtime.World) : Runtime.World :=
  if (currentDate =? Runtime.lastResetDate (Runtime.statistics w))%string then w
  else
    {| Runtime.ledger := PositionService.resetDailyStatistics (Runtime.ledger w);
       Runtime.statistics := DailyReport.rollover currentDate (Runtime.statistics w);
       Runtime.calls := Runtime.calls w |}.

(** The intervals that run are exactly the one whose handle is kept. *)
Definition tidy (this : Monitoring.Timers) : Prop :=
  Monitoring.running this
  = match Monitoring.monitoringInterval this with
    | Some handle => [handle]
    | None => []
    end.
(** * Properties *)

(** ** Rounding *)

Section Rounding.

Open Scope Q_scope.

Lemma Math_round_inject_Z (n : Z) : Math_round (inject_Z n) = n.
Proof.
  unfold Math_round, Qfloor, Qplus, inject_Z; simpl.
  replace (n * 2 + 1)%Z with (1 + n * 2)%Z by ring.
  rewrite Z.div_add by discriminate.
  reflexivity.
Qed.

Lemma pow10_nonzero (n : Z) : ~ 10 ^ n == 0.
Proof. apply Qpower_not_0. discriminate. Qed.

Lemma pow10_positive (n : Z) : 0 < 10 ^ n.
Proof. apply Qpower_0_lt. reflexivity. Qed.

(** A value that is an integer number of units of [1 / factor] is left
    alone by the rounding. *)
Lemma roundToDecimal_fixed (n : Z) (d : decimals) :
  ~ Math_pow10 d == 0 ->
  roundToDecimal (inject_Z n / Math_pow10 d) d == inject_Z n / Math_pow10 d.
Proof.
  intros Hf. unfold roundToDecimal.
  assert (E : inject_Z n / Math_pow10 d * Math_pow10 d == inject_Z n)
    by (field; exact Hf).
  unfold Math_round. rewrite E.
  fold (Math_round (inject_Z n)). rewrite Math_round_inject_Z.
  reflexivity.
Qed.

Lemma roundToDecimal_idempotent (value : Q) (d : decimals) :
  ~ Math_pow10 d == 0 ->
  roundToDecimal (roundToDecimal value d) d == roundToDecimal value d.
Proof.
  intros Hf. unfold roundToDecimal at 2 3.
  apply roundToDecimal_fixed. exact Hf.
Qed.

Lemma roundPrice_places (price : Q) (pricePrecision : option Z) :
  roundPrice price pricePrecision
  = roundToDecimal price (Places (placesOf pricePrecision)).
Proof. destruct pricePrecision; reflexivity. Qed.

End Rounding.

(** ** Rounding on doubles *)

Unset Implicit Arguments.

Section DoubleRounding.

Open Scope Q_scope.

Lemma pow2_positive (e : Z) : 0 < Double.pow2 e.
Proof. unfold Double.pow2. apply Qpower_0_lt. reflexivity. Qed.

Lemma pow2_plus (a b : Z) : Double.pow2 (a + b) == Double.pow2 a * Double.pow2 b.
Proof. unfold Double.pow2. apply Qpower_plus. discriminate. Qed.

Lemma pow2_Z (a : Z) : (0 <= a)%Z -> Double.pow2 a == inject_Z (2 ^ a).
Proof. intros H. unfold Double.pow2. rewrite Zpower_Qpower by exact H. reflexivity. Qed.

Lemma ilog2_le (q : Q) : ~ q == 0 -> Double.pow2 (Double.ilog2 q) <= Qabs q.
Proof.
  intros Hq. unfold Double.ilog2.
  destruct (Qle_bool _ _) eqn:E; [apply Qle_bool_iff; exact E|].
  clear E. destruct q as [n d]. cbn [Qnum Qden].
  assert (Hn : (0 < Z.abs n)%Z).
  { destruct (Z.eq_dec n 0) as [->|]; [|lia]. exfalso. apply Hq. reflexivity. }
  set (a := Z.log2 (Z.abs n)). set (b := Z.log2 (Z.pos d)).
  assert (Ha : (0 <= a)%Z) by apply Z.log2_nonneg.
  assert (Hb : (0 <= b)%Z) by apply Z.log2_nonneg.
  assert (Hna : (2 ^ a <= Z.abs n)%Z) by (apply Z.log2_spec; exact Hn).
  assert (Hdb : (Z.pos d < 2 ^ (b + 1))%Z).
  { replace (b + 1)%Z with (Z.succ b) by lia. apply Z.log2_spec. lia. }
  replace (a - b - 1)%Z with (a + - (b + 1))%Z by lia.
  rewrite pow2_plus. unfold Double.pow2 at 2. rewrite Qpower_opp.
  fold (Double.pow2 (b + 1)). rewrite (pow2_Z a Ha), (pow2_Z (b + 1)) by lia.
  assert (Habs : Qabs (n # d) == inject_Z (Z.abs n) / inject_Z (Z.pos d)).
  { unfold Qabs. rewrite Qmake_Qdiv. reflexivity. }
  rewrite Habs.
  assert (P1 : 0 < inject_Z (2 ^ (b + 1))).
  { rewrite <- pow2_Z by lia. apply pow2_positive. }
  assert (P2 : 0 < inject_Z (Z.pos d)) by (unfold Qlt; simpl; lia).
  apply Qle_shift_div_l; [exact P2|].
  unfold Qdiv.
  setoid_replace (inject_Z (2 ^ a) * / inject_Z (2 ^ (b + 1)) * inject_Z (Z.pos d))
    with (inject_Z (2 ^ a) * inject_Z (Z.pos d) / inject_Z (2 ^ (b + 1)))
    by (field; intros H0; rewrite H0 in P1; exact (Qlt_irrefl _ P1)).
  apply Qle_shift_div_r; [exact P1|].
  rewrite <- !inject_Z_mult, <- Zle_Qle.
  apply Z.mul_le_mono_nonneg; try lia.
Qed.

Lemma nearestEven_near (x : Q) : Qabs (inject_Z (Double.nearestEven x) - x) <= 1 # 2.
Proof.
  unfold Double.nearestEven.
  assert (L := Qfloor_le x). assert (U := Qlt_floor x).
  rewrite inject_Z_plus in U. change (inject_Z 1) with 1 in U.
  apply Qabs_Qle_condition.
  destruct (Qcompare_spec (x - inject_Z (Qfloor x)) (1 # 2)) as [E|E|E].
  - destruct (Z.even (Qfloor x));
      [|rewrite inject_Z_plus; change (inject_Z 1) with 1]; lra.
  - lra.
  - rewrite inject_Z_plus. change (inject_Z 1) with 1. lra.
Qed.

(** The rounding error of [Double.fl]. *)
Lemma fl_error (q b : Q) :
  Qabs q <= b -> Qabs (Double.fl q - q) <= b * Double.pow2 (-53) + Double.pow2 (-1075).
Proof.
  intros Hb. unfold Double.fl.
  assert (P53 := pow2_positive (-53)). assert (Pmin := pow2_positive (-1075)).
  assert (Hb0 : 0 <= b) by (eapply Qle_trans; [apply Qabs_nonneg | exact Hb]).
  destruct (Qeq_bool q 0) eqn:E.
  - apply Qeq_bool_iff in E.
    setoid_replace (0 - q) with 0 by (rewrite E; ring).
    cbn [Qabs]. change (Qabs 0) with 0.
    apply Qle_trans with (0 * 0 + 0); [apply Qle_refl|].
    nra.
  - assert (Hq : ~ q == 0).
    { intros H. apply Qeq_bool_iff in H. congruence. }
    rewrite Qred_correct.
    set (e := Double.lastBit q).
    assert (Pe := pow2_positive e).
    assert (N := nearestEven_near (q / Double.pow2 e)).
    set (z := inject_Z (Double.nearestEven (q / Double.pow2 e))) in *.
    assert (H1 : Qabs (z * Double.pow2 e - q) <= Double.pow2 e * (1 # 2)).
    { setoid_replace (z * Double.pow2 e - q) with ((z - q / Double.pow2 e) * Double.pow2 e)
        by (field; intros H0; rewrite H0 in Pe; exact (Qlt_irrefl _ Pe)).
      rewrite Qabs_Qmult. rewrite (Qabs_pos (Double.pow2 e)) by (apply Qlt_le_weak; exact Pe).
      rewrite (Qmult_comm (Double.pow2 e)).
      apply Qmult_le_compat_r; [exact N | apply Qlt_le_weak; exact Pe]. }
    eapply Qle_trans; [exact H1|].
    unfold e, Double.lastBit.
    destruct (Z.max_spec (Double.ilog2 q - 52) (-1074)) as [[_ ->]|[_ ->]].
    + change (Double.pow2 (-1074) * (1 # 2)) with (Double.pow2 (-1075)) at 1.
      assert (0 <= b * Double.pow2 (-53)) by nra. lra.
    + replace (Double.ilog2 q - 52)%Z with (Double.ilog2 q + (-52))%Z by lia.
      rewrite pow2_plus.
      assert (L := ilog2_le q Hq).
      assert (Pl := pow2_positive (Double.ilog2 q)).
      setoid_replace (Double.pow2 (Double.ilog2 q) * Double.pow2 (-52) * (1 # 2))
        with (Double.pow2 (Double.ilog2 q) * Double.pow2 (-53))
        by (unfold Double.pow2; simpl; field).
      assert (Double.pow2 (Double.ilog2 q) * Double.pow2 (-53) <= b * Double.pow2 (-53)).
      { apply Qmult_le_compat_r; [|apply Qlt_le_weak; exact P53].
        eapply Qle_trans; [exact L|exact Hb]. }
      lra.
Qed.

Lemma Qfloor_half (y : Q) (n : Z) :
  inject_Z n - (1 # 2) < y -> y < inject_Z n + (1 # 2) ->
  Qfloor (y + (1 # 2)) = n.
Proof.
  intros L U.
  assert (A := Qfloor_le (y + (1 # 2))).
  assert (B := Qlt_floor (y + (1 # 2))).
  set (m := Qfloor (y + (1 # 2))) in *.
  rewrite inject_Z_plus in B. change (inject_Z 1) with 1 in B.
  assert (H1 : inject_Z m < inject_Z (n + 1)).
  { rewrite inject_Z_plus. change (inject_Z 1) with 1. lra. }
  assert (H2 : inject_Z n < inject_Z (m + 1)).
  { rewrite inject_Z_plus. change (inject_Z 1) with 1. lra. }
  rewrite <- Zlt_Qlt in H1, H2. lia.
Qed.

(** Scaling back the double nearest to [n / f] and rounding gives [n]
    again, as long as [n] is below [2 ^ 51] in magnitude. *)
Lemma scale_back (n : Z) (f : Q) :
  1 <= f -> f <= 10 ^ 22 ->
  (Z.abs n < 2 ^ 51)%Z ->
  Qfloor (Double.fl (Double.fl (inject_Z n / f) * f) + (1 # 2)) = n.
Proof.
  intros F1 F2 Hn.
  set (N := inject_Z n).
  set (T := 2251799813685247).
  assert (HN : - T <= N /\ N <= T).
  { change (2 ^ 51)%Z with 2251799813685248%Z in Hn.
    unfold N, T, Qle; simpl; lia. }
  assert (Fpos : 0 < f) by lra.
  assert (Fnz : ~ f == 0) by (intros H0; rewrite H0 in Fpos; exact (Qlt_irrefl _ Fpos)).
  assert (B1 : Qabs (N / f) <= T / f).
  { unfold Qdiv. rewrite Qabs_Qmult.
    rewrite (Qabs_pos (/ f)) by (apply Qlt_le_weak, Qinv_lt_0_compat; exact Fpos).
    apply Qmult_le_compat_r; [|apply Qlt_le_weak, Qinv_lt_0_compat; exact Fpos].
    apply Qabs_Qle_condition. exact HN. }
  assert (E1 := fl_error (N / f) (T / f) B1).
  set (r1 := Double.fl (N / f)) in *.
  set (u := Double.pow2 (-53)) in *. set (eta := Double.pow2 (-1075)) in *.
  assert (Hu : u == 1 # 9007199254740992) by reflexivity.
  assert (Heta : 0 < eta /\ eta * 10 ^ 22 <= 1 # 36028797018963968).
  { split; [apply pow2_positive|]. unfold eta, Double.pow2. apply Qle_bool_iff.
    vm_compute. reflexivity. }
  destruct Heta as [Eta0 Eta1].
  assert (C1 : Qabs (r1 * f - N) <= T * u + eta * f).
  { setoid_replace (r1 * f - N) with ((r1 - N / f) * f) by (field; exact Fnz).
    rewrite Qabs_Qmult, (Qabs_pos f) by lra.
    setoid_replace (T * u + eta * f) with ((T / f * u + eta) * f) by (field; exact Fnz).
    apply Qmult_le_compat_r; [exact E1 | lra]. }
  assert (Ef : eta * f <= eta * 10 ^ 22).
  { rewrite !(Qmult_comm eta). apply Qmult_le_compat_r; lra. }
  apply Qabs_Qle_condition in C1.
  set (a := r1 * f) in *.
  assert (B2 : Qabs a <= T + (1 # 4)).
  { apply Qabs_Qle_condition. unfold T in *. lra. }
  assert (E2 := fl_error a _ B2).
  fold u eta in E2.
  apply Qabs_Qle_condition in E2.
  assert (Eta2 : eta <= 1 # 36028797018963968).
  { eapply Qle_trans; [|exact Eta1].
    setoid_replace eta with (eta * 1) at 1 by ring.
    rewrite !(Qmult_comm eta). apply Qmult_le_compat_r; [|lra].
    apply Qle_bool_iff. vm_compute. reflexivity. }
  apply Qfloor_half; fold N; unfold T in *; lra.
Qed.

Lemma ilog2_lt (q : Q) : ~ q == 0 -> Qabs q < Double.pow2 (Double.ilog2 q + 1).
Proof.
  intros Hq. unfold Double.ilog2.
  destruct (Qle_bool _ _) eqn:E.
  - clear E. destruct q as [n d]. cbn [Qnum Qden].
    assert (Hn : (0 < Z.abs n)%Z).
    { destruct (Z.eq_dec n 0) as [->|]; [|lia]. exfalso. apply Hq. reflexivity. }
    set (a := Z.log2 (Z.abs n)). set (b := Z.log2 (Z.pos d)).
    assert (Ha : (0 <= a)%Z) by apply Z.log2_nonneg.
    assert (Hb : (0 <= b)%Z) by apply Z.log2_nonneg.
    assert (Hna : (Z.abs n < 2 ^ (a + 1))%Z).
    { replace (a + 1)%Z with (Z.succ a) by lia. apply Z.log2_spec. exact Hn. }
    assert (Hdb : (2 ^ b <= Z.pos d)%Z) by (apply Z.log2_spec; lia).
    replace (a - b + 1)%Z with ((a + 1) + - b)%Z by lia.
    rewrite pow2_plus. unfold Double.pow2 at 2. rewrite Qpower_opp.
    fold (Double.pow2 b). rewrite (pow2_Z b Hb), (pow2_Z (a + 1)) by lia.
    assert (Habs : Qabs (n # d) == inject_Z (Z.abs n) / inject_Z (Z.pos d)).
    { unfold Qabs. rewrite Qmake_Qdiv. reflexivity. }
    rewrite Habs.
    assert (P1 : 0 < inject_Z (2 ^ b)).
    { rewrite <- pow2_Z by lia. apply pow2_positive. }
    assert (P2 : 0 < inject_Z (Z.pos d)) by (unfold Qlt; simpl; lia).
    apply Qlt_shift_div_r; [exact P2|].
    setoid_replace (inject_Z (2 ^ (a + 1)) * / inject_Z (2 ^ b) * inject_Z (Z.pos d))
      with (inject_Z (2 ^ (a + 1)) * inject_Z (Z.pos d) / inject_Z (2 ^ b))
      by (field; intros H0; rewrite H0 in P1; exact (Qlt_irrefl _ P1)).
    apply Qlt_shift_div_l; [exact P1|].
    rewrite <- !inject_Z_mult, <- Zlt_Qlt.
    assert (Pb : (0 < 2 ^ b)%Z) by (apply Z.pow_pos_nonneg; lia).
    assert (Pa : (0 < 2 ^ (a + 1))%Z) by (apply Z.pow_pos_nonneg; lia).
    apply Z.lt_le_trans with (2 ^ (a + 1) * 2 ^ b)%Z.
    + apply Z.mul_lt_mono_pos_r; assumption.
    + apply Z.mul_le_mono_nonneg_l; lia.
  - replace (Z.log2 (Z.abs (Qnum q)) - Z.log2 (Z.pos (Qden q)) - 1 + 1)%Z
      with (Z.log2 (Z.abs (Qnum q)) - Z.log2 (Z.pos (Qden q)))%Z by lia.
    apply Qnot_le_lt. intros H. apply Qle_bool_iff in H. congruence.
Qed.

Lemma pow2_lt_inv (a b : Z) : Double.pow2 a < Double.pow2 b -> (a < b)%Z.
Proof.
  unfold Double.pow2. intros H. apply (Qpower_lt_compat_l_inv 2); [exact H | reflexivity].
Qed.

Lemma ilog2_comp (x y : Q) : ~ x == 0 -> x == y -> Double.ilog2 x = Double.ilog2 y.
Proof.
  intros Hx E.
  assert (Hy : ~ y == 0) by (rewrite <- E; exact Hx).
  assert (Lx := ilog2_le x Hx). assert (Ux := ilog2_lt x Hx).
  assert (Ly := ilog2_le y Hy). assert (Uy := ilog2_lt y Hy).
  assert (EA : Qabs x == Qabs y) by (apply Qabs_wd; exact E).
  rewrite EA in Lx, Ux.
  assert (A : (Double.ilog2 x < Double.ilog2 y + 1)%Z).
  { apply pow2_lt_inv. eapply Qle_lt_trans; [exact Lx | exact Uy]. }
  assert (B : (Double.ilog2 y < Double.ilog2 x + 1)%Z).
  { apply pow2_lt_inv. eapply Qle_lt_trans; [exact Ly | exact Ux]. }
  lia.
Qed.

Lemma nearestEven_comp (x y : Q) : x == y -> Double.nearestEven x = Double.nearestEven y.
Proof.
  intros E. unfold Double.nearestEven.
  rewrite (Qfloor_comp x y E).
  assert (C : Qcompare (x - inject_Z (Qfloor y)) (1 # 2)
              = Qcompare (y - inject_Z (Qfloor y)) (1 # 2)).
  { apply Qcompare_comp; [rewrite E; reflexivity | reflexivity]. }
  rewrite C. reflexivity.
Qed.

(** [Double.fl] depends on the value only, not on the fraction that
    denotes it. *)
Lemma fl_comp (x y : Q) : x == y -> Double.fl x = Double.fl y.
Proof.
  intros E. unfold Double.fl.
  destruct (Qeq_bool x 0) eqn:Ex.
  - apply Qeq_bool_iff in Ex.
    assert (Ey : Qeq_bool y 0 = true) by (apply Qeq_bool_iff; rewrite <- E; exact Ex).
    rewrite Ey. reflexivity.
  - assert (Hx : ~ x == 0) by (intros H; apply Qeq_bool_iff in H; congruence).
    assert (Ey : Qeq_bool y 0 = false).
    { destruct (Qeq_bool y 0) eqn:Ey; [|reflexivity].
      apply Qeq_bool_iff in Ey. exfalso. apply Hx. rewrite E. exact Ey. }
    rewrite Ey. unfold Double.lastBit. rewrite (ilog2_comp x y Hx E).
    apply Qred_complete.
    rewrite (nearestEven_comp (x / Double.pow2 (Z.max (Double.ilog2 y - 52) (-1074)))
                              (y / Double.pow2 (Z.max (Double.ilog2 y - 52) (-1074))))
      by (rewrite E; reflexivity).
    reflexivity.
Qed.

Lemma Math_pow10_table :
  forallb (fun k => Qeq_bool (Double.Math_pow10 k) (10 ^ k))
          (map Z.of_nat (seq 0 23)) = true.
Proof. vm_compute. reflexivity. Qed.

(** The powers of ten up to [10 ^ 22] are doubles. *)
Lemma Math_pow10_exact (k : Z) : (0 <= k <= 22)%Z -> Double.Math_pow10 k == 10 ^ k.
Proof.
  intros Hk. apply Qeq_bool_iff.
  assert (T := Math_pow10_table). rewrite forallb_forall in T.
  apply T. apply in_map_iff. exists (Z.to_nat k).
  split; [lia|]. apply in_seq. lia.
Qed.

Lemma pow10_range (k : Z) : (0 <= k <= 22)%Z -> 1 <= 10 ^ k /\ 10 ^ k <= 10 ^ 22.
Proof.
  intros Hk. split.
  - apply Qpower_1_le; [discriminate | lia].
  - apply Qpower_le_compat_l; [lia | discriminate].
Qed.

(** A price of at most [2 ^ 51 - 2] units of the last place scales to
    less than [2 ^ 51] units. *)
Lemma scaled_round_bound (value f : Q) :
  Qabs value * f <= 2251799813685246 -> 0 <= f ->
  (Z.abs (Qfloor (Double.mul value f + (1 # 2))) < 2 ^ 51)%Z.
Proof.
  intros Hb Hf. unfold Double.mul.
  assert (B : Qabs (value * f) <= 2251799813685246).
  { rewrite Qabs_Qmult, (Qabs_pos f) by exact Hf. exact Hb. }
  assert (E := fl_error (value * f) _ B).
  set (y := Double.fl (value * f)) in *.
  set (u := Double.pow2 (-53)) in *. set (eta := Double.pow2 (-1075)) in *.
  assert (Hu : u == 1 # 9007199254740992) by reflexivity.
  assert (Heta : eta <= 1 # 36028797018963968).
  { apply Qle_bool_iff. vm_compute. reflexivity. }
  apply Qabs_Qle_condition in E. apply Qabs_Qle_condition in B.
  assert (L := Qfloor_le (y + (1 # 2))).
  assert (U := Qlt_floor (y + (1 # 2))).
  set (m := Qfloor (y + (1 # 2))) in *.
  rewrite inject_Z_plus in U. change (inject_Z 1) with 1 in U.
  change (2 ^ 51)%Z with 2251799813685248%Z.
  assert (H1 : inject_Z m < inject_Z 2251799813685248).
  { change (inject_Z 2251799813685248) with 2251799813685248. lra. }
  assert (H2 : inject_Z (-2251799813685248) < inject_Z m).
  { change (inject_Z (-2251799813685248)) with (-2251799813685248). lra. }
  rewrite <- Zlt_Qlt in H1, H2. lia.
Qed.

Lemma roundToDecimal_stable (n : Z) (k : Z) :
  (0 <= k <= 22)%Z -> (Z.abs n < 2 ^ 51)%Z ->
  Double.roundToDecimal (Double.div (inject_Z n) (Double.Math_pow10 k)) k
  = Double.div (inject_Z n) (Double.Math_pow10 k).
Proof.
  intros Hk Hn. unfold Double.roundToDecimal at 1.
  assert (R := pow10_range k Hk). assert (X := Math_pow10_exact k Hk).
  assert (S : Qfloor (Double.mul (Double.div (inject_Z n) (Double.Math_pow10 k))
                                 (Double.Math_pow10 k) + (1 # 2)) = n).
  { unfold Double.mul, Double.div.
    apply scale_back; [rewrite X; tauto | rewrite X; tauto | exact Hn]. }
  unfold Math_round. rewrite S. reflexivity.
Qed.

Lemma Double_roundPrice_places (price : Q) (pricePrecision : option Z) :
  Double.roundPrice price pricePrecision
  = Double.roundToDecimal price (placesOf pricePrecision).
Proof. destruct pricePrecision; reflexivity. Qed.

End DoubleRounding.

Set Implicit Arguments.

(** C8.  In exact arithmetic, rounding a price is idempotent for every
    price and every precision: a price that is a whole number of units of
    [10 ^ -pricePrecision] is returned unchanged by [roundPrice], and
    rounding any price twice gives the same as rounding it once.  On
    doubles the same holds for a precision from 0 to 22 places within a
    bound on the price: the double nearest to [n / 10 ^ pricePrecision]
    is returned unchanged when [n] is below [2 ^ 51] in magnitude, and
    rounding twice gives the same as rounding once for a price of at most
    [2 ^ 51 - 2] units of the last place. *)
Theorem roundPrice_idempotent :
  (forall (n : Z) (pricePrecision : option Z),
      let p := (inject_Z n / 10 ^ placesOf pricePrecision)%Q in
      (roundPrice p pricePrecision == p)%Q)
  /\ (forall (p : Q) (pricePrecision : option Z),
      (roundPrice (roundPrice p pricePrecision) pricePrecision
       == roundPrice p pricePrecision)%Q)
  /\ (forall (n : Z) (pricePrecision : option Z),
      (0 <= placesOf pricePrecision <= 22)%Z ->
      (Z.abs n < 2 ^ 51)%Z ->
      let p := Double.fl (inject_Z n / 10 ^ placesOf pricePrecision) in
      Double.roundPrice p pricePrecision = p)
  /\ (forall (p : Q) (pricePrecision : option Z),
      (0 <= placesOf pricePrecision <= 22)%Z ->
      (Qabs p * 10 ^ placesOf pricePrecision <= 2 ^ 51 - 2)%Q ->
      Double.roundPrice (Double.roundPrice p pricePrecision) pricePrecision
      = Double.roundPrice p pricePrecision).
Proof.
  split; [|split; [|split]].
  - intros n pricePrecision p. subst p.
    rewrite roundPrice_places.
    apply (roundToDecimal_fixed n (Places (placesOf pricePrecision))).
    simpl. apply pow10_nonzero.
  - intros p pricePrecision.
    rewrite !roundPrice_places.
    apply roundToDecimal_idempotent. simpl. apply pow10_nonzero.
  - intros n pricePrecision Hk Hn p. subst p.
    rewrite Double_roundPrice_places.
    set (k := placesOf pricePrecision) in *.
    assert (E : Double.fl (inject_Z n / 10 ^ k)%Q
                = Double.div (inject_Z n) (Double.Math_pow10 k)).
    { unfold Double.div. apply fl_comp.
      rewrite (Math_pow10_exact k Hk). reflexivity. }
    rewrite E. apply roundToDecimal_stable; assumption.
  - intros p pricePrecision Hk Hb.
    rewrite !Double_roundPrice_places.
    set (k := placesOf pricePrecision) in *.
    unfold Double.roundToDecimal at 2 3.
    apply roundToDecimal_stable; [exact Hk|].
    unfold Math_round. apply scaled_round_bound.
    + rewrite (Math_pow10_exact k Hk).
      eapply Qle_trans; [exact Hb|]. apply Qle_bool_iff. reflexivity.
    + rewrite (Math_pow10_exact k Hk). apply Qlt_le_weak, pow10_positive.
Qed.

(** C8 at the price 0.123456789 and four places: in exact arithmetic and
    on doubles, rounding twice is rounding once, and 0.1235 on doubles is
    returned unchanged. *)
Lemma roundPrice_idempotent_witness :
  (roundPrice (roundPrice 0.123456789 (Some 4%Z)) (Some 4%Z)
   == roundPrice 0.123456789 (Some 4%Z))%Q
  /\ Double.roundPrice (Double.fl (inject_Z 1235 / 10 ^ 4)) (Some 4%Z)
     = Double.fl (inject_Z 1235 / 10 ^ 4)
  /\ Double.roundPrice (Double.roundPrice (Double.fl 0.123456789) (Some 4%Z)) (Some 4%Z)
     = Double.roundPrice (Double.fl 0.123456789) (Some 4%Z)
  /\ Double.roundPrice (Double.fl 0.123456789) (Some 4%Z) = Double.fl 0.1235.
Proof.
  destruct roundPrice_idempotent as (_ & Hexact & Hfixed & Htwice).
  split; [apply Hexact|].
  split.
  { apply (Hfixed 1235%Z (Some 4%Z)); [simpl; lia | vm_compute; reflexivity]. }
  split.
  { apply (Htwice (Double.fl 0.123456789) (Some 4%Z)); [simpl; lia|].
    apply Qle_bool_iff. vm_compute. reflexivity. }
  vm_compute. reflexivity.
Defined.

(** C8 as stated, for every price, fails on doubles.  The double nearest
    to 37199160.408381686 has between [2 ^ 51] and [2 ^ 52] units of the
    eighth place; rounding it to eight places gives 37199160.40838169, and
    rounding that again gives 37199160.4083817.  The same figures come out
    of the Standard Library's specification of binary64 arithmetic. *)
Lemma roundPrice_twice_differs :
  let p := Double.fl 37199160.408381686 in
  let once := Double.roundPrice p (Some 8%Z) in
  let twice := Double.roundPrice once (Some 8%Z) in
  (2 ^ 51 <= p * 10 ^ 8 < 2 ^ 52)%Q
  /\ once = Double.fl 37199160.40838169
  /\ twice = Double.fl 37199160.4083817
  /\ ~ (twice == once)%Q
  /\ (let p64 := binary64_quotient 37199160408381686 1000000000 in
      let once64 := binary64_roundToDecimal p64 8 in
      let twice64 := binary64_roundToDecimal once64 8 in
      binary64_value p64 = p
      /\ binary64_value once64 = once
      /\ binary64_value twice64 = twice).
Proof.
  vm_compute. repeat split; discriminate.
Qed.

(** ** Trading hours *)

Section TradingHours.

Import TimeService.
Open Scope Z_scope.

Lemma isTradingHoursActive_enabled (config : Config) (now : Clock) :
  enabled (tradingHours config) = true ->
  isTradingHoursActive config now = true <->
  (if endHour (tradingHours config) >? startHour (tradingHours config)
   then startHour (tradingHours config) <= utcHours now < endHour (tradingHours config)
   else utcHours now >= startHour (tradingHours config)
        \/ utcHours now < endHour (tradingHours config)).
Proof.
  intros He. unfold isTradingHoursActive. rewrite He. simpl.
  destruct (endHour (tradingHours config) >? startHour (tradingHours config)).
  - rewrite andb_true_iff, Z.geb_le, Z.ltb_lt. lia.
  - rewrite orb_true_iff, Z.geb_le, Z.ltb_lt. lia.
Qed.

Lemma isTradingHoursActive_disabled (config : Config) (now : Clock) :
  enabled (tradingHours config) = false ->
  isTradingHoursActive config now = true.
Proof. intros He. unfold isTradingHoursActive. rewrite He. reflexivity. Qed.

End TradingHours.

(** C5.  With the trading-hours window enabled, the window is active at
    UTC hour [now] exactly when [startHour <= now < endHour] if
    [endHour > startHour], and when [now >= startHour] or [now < endHour]
    otherwise.  With the window 6 to 22, hours 5 and 22 are inactive and
    hours 6 and 21 are active (also at 05:59 and 21:59); with the window
    22 to 6, hours 23 and 5 are active and hour 10 is inactive. *)
Theorem trading_hours_window (base : Config) :
  (forall (startHour endHour : Z) (now : TimeService.Clock),
      TimeService.isTradingHoursActive (hoursConfig base startHour endHour) now = true
      <-> ((endHour > startHour /\ startHour <= TimeService.utcHours now < endHour)
           \/ (~ endHour > startHour
               /\ (TimeService.utcHours now >= startHour
                   \/ TimeService.utcHours now < endHour)))%Z)
  /\ (forall minutes seconds ms : Z,
        let at_ h := {| TimeService.utcHours := h;
                        TimeService.utcMinutes := minutes;
                        TimeService.utcSeconds := seconds;
                        TimeService.utcMilliseconds := ms |} in
        TimeService.isTradingHoursActive (hoursConfig base 6 22) (at_ 5%Z) = false
        /\ TimeService.isTradingHoursActive (hoursConfig base 6 22) (at_ 6%Z) = true
        /\ TimeService.isTradingHoursActive (hoursConfig base 6 22) (at_ 21%Z) = true
        /\ TimeService.isTradingHoursActive (hoursConfig base 6 22) (at_ 22%Z) = false
        /\ TimeService.isTradingHoursActive (hoursConfig base 22 6) (at_ 23%Z) = true
        /\ TimeService.isTradingHoursActive (hoursConfig base 22 6) (at_ 5%Z) = true
        /\ TimeService.isTradingHoursActive (hoursConfig base 22 6) (at_ 10%Z) = false).
Proof.
  split.
  - intros startHour endHour now.
    rewrite (isTradingHoursActive_enabled (hoursConfig base startHour endHour) now eq_refl).
    simpl. destruct (endHour >? startHour)%Z eqn:E.
    + apply Z.gtb_lt in E. lia.
    + assert (~ (endHour > startHour)%Z).
      { intros H. apply Z.gt_lt in H. apply Z.gtb_lt in H. congruence. }
      lia.
  - intros. repeat split; reflexivity.
Qed.

(** ** Position sizing *)

(** C3.  With risk 2.5 %, leverage 20, stop-loss 0.3 % and take-profit
    0.5 %, sizing a LONG position on a balance of 1000 at entry price 100
    gives riskAmount 25, stopLossPrice 99.7, stop distance 0.3, a position
    size of 25 / 0.3 * 100 (8333.33 to two places), a required margin of
    416.67 to two places, which does not exceed 1000 so that no clamp is
    applied, a quantity before rounding of 83.33 to two places, and
    takeProfitPrice 100.5. *)
Theorem sizing_scenario (base : Config) :
  let config := scenarioConfig base in
  (Risk.riskAmount config 1000 == 25
   /\ Risk.stopLossPrice config 100 "LONG" == 99.7
   /\ Risk.stopLossDistance config 100 "LONG" == 0.3
   /\ Risk.positionSize config 1000 100 "LONG" == 25 / 0.3 * 100
   /\ toFixed2 (Risk.positionSize config 1000 100 "LONG") == 8333.33
   /\ toFixed2 (Risk.requiredMargin config 1000 100 "LONG") == 416.67
   /\ Risk.requiredMargin config 1000 100 "LONG" <= 1000
   /\ Risk.clampedPositionSize config 1000 100 "LONG"
      = Risk.positionSize config 1000 100 "LONG"
   /\ toFixed2 (Risk.quantity config 1000 100 "LONG") == 83.33
   /\ Risk.takeProfitPrice config 100 "LONG" == 100.5
   /\ exists p,
       Risk.calculatePositionParameters config 1000 100 "LONG" Risk.emptySymbolInfo
       = Ok p
       /\ Risk.pp_riskAmount p == 25
       /\ Risk.pp_stopLoss p == 99.7
       /\ Risk.pp_takeProfit p == 100.5
       /\ Risk.pp_entryPrice p == 100
       /\ Risk.pp_quantity p == 83.3333)%Q.
Proof.
  intros config.
  repeat match goal with |- _ /\ _ => split end;
    try (vm_compute; reflexivity);
    try (vm_compute; discriminate).
  eexists. split; [ vm_compute; reflexivity | ].
  repeat split; vm_compute; reflexivity.
Qed.

(** C2, at an instrument whose quantity step is 10.  With the default
    settings, a balance of 1000, an entry price of 100 and direction LONG,
    [calculatePositionParameters] succeeds and returns the quantity 83.3,
    which lies between minQty and maxQty and needs a margin of 416.5, but
    is not a multiple of the step 10. *)
Theorem sizing_step_ten_not_multiple :
  exists p,
    Risk.calculatePositionParameters defaultConfig 1000 100 "LONG" stepTenInstrument
    = Ok p
    /\ (Risk.pp_quantity p == 83.3)%Q
    /\ (10 <= Risk.pp_quantity p <= 1000000)%Q
    /\ (Risk.pp_requiredMargin p == 416.5)%Q
    /\ ~ isMultipleOf (Risk.pp_quantity p) 10.
Proof.
  eexists. split; [ vm_compute; reflexivity | ].
  split; [ vm_compute; reflexivity | ].
  split; [ split; vm_compute; discriminate | ].
  split; [ vm_compute; reflexivity | ].
  intros [k Hk].
  match type of Hk with
  | (?q == _)%Q => let q' := eval vm_compute in q in change q with q' in Hk
  end.
  unfold Qeq in Hk. simpl in Hk. lia.
Qed.

(** ** The map of open positions *)

Section MapFacts.

Variable V : Type.
Implicit Types (m : JsMap.t V) (k : string) (v : V).

Lemma get_set_same k v m : JsMap.get k (JsMap.set k v m) = Some v.
Proof.
  induction m as [|[k' v'] r IH]; simpl.
  - rewrite String.eqb_refl. reflexivity.
  - destruct (k =? k')%string eqn:E; simpl.
    + rewrite String.eqb_refl. reflexivity.
    + rewrite E. exact IH.
Qed.

Lemma get_set_other k k' v m :
  k' <> k -> JsMap.get k' (JsMap.set k v m) = JsMap.get k' m.
Proof.
  intros Hne. induction m as [|[k0 v0] r IH]; simpl.
  - apply String.eqb_neq in Hne. rewrite Hne. reflexivity.
  - destruct (k =? k0)%string eqn:E; simpl.
    + apply String.eqb_eq in E. subst k0.
      apply String.eqb_neq in Hne. rewrite Hne. reflexivity.
    + rewrite IH. reflexivity.
Qed.

Lemma keys_set k v m :
  JsMap.keys (JsMap.set k v m)
  = if JsMap.has k m then JsMap.keys m else JsMap.keys m ++ [k].
Proof.
  unfold JsMap.has. induction m as [|[k0 v0] r IH]; simpl.
  - reflexivity.
  - destruct (k =? k0)%string eqn:E; simpl.
    + apply String.eqb_eq in E. subst k0. reflexivity.
    + rewrite IH. destruct (JsMap.get k r); reflexivity.
Qed.

Lemma has_false_not_in k m : JsMap.has k m = false -> ~ In k (JsMap.keys m).
Proof.
  unfold JsMap.has. induction m as [|[k0 v0] r IH]; simpl.
  - intros _ [].
  - destruct (k =? k0)%string eqn:E; [discriminate|].
    intros H [H0|H0].
    + subst k0. rewrite String.eqb_refl in E. discriminate.
    + exact (IH H H0).
Qed.

Lemma size_set k v m :
  JsMap.size (JsMap.set k v m)
  = if JsMap.has k m then JsMap.size m else (JsMap.size m + 1)%Z.
Proof.
  unfold JsMap.size.
  rewrite <- (length_map fst (JsMap.set k v m)), <- (length_map fst m).
  fold (JsMap.keys (JsMap.set k v m)). fold (JsMap.keys m).
  rewrite keys_set. destruct (JsMap.has k m); [reflexivity|].
  rewrite length_app. simpl. lia.
Qed.

Lemma keys_NoDup_set k v m :
  NoDup (JsMap.keys m) -> NoDup (JsMap.keys (JsMap.set k v m)).
Proof.
  intros H. rewrite keys_set. destruct (JsMap.has k m) eqn:E; [exact H|].
  apply NoDup_app; [exact H | repeat constructor; intros [] | ].
  intros x Hx [Hk|[]]. subst x. exact (has_false_not_in _ _ E Hx).
Qed.

Lemma In_set k v m e :
  In e (JsMap.set k v m) -> e = (k, v) \/ In e m.
Proof.
  induction m as [|[k0 v0] r IH]; simpl.
  - intros [H|[]]; auto.
  - destruct (k =? k0)%string; simpl; intros [H|H]; auto.
    destruct (IH H); auto.
Qed.

Lemma In_delete k m e : In e (JsMap.delete k m) -> In e m.
Proof.
  induction m as [|[k0 v0] r IH]; simpl; [tauto|].
  destruct (k =? k0)%string; simpl; intros H; [auto|].
  destruct H; auto.
Qed.

Lemma keys_NoDup_delete k m :
  NoDup (JsMap.keys m) -> NoDup (JsMap.keys (JsMap.delete k m)).
Proof.
  induction m as [|[k0 v0] r IH]; simpl; intros H; [exact H|].
  inversion H as [|x l Hnin Hnd]; subst.
  destruct (k =? k0)%string; simpl; [exact Hnd|].
  constructor; [|exact (IH Hnd)].
  intros Hin. apply Hnin.
  unfold JsMap.keys in *. apply in_map_iff in Hin.
  destruct Hin as [e [He Hin]]. apply in_map_iff.
  exists e. split; [exact He|]. exact (In_delete _ _ _ Hin).
Qed.

Lemma get_delete_same k m :
  NoDup (JsMap.keys m) -> JsMap.get k (JsMap.delete k m) = None.
Proof.
  induction m as [|[k0 v0] r IH]; simpl; intros H; [reflexivity|].
  inversion H as [|x l Hnin Hnd]; subst.
  destruct (k =? k0)%string eqn:E; simpl.
  - apply String.eqb_eq in E. subst k0.
    destruct (JsMap.get k r) eqn:G; [|reflexivity].
    exfalso. apply Hnin. clear - G.
    induction r as [|[k1 v1] r IH]; simpl in *; [discriminate|].
    destruct (k =? k1)%string eqn:E1.
    + apply String.eqb_eq in E1. auto.
    + right. exact (IH G).
  - rewrite E. exact (IH Hnd).
Qed.

Lemma get_delete_other k k' m :
  k' <> k -> JsMap.get k' (JsMap.delete k m) = JsMap.get k' m.
Proof.
  intros Hne. induction m as [|[k0 v0] r IH]; simpl; [reflexivity|].
  destruct (k =? k0)%string eqn:E; simpl.
  - apply String.eqb_eq in E. subst k0.
    apply String.eqb_neq in Hne. rewrite Hne. reflexivity.
  - rewrite IH. reflexivity.
Qed.

End MapFacts.

(** ** The ledger keeps one open position per symbol *)

Section LedgerInvariant.

Import Position PositionService.

Lemma wellKeyed_constructor : wellKeyed constructor.
Proof. split; constructor. Qed.

Lemma wellKeyed_addOpenPosition this positionData now :
  wellKeyed this -> wellKeyed (addOpenPosition this positionData now).
Proof.
  intros [Hnd Hk]. split; simpl.
  - apply keys_NoDup_set. exact Hnd.
  - apply Forall_forall. intros e He.
    apply In_set in He. destruct He as [He|He].
    + subst e. reflexivity.
    + rewrite Forall_forall in Hk. exact (Hk e He).
Qed.

Lemma wellKeyed_removeOpenPosition this symbol :
  wellKeyed this -> wellKeyed (fst (removeOpenPosition this symbol)).
Proof.
  intros [Hnd Hk]. unfold removeOpenPosition.
  destruct (JsMap.get symbol (openPositions this)); simpl; [|split; assumption].
  split; simpl.
  - apply keys_NoDup_delete. exact Hnd.
  - apply Forall_forall. intros e He. apply In_delete in He.
    rewrite Forall_forall in Hk. exact (Hk e He).
Qed.

Lemma wellKeyed_addClosedPosition this positionData now :
  wellKeyed this -> wellKeyed (addClosedPosition this positionData now).
Proof. intros H. exact H. Qed.

Lemma wellKeyed_resetDailyStatistics this :
  wellKeyed this -> wellKeyed (resetDailyStatistics this).
Proof. intros H. exact H. Qed.

Lemma reachable_wellKeyed this : reachable this -> wellKeyed this.
Proof.
  induction 1;
    auto using wellKeyed_constructor, wellKeyed_addOpenPosition,
               wellKeyed_removeOpenPosition, wellKeyed_addClosedPosition,
               wellKeyed_resetDailyStatistics.
Qed.

Lemma no_position_for_absent_key (m : JsMap.t OpenPosition) symbol :
  ~ In symbol (JsMap.keys m) ->
  Forall (fun e => op_symbol (snd e) = fst e) m ->
  filter (fun p => (op_symbol p =? symbol)%string) (JsMap.values m) = [].
Proof.
  induction m as [|[k v] r IH]; simpl; intros Hnin Hk; [reflexivity|].
  inversion Hk as [|e l He Hr]; subst. simpl in He.
  destruct (op_symbol v =? symbol)%string eqn:E.
  - apply String.eqb_eq in E. exfalso. apply Hnin. left. congruence.
  - apply IH; [tauto | exact Hr].
Qed.

Lemma wellKeyed_uniqueSymbols this : wellKeyed this -> uniqueSymbols this.
Proof.
  intros [Hnd Hk] symbol. unfold positionsFor, getAllOpenPositions.
  induction (openPositions this) as [|[k v] r IH]; simpl; [lia|].
  inversion Hnd as [|x l Hnin Hnd']; subst.
  inversion Hk as [|e l He Hr]; subst. simpl in He.
  destruct (op_symbol v =? symbol)%string eqn:E.
  - apply String.eqb_eq in E.
    rewrite no_position_for_absent_key; [simpl; lia | | exact Hr].
    congruence.
  - exact (IH Hnd' Hr).
Qed.

End LedgerInvariant.

(** C10.  [addOpenPosition] stores under the argument's symbol a record
    that carries the argument's symbol, direction, entry price, quantity,
    take-profit, stop-loss and the three order ids, with the argument's
    timestamp when it has one that is not 0 and the time of the call
    otherwise.  An open position already stored for that symbol is
    replaced (the number of open positions stays the same, and grows by
    one only when the symbol was not there); the open position of every
    other symbol and the closed-position history are unchanged.  A ledger
    that holds at most one open position per symbol still does so after
    the call, and every ledger reachable from a new [PositionService] holds
    at most one open position per symbol. *)
Theorem addOpenPosition_frame :
  (forall (this : Position.Ledger) (positionData : Position.PositionData) (now : Z),
      let this' := PositionService.addOpenPosition this positionData now in
      (exists stored,
          PositionService.getOpenPosition this' (Position.pd_symbol positionData)
          = Some stored
          /\ stored = PositionService.trackedRecord positionData now
          /\ Position.op_symbol stored = Position.pd_symbol positionData
          /\ Position.op_direction stored = Position.pd_direction positionData
          /\ Position.op_entryPrice stored = Position.pd_entryPrice positionData
          /\ Position.op_quantity stored = Position.pd_quantity positionData
          /\ Position.op_takeProfit stored = Position.pd_takeProfit positionData
          /\ Position.op_stopLoss stored = Position.pd_stopLoss positionData
          /\ Position.op_orderId stored = Position.pd_orderId positionData
          /\ Position.op_tpOrderId stored = Position.pd_tpOrderId positionData
          /\ Position.op_slOrderId stored = Position.pd_slOrderId positionData
          /\ (forall timestamp,
                 Position.pd_timestamp positionData = Some timestamp ->
                 timestamp <> 0%Z ->
                 Position.op_timestamp stored = timestamp)
          /\ (Position.pd_timestamp positionData = None
              \/ Position.pd_timestamp positionData = Some 0%Z ->
              Position.op_timestamp stored = now))
      /\ PositionService.getOpenPositionsCount this'
         = (if PositionService.hasOpenPosition this (Position.pd_symbol positionData)
            then PositionService.getOpenPositionsCount this
            else PositionService.getOpenPositionsCount this + 1)%Z
      /\ (forall symbol,
             symbol <> Position.pd_symbol positionData ->
             PositionService.getOpenPosition this' symbol
             = PositionService.getOpenPosition this symbol)
      /\ Position.closedPositions this' = Position.closedPositions this
      /\ (wellKeyed this -> wellKeyed this' /\ uniqueSymbols this'))
  /\ (forall this : Position.Ledger, reachable this -> uniqueSymbols this).
Proof.
  split.
  - intros this positionData now this'. subst this'.
    unfold PositionService.getOpenPosition, PositionService.getOpenPositionsCount,
      PositionService.hasOpenPosition. simpl.
    split.
    { exists (PositionService.trackedRecord positionData now).
      split; [apply get_set_same|].
      do 10 (split; [reflexivity|]).
      unfold PositionService.trackedRecord, PositionService.timestampOr.
      cbn [Position.op_timestamp].
      split.
      - intros timestamp -> Hne.
        destruct (timestamp =? 0)%Z eqn:E; [|reflexivity].
        apply Z.eqb_eq in E. contradiction.
      - intros [-> | ->]; reflexivity. }
    split; [apply size_set|].
    split; [intros symbol Hne; apply get_set_other; exact Hne|].
    split; [reflexivity|].
    intros Hwk.
    assert (Hwk' := @wellKeyed_addOpenPosition this positionData now Hwk).
    split; [exact Hwk' | exact (wellKeyed_uniqueSymbols Hwk')].
  - intros this Hr. apply wellKeyed_uniqueSymbols, reachable_wellKeyed, Hr.
Qed.

(** The statement of C10 at a ledger that already tracks the symbol: the
    second call replaces the record of the first, field by field. *)
Lemma addOpenPosition_frame_witness :
  let first :=
    {| Position.pd_symbol := "ADAUSDT"; Position.pd_direction := "LONG";
       Position.pd_entryPrice := 100; Position.pd_quantity := 1;
       Position.pd_takeProfit := 100.5; Position.pd_stopLoss := 99.7;
       Position.pd_orderId := Some "1"%string; Position.pd_timestamp := Some 5%Z;
       Position.pd_tpOrderId := None; Position.pd_slOrderId := None |} in
  let second :=
    {| Position.pd_symbol := "ADAUSDT"; Position.pd_direction := "SHORT";
       Position.pd_entryPrice := 101; Position.pd_quantity := 2;
       Position.pd_takeProfit := 100.495; Position.pd_stopLoss := 101.303;
       Position.pd_orderId := Some "2"%string; Position.pd_timestamp := None;
       Position.pd_tpOrderId := Some "TP"%string;
       Position.pd_slOrderId := Some "SL"%string |} in
  let this := PositionService.addOpenPosition PositionService.constructor first 1 in
  let this' := PositionService.addOpenPosition this second 2 in
  wellKeyed this
  /\ uniqueSymbols this'
  /\ PositionService.getOpenPositionsCount this' = 1%Z
  /\ exists stored,
       PositionService.getOpenPosition this' "ADAUSDT" = Some stored
       /\ Position.op_symbol stored = "ADAUSDT"%string
       /\ Position.op_direction stored = "SHORT"%string
       /\ Position.op_entryPrice stored = 101%Q
       /\ Position.op_quantity stored = 2%Q
       /\ Position.op_takeProfit stored = 100.495%Q
       /\ Position.op_stopLoss stored = 101.303%Q
       /\ Position.op_orderId stored = Some "2"%string
       /\ Position.op_tpOrderId stored = Some "TP"%string
       /\ Position.op_slOrderId stored = Some "SL"%string
       /\ Position.op_timestamp stored = 2%Z.
Proof.
  intros first second this this'.
  assert (Hwk : wellKeyed this).
  { split; simpl.
    - repeat constructor. intros [].
    - repeat constructor. }
  destruct (proj1 addOpenPosition_frame this second 2%Z)
    as ((stored & Hget & _ & Hsym & Hdir & Hentry & Hqty & Htp & Hsl & Hid & Htpid
         & Hslid & _ & Hnow) & Hcount & _ & _ & Hunique).
  split; [exact Hwk|].
  split; [exact (proj2 (Hunique Hwk))|].
  split; [exact Hcount|].
  exists stored.
  split; [exact Hget|].
  split; [exact Hsym|]. split; [exact Hdir|]. split; [exact Hentry|].
  split; [exact Hqty|]. split; [exact Htp|]. split; [exact Hsl|].
  split; [exact Hid|]. split; [exact Htpid|]. split; [exact Hslid|].
  apply Hnow. left. reflexivity.
Defined.

(** ** Setting the leverage *)

Section Leverage.

Import Bybit Runtime Bot.






Lemma setLeverage_rejected (message : string) :
  mentionsNotModified message = false ->
  setLeverage (Rejected message) = Throw (ApiError message).
Proof. unfold setLeverage. intros H. rewrite H. reflexivity. Qed.

End Leverage.

(** ** The order legs of [openPosition] *)

Section OrderLegs.

Import Bybit Runtime Bot.

Variable config : Config.
Variable env : Env.
Variable signal : Signal.
Variable balance : Q.
Variable params : Risk.PositionParameters.

Hypothesis live : dryRun (trading config) = false.
Hypothesis sizing : sizingSucceeds config env signal balance params.

Ltac run_sizing :=
  destruct sizing as (currentPrice & symbolInfo & Hb & Hp & Hi & Hc & Hs);
  cbv [openPosition try_catch bind await updateStats updateLedger lift throw ret];
  rewrite Hb, Hp, Hi, Hc, Hs, live;
  cbv [negb];
  fold (leverageOutcome config env signal);
  fold (entryOutcome config env signal params);
  fold (takeProfitOutcome config env signal params);
  fold (stopLossOutcome config env signal params).

Ltac same_world :=
  unfold afterCalls; cbn [ledger statistics calls];
  repeat rewrite <- app_assoc; reflexivity.


(** The entry order throws. *)
Lemma openPosition_entry_fails (w : World) (e : error) :
  setLeverage (leverageOutcome config env signal) = Ok true ->
  openMarketOrder (entryOutcome config env signal params) = Throw e ->
  openPosition config env signal w
  = (Throw e,
     afterCalls w balance
       (callsUpToLeverage config signal ++ [entryOrderCall config signal params])).
Proof.
  intros Hl He. run_sizing. rewrite Hl, He. f_equal. same_world.
Qed.

(** The entry order is placed and the take-profit throws. *)
Lemma openPosition_takeProfit_fails (w : World) (orderResult : OrderResult) (e : error) :
  setLeverage (leverageOutcome config env signal) = Ok true ->
  openMarketOrder (entryOutcome config env signal params) = Ok orderResult ->
  setTakeProfit (takeProfitOutcome config env signal params) = Throw e ->
  openPosition config env signal w
  = (Throw e,
     afterCalls w balance
       (callsUpToLeverage config signal
        ++ [entryOrderCall config signal params;
            takeProfitCall config signal params])).
Proof.
  intros Hl He Ht. run_sizing. rewrite Hl, He, Ht. f_equal. same_world.
Qed.

(** The entry order and the take-profit are placed and the stop-loss
    throws. *)
Lemma openPosition_stopLoss_fails (w : World) (orderResult tpResult : OrderResult)
    (e : error) :
  setLeverage (leverageOutcome config env signal) = Ok true ->
  openMarketOrder (entryOutcome config env signal params) = Ok orderResult ->
  setTakeProfit (takeProfitOutcome config env signal params) = Ok tpResult ->
  setStopLoss (stopLossOutcome config env signal params) = Throw e ->
  openPosition config env signal w
  = (Throw e,
     afterCalls w balance
       (callsUpToLeverage config signal
        ++ [entryOrderCall config signal params;
            takeProfitCall config signal params;
            stopLossCall config signal params])).
Proof.
  intros Hl He Ht Hsl. run_sizing. rewrite Hl, He, Ht, Hsl. f_equal. same_world.
Qed.

(** Building the message for an object without [symbol] throws. *)
Lemma formatPositionOpenedMessage_throws (balance' : Q) (timestamp : option Z) :
  TelegramService.formatPositionOpenedMessage
    (openedMessageData params balance' timestamp)
  = Throw (TypeError "replace").
Proof. reflexivity. Qed.

(** All three orders are placed: the position is added to the ledger and
    the trade is counted; building the message then throws, before
    anything is sent. *)
Lemma openPosition_all_placed (w : World) (orderResult tpResult slResult : OrderResult) :
  setLeverage (leverageOutcome config env signal) = Ok true ->
  openMarketOrder (entryOutcome config env signal params) = Ok orderResult ->
  setTakeProfit (takeProfitOutcome config env signal params) = Ok tpResult ->
  setStopLoss (stopLossOutcome config env signal params) = Ok slResult ->
  openPosition config env signal w
  = (Throw (TypeError "replace"),
     {| ledger :=
          PositionService.addOpenPosition (ledger w)
            (livePositionData signal params orderResult tpResult slResult)
            (dateNow env);
        statistics := countTrade (setCurrentBalance balance (statistics w));
        calls :=
          calls w
          ++ callsUpToLeverage config signal
          ++ [entryOrderCall config signal params;
              takeProfitCall config signal params;
              stopLossCall config signal params] |}).
Proof.
  intros Hl He Ht Hsl. run_sizing. rewrite Hl, He, Ht, Hsl.
  rewrite formatPositionOpenedMessage_throws.
  cbn [ledger statistics calls].
  f_equal; unfold livePositionData; f_equal; repeat rewrite <- app_assoc; reflexivity.
Qed.

End OrderLegs.

(** ** Scenarios *)

Section Scenarios.

Import Bybit Runtime Bot.

Lemma scriptedParams_values :
  (Risk.pp_quantity scriptedParams == 83.33
   /\ Risk.pp_requiredMargin scriptedParams == 416.65
   /\ Risk.pp_stopLoss scriptedParams == 99.7
   /\ Risk.pp_takeProfit scriptedParams == 100.5)%Q.
Proof. repeat split. Qed.

Lemma scripted_sizing lev entry tp sl :
  sizingSucceeds defaultConfig (scriptedEnv lev entry tp sl) longSignal 1000
                 scriptedParams.
Proof. exists 100%Q, scriptedInstrument. repeat split. Qed.

End Scenarios.



(** C1, as the code has it.  When [setLeverage] and the market entry order
    succeed and the take-profit or the stop-loss placement then throws,
    [openPosition] rethrows that error to its caller; the entry order has
    been placed, the ledger is left as it was (no [addOpenPosition]) and no
    trade is counted. *)
Theorem openPosition_protection_fails
    (config : Config) (env : Runtime.Env) (signal : Bot.Signal)
    (balance : Q) (params : Risk.PositionParameters)
    (w : Runtime.World) (orderResult : Bybit.OrderResult) (e : error) :
  dryRun (trading config) = false ->
  sizingSucceeds config env signal balance params ->
  Bybit.setLeverage (leverageOutcome config env signal) = Ok true ->
  Bybit.openMarketOrder (entryOutcome config env signal params) = Ok orderResult ->
  (Bybit.setTakeProfit (takeProfitOutcome config env signal params) = Throw e
   \/ (exists tpResult,
          Bybit.setTakeProfit (takeProfitOutcome config env signal params) = Ok tpResult
          /\ Bybit.setStopLoss (stopLossOutcome config env signal params) = Throw e)) ->
  let '(r, w') := Bot.openPosition config env signal w in
  r = Throw e
  /\ Runtime.ledger w' = Runtime.ledger w
  /\ Runtime.totalTrades (Runtime.statistics w') = Runtime.totalTrades (Runtime.statistics w)
  /\ Runtime.dailyTrades (Runtime.statistics w') = Runtime.dailyTrades (Runtime.statistics w)
  /\ In (entryOrderCall config signal params) (Runtime.calls w').
Proof.
  intros Hlive Hsizing Hl He [Ht | [tpResult [Ht Hsl]]].
  - rewrite (openPosition_takeProfit_fails Hlive Hsizing w Hl He Ht).
    repeat split. cbn [afterCalls Runtime.calls].
    apply in_or_app. right. apply in_or_app. right. left. reflexivity.
  - rewrite (openPosition_stopLoss_fails Hlive Hsizing w Hl He Ht Hsl).
    repeat split. cbn [afterCalls Runtime.calls].
    apply in_or_app. right. apply in_or_app. right. left. reflexivity.
Qed.

(** C1 in the scripted world: the entry order "E1" is accepted and the
    take-profit is refused. *)
Lemma openPosition_protection_fails_witness :
  let env := scriptedEnv (respond 0 "OK" None) (respond 0 "OK" (Some "E1"%string))
               (respond 10001 "tp rejected" None) (respond 0 "OK" None) in
  let '(r, w') := Bot.openPosition defaultConfig env longSignal initialWorld in
  r = Throw (ApiError "Failed to set Take Profit: tp rejected")
  /\ Runtime.ledger w' = Runtime.ledger initialWorld
  /\ Runtime.totalTrades (Runtime.statistics w') = 0%Z
  /\ Runtime.dailyTrades (Runtime.statistics w') = 0%Z
  /\ In (entryOrderCall defaultConfig longSignal scriptedParams) (Runtime.calls w').
Proof.
  apply (@openPosition_protection_fails defaultConfig
           (scriptedEnv (respond 0 "OK" None) (respond 0 "OK" (Some "E1"%string))
              (respond 10001 "tp rejected" None) (respond 0 "OK" None))
           longSignal 1000%Q scriptedParams initialWorld
           {| Bybit.orderId := Some "E1"%string |}
           (ApiError "Failed to set Take Profit: tp rejected")).
  - reflexivity.
  - exists 100%Q, scriptedInstrument. repeat split.
  - reflexivity.
  - reflexivity.
  - left. reflexivity.
Defined.

(** C1 as stated fails: in the scripted world the leverage is set, the
    entry order "E1" is accepted and the take-profit is refused; the
    operation ends with no open position for the symbol in the ledger, not
    with one. *)
Lemma partial_protection_inserts_nothing :
  let env := scriptedEnv (respond 0 "OK" None) (respond 0 "OK" (Some "E1"%string))
               (respond 10001 "tp rejected" None) (respond 0 "OK" None) in
  Bybit.setLeverage (leverageOutcome defaultConfig env longSignal) = Ok true
  /\ Bybit.openMarketOrder (entryOutcome defaultConfig env longSignal scriptedParams)
     = Ok {| Bybit.orderId := Some "E1"%string |}
  /\ Bybit.setTakeProfit (takeProfitOutcome defaultConfig env longSignal scriptedParams)
     = Throw (ApiError "Failed to set Take Profit: tp rejected")
  /\ let '(r, w') := Bot.openPosition defaultConfig env longSignal initialWorld in
     r = Throw (ApiError "Failed to set Take Profit: tp rejected")
     /\ In (entryOrderCall defaultConfig longSignal scriptedParams) (Runtime.calls w')
     /\ positionsFor "ADAUSDT" (Runtime.ledger w') = []
     /\ length (positionsFor "ADAUSDT" (Runtime.ledger w')) <> 1%nat
     /\ PositionService.hasOpenPosition (Runtime.ledger w') "ADAUSDT" = false.
Proof.
  vm_compute. repeat split; try discriminate.
  do 4 right. left. reflexivity.
Qed.

(** ** Reconciliation *)

Section Reconciliation.

Import Position Runtime PositionService.

Lemma isCloseTrade_iff symbol trackedPosition t :
  isCloseTrade symbol trackedPosition t = true
  <-> closesDirection symbol (op_direction trackedPosition) t.
Proof.
  unfold isCloseTrade, closesDirection.
  rewrite andb_true_iff, orb_true_iff, !andb_true_iff, !String.eqb_eq.
  tauto.
Qed.

Lemma find_first_match (A : Type) (f : A -> bool) (before after : list A) (x : A) :
  Forall (fun y => f y = false) before ->
  f x = true ->
  find f (before ++ x :: after) = Some x.
Proof.
  induction 1 as [|y l Hy Hl IH]; simpl; intros Hx.
  - rewrite Hx. reflexivity.
  - rewrite Hy. exact (IH Hx).
Qed.

Lemma find_no_match (A : Type) (f : A -> bool) (l : list A) :
  Forall (fun y => f y = false) l -> find f l = None.
Proof.
  induction 1 as [|y l Hy Hl IH]; simpl; [reflexivity|].
  rewrite Hy. exact IH.
Qed.

Lemma calculatePnL_valid (entryPrice exitPrice quantity : Q) (direction : string) :
  (0 < entryPrice)%Q -> (0 < exitPrice)%Q -> (0 < quantity)%Q ->
  calculatePnL entryPrice exitPrice quantity direction
  = directionPnl direction entryPrice exitPrice quantity.
Proof.
  intros He Hx Hq. unfold calculatePnL, directionPnl, isValidNumber, Qltb.
  assert (F : forall v, (0 < v)%Q -> Qle_bool v 0 = false).
  { intros v Hv. destruct (Qle_bool v 0) eqn:E; [|reflexivity].
    apply Qle_bool_iff in E. exfalso. exact (Qlt_not_le _ _ Hv E). }
  rewrite (F _ He), (F _ Hx), (F _ Hq). reflexivity.
Qed.

Lemma calculatePnL_invalid (entryPrice exitPrice quantity : Q) (direction : string) :
  (entryPrice <= 0 \/ exitPrice <= 0 \/ quantity <= 0)%Q ->
  calculatePnL entryPrice exitPrice quantity direction = 0%Q.
Proof.
  intros H. unfold calculatePnL, isValidNumber, Qltb.
  assert (T : forall v, (v <= 0)%Q -> Qle_bool v 0 = true)
    by (intros v Hv; apply Qle_bool_iff; exact Hv).
  destruct H as [H|[H|H]]; rewrite (T _ H); simpl;
    repeat rewrite orb_true_r; reflexivity.
Qed.

Variable config : Config.
Variable env : Env.

Lemma handlePositionClosed_trades (symbol : string) (trackedPosition : OpenPosition)
    (trades : list Bybit.Trade) (w : World) :
  getTradeHistory env symbol 10 = Ok trades ->
  let data := closedPositionData env symbol trackedPosition trades in
  handlePositionClosed config env symbol trackedPosition w
  = (Ok tt,
     {| ledger :=
          fst (removeOpenPosition
                 (addClosedPosition (ledger w) data (dateNow env)) symbol);
        statistics := statistics w;
        calls := calls w ++ closingCalls config symbol data |}).
Proof.
  intros Ht data.
  cbv [handlePositionClosed try_catch bind await updateLedger ret].
  rewrite Ht. fold data. cbn [ledger statistics calls].
  unfold closingCalls. destruct (dryRun (trading config)); cbv [negb].
  - reflexivity.
  - destruct (sendMessage env (PositionClosed data)) as [[]|e];
      cbn [ledger statistics calls]; rewrite <- app_assoc; reflexivity.
Qed.

Lemma handlePositionClosed_no_trades (symbol : string) (trackedPosition : OpenPosition)
    (e : error) (w : World) :
  getTradeHistory env symbol 10 = Throw e ->
  handlePositionClosed config env symbol trackedPosition w
  = (Ok tt,
     {| ledger := ledger w; statistics := statistics w;
        calls := calls w ++ [GetTradeHistory symbol 10] |}).
Proof.
  intros Ht.
  cbv [handlePositionClosed try_catch bind await updateLedger ret].
  rewrite Ht. reflexivity.
Qed.

Lemma checkPosition_closed (exchangePositions : list Bybit.ExchangePosition)
    (symbol : string) (trackedPosition : OpenPosition) (w : World) :
  closedOnExchange exchangePositions symbol ->
  checkPosition config env exchangePositions (symbol, trackedPosition) w
  = handlePositionClosed config env symbol trackedPosition w.
Proof.
  unfold closedOnExchange, checkPosition.
  destruct (find _ exchangePositions) as [pos|]; [|reflexivity].
  intros H. apply Qeq_eq_bool in H. rewrite H. reflexivity.
Qed.

End Reconciliation.

Lemma mostRecentFirst_after (before after : list Bybit.Trade) (t : Bybit.Trade) :
  mostRecentFirst (before ++ t :: after) ->
  Forall (fun t' => (Bybit.execTime t' <= Bybit.execTime t)%Z) after.
Proof.
  induction before as [|x before IH]; cbn [app mostRecentFirst].
  - intros [H _]. exact H.
  - intros [_ H]. exact (IH H).
Qed.

(** C4, as the code has it.  For a tracked position whose symbol is absent
    from the live-position list, or listed with size zero, the
    reconciliation step returns normally, and what it does depends on the
    trade-history query.

    When the query is answered, the position is closed.  The exit price is
    the price of the first trade of the answered list that is a trade of
    the symbol on the closing side (Sell for LONG, Buy for SHORT): the
    most recent such trade when the list comes most recent first, as the
    exchange lists it; and the entry price when the list has no such
    trade.  When the entry price, the exit price and the quantity are
    positive, the realized profit is (exit - entry) * quantity for LONG
    and (entry - exit) * quantity for SHORT; when one of them is not
    positive it is 0.  The record, made of the tracked position and the
    exit fields, is appended at the end of the closed history; the symbol
    is no longer open, the other open positions are untouched, and
    [totalTrades] of [getStatistics] grows by exactly one.

    When the query throws, the error is swallowed: the ledger and the
    statistics are as before, the position is still open, and the query is
    the only call made (no message is sent). *)
Theorem reconciliation_closes_position
    (config : Config) (env : Runtime.Env)
    (exchangePositions : list Bybit.ExchangePosition)
    (symbol : string) (tracked : Position.OpenPosition) (w : Runtime.World) :
  wellKeyed (Runtime.ledger w) ->
  PositionService.getOpenPosition (Runtime.ledger w) symbol = Some tracked ->
  closedOnExchange exchangePositions symbol ->
  let '(r, w') :=
    PositionService.checkPosition config env exchangePositions (symbol, tracked) w in
  let direction := Position.op_direction tracked in
  let entryPrice := Position.op_entryPrice tracked in
  let quantity := Position.op_quantity tracked in
  r = Ok tt
  /\ (forall trades,
         Runtime.getTradeHistory env symbol 10 = Ok trades ->
         let data := PositionService.closedPositionData env symbol tracked trades in
         let exitPrice := Position.cpd_exitPrice data in
         (forall before t after,
             trades = (before ++ t :: after)%list ->
             Forall (fun x => ~ closesDirection symbol direction x) before ->
             closesDirection symbol direction t ->
             exitPrice = Bybit.execPrice t
             /\ (mostRecentFirst trades ->
                 forall t', In t' trades -> closesDirection symbol direction t' ->
                            (Bybit.execTime t' <= Bybit.execTime t)%Z))
         /\ (Forall (fun x => ~ closesDirection symbol direction x) trades ->
             exitPrice = entryPrice)
         /\ ((0 < entryPrice)%Q -> (0 < exitPrice)%Q -> (0 < quantity)%Q ->
             (direction = "LONG"%string ->
              Position.cpd_pnl data = ((exitPrice - entryPrice) * quantity)%Q)
             /\ (direction = "SHORT"%string ->
                 Position.cpd_pnl data = ((entryPrice - exitPrice) * quantity)%Q))
         /\ ((entryPrice <= 0 \/ exitPrice <= 0 \/ quantity <= 0)%Q ->
             Position.cpd_pnl data = 0%Q)
         /\ Position.cpd_position data = tracked
         /\ Position.closedPositions (Runtime.ledger w')
            = (Position.closedPositions (Runtime.ledger w)
               ++ [ {| Position.cp_data := data;
                       Position.cp_closedAt := Runtime.dateNow env |} ])%list
         /\ PositionService.hasOpenPosition (Runtime.ledger w') symbol = false
         /\ (forall other,
                other <> symbol ->
                PositionService.getOpenPosition (Runtime.ledger w') other
                = PositionService.getOpenPosition (Runtime.ledger w) other)
         /\ PositionService.ps_totalTrades
              (PositionService.getStatistics (Runtime.ledger w'))
            = (PositionService.ps_totalTrades
                 (PositionService.getStatistics (Runtime.ledger w)) + 1)%Z)
  /\ (forall e,
         Runtime.getTradeHistory env symbol 10 = Throw e ->
         Runtime.ledger w' = Runtime.ledger w
         /\ PositionService.getOpenPosition (Runtime.ledger w') symbol = Some tracked
         /\ Runtime.statistics w' = Runtime.statistics w
         /\ Runtime.calls w'
            = (Runtime.calls w ++ [Runtime.GetTradeHistory symbol 10])%list).
Proof.
  intros [Hnd Hkeys] Hget Hclosed.
  rewrite (checkPosition_closed config env exchangePositions symbol tracked w Hclosed).
  destruct (Runtime.getTradeHistory env symbol 10) as [trades|e] eqn:Htrades.
  2:{ rewrite (handlePositionClosed_no_trades config env symbol tracked w Htrades).
      cbv zeta. cbn [Runtime.ledger Runtime.statistics Runtime.calls].
      split; [reflexivity|]. split; [intros ? [=]|].
      intros e' _. repeat split. exact Hget. }
  rewrite (handlePositionClosed_trades config env symbol tracked w Htrades).
  cbv zeta. split; [reflexivity|]. split; [|intros ? [=]].
  intros trades' [= <-].
  assert (Hnot : forall l,
             Forall (fun x => ~ closesDirection symbol (Position.op_direction tracked) x) l ->
             Forall (fun x => PositionService.isCloseTrade symbol tracked x = false) l).
  { intros l Hl. eapply Forall_impl; [|exact Hl]. intros x Hx.
    destruct (PositionService.isCloseTrade symbol tracked x) eqn:E; [|reflexivity].
    exfalso. apply Hx. apply isCloseTrade_iff. exact E. }
  split.
  { intros before t after -> Hbefore Ht. split.
    - unfold PositionService.closedPositionData. cbn [Position.cpd_exitPrice].
      rewrite (@find_first_match _ _ before after t (Hnot _ Hbefore)); [reflexivity|].
      apply isCloseTrade_iff. exact Ht.
    - intros Hsorted t' Hin Ht'.
      apply in_app_or in Hin. destruct Hin as [Hin|[<-|Hin]].
      + exfalso. rewrite Forall_forall in Hbefore. exact (Hbefore t' Hin Ht').
      + lia.
      + assert (A := mostRecentFirst_after before after t Hsorted).
        rewrite Forall_forall in A. exact (A t' Hin). }
  split.
  { intros Hall.
    unfold PositionService.closedPositionData. cbn [Position.cpd_exitPrice].
    rewrite (@find_no_match _ _ trades (Hnot _ Hall)). reflexivity. }
  split.
  { intros He Hx Hq.
    unfold PositionService.closedPositionData in *.
    cbn [Position.cpd_exitPrice Position.cpd_pnl] in *.
    rewrite (@calculatePnL_valid _ _ _ (Position.op_direction tracked) He Hx Hq).
    unfold directionPnl.
    split; intros ->; reflexivity. }
  split.
  { intros Hbad.
    unfold PositionService.closedPositionData in *.
    cbn [Position.cpd_exitPrice Position.cpd_pnl] in *.
    apply calculatePnL_invalid. exact Hbad. }
  split; [reflexivity|].
  unfold PositionService.getOpenPosition in Hget.
  unfold PositionService.removeOpenPosition, PositionService.addClosedPosition,
    PositionService.hasOpenPosition, PositionService.getOpenPosition,
    PositionService.getStatistics.
  cbn [Runtime.ledger Position.openPositions Position.closedPositions].
  rewrite Hget.
  cbn [fst Position.openPositions Position.closedPositions
       PositionService.ps_totalTrades].
  split; [reflexivity|].
  split.
  { unfold JsMap.has. rewrite (@get_delete_same _ symbol _ Hnd). reflexivity. }
  split.
  { intros other Hne. apply get_delete_other. exact Hne. }
  rewrite length_app. simpl. lia.
Qed.

(** C4 in the scenario of the specification: a LONG position of 10
    contracts entered at 100 is tracked, the exchange no longer lists it,
    and the trade history shows, most recent first, a Buy at 100.2, then a
    Sell at 100.5 and an older Sell at 100.4. *)
Lemma reconciliation_closes_position_witness :
  let trades := [tradeAt 30 "Buy" 100.2; tradeAt 20 "Sell" 100.5;
                 tradeAt 10 "Sell" 100.4] in
  let env := withTrades (Ok trades) in
  let data := PositionService.closedPositionData env "ADAUSDT" trackedLong trades in
  let '(r, w') :=
    PositionService.checkPosition defaultConfig env [] ("ADAUSDT"%string, trackedLong)
                                  trackingWorld in
  r = Ok tt
  /\ Position.cpd_exitPrice data = 100.5%Q
  /\ (forall t', In t' trades -> closesDirection "ADAUSDT" "LONG" t' ->
                 (Bybit.execTime t' <= 20)%Z)
  /\ Position.cpd_pnl data = ((100.5 - 100) * 10)%Q
  /\ Position.closedPositions (Runtime.ledger w')
     = [ {| Position.cp_data := data; Position.cp_closedAt := Runtime.dateNow env |} ]
  /\ PositionService.hasOpenPosition (Runtime.ledger w') "ADAUSDT" = false
  /\ PositionService.ps_totalTrades (PositionService.getStatistics (Runtime.ledger w'))
     = 1%Z.
Proof.
  intros trades env data.
  assert (Hwk : wellKeyed (Runtime.ledger trackingWorld)).
  { split; simpl; repeat constructor. intros []. }
  assert (Hclosed : closedOnExchange [] "ADAUSDT") by exact I.
  generalize (@reconciliation_closes_position defaultConfig env []
                "ADAUSDT"%string trackedLong trackingWorld
                Hwk eq_refl Hclosed).
  destruct (PositionService.checkPosition defaultConfig env []
              ("ADAUSDT"%string, trackedLong) trackingWorld) as [r w'].
  cbv zeta. intros (Hr & Hok & _).
  destruct (Hok trades eq_refl)
    as (Hexit & _ & Hpnl & _ & _ & Hhist & Hopen & _ & Htotal).
  fold data in Hexit, Hpnl, Hhist.
  destruct (Hexit [tradeAt 30 "Buy" 100.2] (tradeAt 20 "Sell" 100.5)
                  [tradeAt 10 "Sell" 100.4]) as [Hx Hrecent].
  { reflexivity. }
  { repeat constructor. intros [_ [[H _]|[_ H]]]; discriminate. }
  { split; [reflexivity|]. left. split; reflexivity. }
  split; [exact Hr|].
  split; [exact Hx|].
  split.
  { apply Hrecent. unfold trades. cbn [mostRecentFirst].
    repeat match goal with
           | |- _ /\ _ => split
           | |- Forall _ (_ :: _) => constructor
           | |- Forall _ [] => constructor
           | |- True => exact I
           | |- (_ <= _)%Z => vm_compute; discriminate
           end. }
  split.
  { assert (H := Hpnl). rewrite Hx in H.
    apply H; reflexivity. }
  split; [exact Hhist|].
  split; [exact Hopen|].
  exact Htotal.
Defined.

(** C4 as stated fails in three ways.  When the trade-history query
    throws, the position is not closed: it stays open and the closed
    history stays empty.  When the closing trade carries a price that is
    not positive, the realized profit recorded is 0 and not (exit - entry)
    * quantity.  And the exit price is that of the first closing trade of
    the list, whatever the times of the trades: given a list whose first
    Sell (at 100.5) is older than its second (at 100.4), the exit price is
    100.5. *)
Lemma reconciliation_claim_fails :
  (let env := withTrades (Throw (ApiError "Failed to get trade history: timeout")) in
   let '(r, w') :=
     PositionService.checkPosition defaultConfig env [] ("ADAUSDT"%string, trackedLong)
                                   trackingWorld in
   closedOnExchange [] "ADAUSDT"
   /\ PositionService.hasOpenPosition (Runtime.ledger w') "ADAUSDT" = true
   /\ Position.closedPositions (Runtime.ledger w') = []
   /\ PositionService.ps_totalTrades (PositionService.getStatistics (Runtime.ledger w'))
      = 0%Z)
  /\ (let env := withTrades (Ok [trade "Sell" 0]) in
      let '(r, w') :=
        PositionService.checkPosition defaultConfig env [] ("ADAUSDT"%string, trackedLong)
                                      trackingWorld in
      exists c,
        Position.closedPositions (Runtime.ledger w') = [c]
        /\ (Position.cpd_exitPrice (Position.cp_data c) == 0)%Q
        /\ (Position.cpd_pnl (Position.cp_data c) == 0)%Q
        /\ ~ (Position.cpd_pnl (Position.cp_data c)
              == (Position.cpd_exitPrice (Position.cp_data c) - 100) * 10)%Q)
  /\ (let older := tradeAt 1000 "Sell" 100.5 in
      let newer := tradeAt 2000 "Sell" 100.4 in
      let env := withTrades (Ok [older; newer]) in
      let '(r, w') :=
        PositionService.checkPosition defaultConfig env [] ("ADAUSDT"%string, trackedLong)
                                      trackingWorld in
      exists c,
        Position.closedPositions (Runtime.ledger w') = [c]
        /\ closesDirection "ADAUSDT" "LONG" newer
        /\ (Bybit.execTime older < Bybit.execTime newer)%Z
        /\ Position.cpd_exitPrice (Position.cp_data c) = Bybit.execPrice older
        /\ ~ (Position.cpd_exitPrice (Position.cp_data c) == Bybit.execPrice newer)%Q).
Proof.
  split; [|split].
  - vm_compute. repeat split.
  - vm_compute. eexists. split; [reflexivity|].
    repeat split; try reflexivity. discriminate.
  - cbv zeta. eexists. split; [vm_compute; reflexivity|].
    split; [split; [reflexivity | left; split; reflexivity]|].
    split; [vm_compute; reflexivity|].
    split; [reflexivity|].
    vm_compute. discriminate.
Qed.

(** A whole reconciliation tick in the scenario of the specification: the
    ledger tracks one LONG position, the exchange lists no live position,
    and the first closing trade is a Sell at 100.5. *)
Lemma reconciliation_tick_scenario :
  let env := withTrades (Ok [trade "Sell" 100.5; trade "Buy" 99]) in
  let '(r, w') := PositionService.checkPositions defaultConfig env trackingWorld in
  r = Ok tt
  /\ PositionService.getOpenPositionsCount (Runtime.ledger w') = 0%Z
  /\ PositionService.ps_totalTrades (PositionService.getStatistics (Runtime.ledger w'))
     = 1%Z
  /\ (exists c,
         Position.closedPositions (Runtime.ledger w') = [c]
         /\ Position.cpd_position (Position.cp_data c) = trackedLong
         /\ (Position.cpd_exitPrice (Position.cp_data c) == 100.5)%Q
         /\ (Position.cpd_pnl (Position.cp_data c) == 5)%Q
         /\ (Position.cpd_pnlPercent (Position.cp_data c) == 0.5)%Q)
  /\ Runtime.calls w'
     = [Runtime.GetOpenPositions; Runtime.GetTradeHistory "ADAUSDT" 10;
        Runtime.SendMessage
          (Runtime.PositionClosed
             (PositionService.closedPositionData env "ADAUSDT" trackedLong
                [trade "Sell" 100.5; trade "Buy" 99]))].
Proof.
  vm_compute. repeat split. eexists. repeat split.
Qed.

(** ** The closed history *)

Section History.

Import Position Runtime PositionService.

Variable config : Config.
Variable env : Env.

Lemma appendsAtMost_weaken (n n' : nat) (m : M unit) (w : World) :
  (n <= n')%nat -> appendsAtMost n m w -> appendsAtMost n' m w.
Proof.
  intros Hle [added [H L]]. exists added. split; [exact H | lia].
Qed.

Lemma appendsAtMost_unchanged (m : M unit) (w : World) :
  historyAfter m w = closedPositions (ledger w) -> appendsAtMost 0 m w.
Proof.
  intros H. exists []. rewrite app_nil_r. split; [exact H | apply le_n].
Qed.

Lemma closedPositions_removeOpenPosition (this : Ledger) (symbol : string) :
  closedPositions (fst (removeOpenPosition this symbol)) = closedPositions this.
Proof.
  unfold removeOpenPosition.
  destruct (JsMap.get symbol (openPositions this)); reflexivity.
Qed.

Lemma openPositions_removeOpenPosition (this : Ledger) (symbol : string) :
  openPositions (fst (removeOpenPosition this symbol))
  = match JsMap.get symbol (openPositions this) with
    | Some _ => JsMap.delete symbol (openPositions this)
    | None => openPositions this
    end.
Proof.
  unfold removeOpenPosition.
  destruct (JsMap.get symbol (openPositions this)); reflexivity.
Qed.

Lemma handlePositionClosed_appends (symbol : string) (trackedPosition : OpenPosition)
    (w : World) :
  appendsAtMost 1 (handlePositionClosed config env symbol trackedPosition) w.
Proof.
  unfold appendsAtMost, historyAfter.
  destruct (getTradeHistory env symbol 10) as [trades|e] eqn:Ht.
  - rewrite (handlePositionClosed_trades config env symbol trackedPosition w Ht).
    cbn [snd ledger]. rewrite closedPositions_removeOpenPosition.
    eexists. split; [reflexivity|]. apply le_n.
  - rewrite (handlePositionClosed_no_trades config env symbol trackedPosition w Ht).
    exists []. rewrite app_nil_r. split; [reflexivity|]. simpl. lia.
Qed.

Lemma checkPosition_appends (exchangePositions : list Bybit.ExchangePosition)
    (entry : string * OpenPosition) (w : World) :
  appendsAtMost 1 (checkPosition config env exchangePositions entry) w.
Proof.
  destruct entry as [symbol trackedPosition]. unfold checkPosition.
  destruct (find _ exchangePositions) as [pos|];
    [destruct (Qeq_bool (Bybit.ep_size pos) 0)|];
    try apply handlePositionClosed_appends.
  apply (@appendsAtMost_weaken 0 1); [lia|].
  apply appendsAtMost_unchanged. reflexivity.
Qed.

(** The loop never throws: each body catches its own errors. *)
Lemma checkPosition_returns (exchangePositions : list Bybit.ExchangePosition)
    (entry : string * OpenPosition) (w : World) :
  fst (checkPosition config env exchangePositions entry w) = Ok tt.
Proof.
  destruct entry as [symbol trackedPosition]. unfold checkPosition.
  assert (H : forall w, fst (handlePositionClosed config env symbol trackedPosition w) = Ok tt).
  { intros w0. destruct (getTradeHistory env symbol 10) as [trades|e] eqn:Ht.
    - rewrite (handlePositionClosed_trades config env symbol trackedPosition w0 Ht).
      reflexivity.
    - rewrite (handlePositionClosed_no_trades config env symbol trackedPosition w0 Ht).
      reflexivity. }
  destruct (find _ exchangePositions) as [pos|];
    [destruct (Qeq_bool (Bybit.ep_size pos) 0)|]; try apply H.
  reflexivity.
Qed.

Lemma forEach_appends (A : Type) (body : A -> M unit) (l : list A) :
  (forall x w, appendsAtMost 1 (body x) w) ->
  forall w, appendsAtMost (length l) (forEach l body) w.
Proof.
  intros Hbody. induction l as [|x r IH]; intros w.
  - apply appendsAtMost_unchanged. reflexivity.
  - destruct (Hbody x w) as [a1 [H1 L1]].
    unfold appendsAtMost, historyAfter in *. simpl forEach. unfold bind.
    destruct (body x w) as [[[]|e] w1] eqn:E; cbn [snd] in *.
    + destruct (IH w1) as [a2 [H2 L2]].
      exists (a1 ++ a2)%list. rewrite H2, H1, app_assoc.
      split; [reflexivity|]. rewrite length_app. simpl. lia.
    + exists a1. split; [exact H1|]. simpl. lia.
Qed.

Lemma checkPositions_appends (w : World) :
  appendsAtMost (length (openPositions (ledger w))) (checkPositions config env) w.
Proof.
  unfold appendsAtMost, historyAfter.
  cbv [checkPositions try_catch bind getLedger await ret].
  destruct (JsMap.size (openPositions (ledger w)) =? 0)%Z.
  - exists []. rewrite app_nil_r. split; [reflexivity|]. simpl. lia.
  - destruct (getOpenPositions env) as [exchangePositions|e].
    + set (w0 := {| ledger := ledger w; statistics := statistics w;
                    calls := calls w ++ [GetOpenPositions] |}).
      destruct (@forEach_appends _ (checkPosition config env exchangePositions)
                  (JsMap.entries (openPositions (ledger w)))
                  (checkPosition_appends exchangePositions) w0)
        as [added [H L]].
      unfold historyAfter in H.
      destruct (forEach _ _ w0) as [[[]|e] w1]; cbn [snd] in *;
        exists added; split; assumption.
    + exists []. rewrite app_nil_r. split; [reflexivity|]. simpl. lia.
Qed.

(** Every method other than [resetDailyStatistics] keeps the history and
    appends to it. *)
Lemma runOp_appends (op : LedgerOp) (w : World) :
  op <> OpResetDailyStatistics ->
  appendsAtMost (maxAppended op w) (runOp config env op) w.
Proof.
  intros Hop. destruct op; cbn [runOp maxAppended];
    try (apply appendsAtMost_unchanged; reflexivity).
  - apply appendsAtMost_unchanged. unfold historyAfter, updateLedger.
    cbn [snd ledger]. apply closedPositions_removeOpenPosition.
  - eexists. split; [reflexivity|]. apply le_n.
  - apply checkPositions_appends.
  - apply handlePositionClosed_appends.
  - congruence.
Qed.

End History.

Section Oblivious.

Import Position Runtime PositionService.

Variable config : Config.
Variable env : Env.

Lemma sameButHistory_withHistory (w : World) (history : list ClosedPosition) :
  sameButHistory (withHistory w history) w.
Proof. repeat split. Qed.

Lemma oblivious_handlePositionClosed (symbol : string) (trackedPosition : OpenPosition) :
  oblivious (handlePositionClosed config env symbol trackedPosition).
Proof.
  intros w1 w2 (Ho & Hs & Hc).
  destruct (getTradeHistory env symbol 10) as [trades|e] eqn:Ht.
  - rewrite !(handlePositionClosed_trades config env symbol trackedPosition _ Ht).
    cbn [fst snd]. split; [reflexivity|].
    unfold sameButHistory. cbn [ledger statistics calls].
    rewrite !openPositions_removeOpenPosition.
    cbn [addClosedPosition openPositions]. rewrite Ho, Hs, Hc.
    repeat split.
  - rewrite !(handlePositionClosed_no_trades config env symbol trackedPosition _ Ht).
    cbn [fst snd]. split; [reflexivity|].
    unfold sameButHistory. cbn [ledger statistics calls].
    rewrite Ho, Hs, Hc. repeat split.
Qed.

Lemma oblivious_ret : oblivious (ret tt).
Proof. intros w1 w2 H. split; [reflexivity | exact H]. Qed.

Lemma oblivious_checkPosition (exchangePositions : list Bybit.ExchangePosition)
    (entry : string * OpenPosition) :
  oblivious (checkPosition config env exchangePositions entry).
Proof.
  destruct entry as [symbol trackedPosition]. unfold checkPosition.
  destruct (find _ exchangePositions) as [pos|];
    [destruct (Qeq_bool (Bybit.ep_size pos) 0)|];
    try apply oblivious_handlePositionClosed.
  apply oblivious_ret.
Qed.

Lemma oblivious_forEach (A : Type) (body : A -> M unit) (l : list A) :
  (forall x, oblivious (body x)) -> oblivious (forEach l body).
Proof.
  intros Hbody. induction l as [|x r IH]; [apply oblivious_ret|].
  intros w1 w2 H. simpl forEach. unfold bind.
  destruct (Hbody x w1 w2 H) as [Hr Hw].
  destruct (body x w1) as [r1 w1'], (body x w2) as [r2 w2'].
  cbn [fst snd] in *. subst r2.
  destruct r1 as [[]|e].
  - exact (IH w1' w2' Hw).
  - split; [reflexivity | exact Hw].
Qed.

Lemma oblivious_checkPositions : oblivious (checkPositions config env).
Proof.
  intros w1 w2 (Ho & Hs & Hc).
  cbv [checkPositions try_catch bind getLedger await ret].
  rewrite Ho.
  destruct (JsMap.size (openPositions (ledger w2)) =? 0)%Z.
  - cbn [fst snd]. split; [reflexivity | repeat split; assumption].
  - destruct (getOpenPositions env) as [exchangePositions|e].
    + set (w1' := {| ledger := ledger w1; statistics := statistics w1;
                     calls := calls w1 ++ [GetOpenPositions] |}).
      set (w2' := {| ledger := ledger w2; statistics := statistics w2;
                     calls := calls w2 ++ [GetOpenPositions] |}).
      assert (H : sameButHistory w1' w2').
      { unfold sameButHistory, w1', w2'. cbn [ledger statistics calls].
        rewrite Ho, Hs, Hc. repeat split. }
      destruct (@oblivious_forEach _ (checkPosition config env exchangePositions)
                  (JsMap.entries (openPositions (ledger w2)))
                  (oblivious_checkPosition exchangePositions) w1' w2' H)
        as [Hr Hw].
      destruct (forEach _ _ w1') as [r1 v1], (forEach _ _ w2') as [r2 v2].
      cbn [fst snd] in *. subst r2.
      destruct r1 as [[]|e]; cbn [fst snd]; split; try reflexivity; exact Hw.
    + cbn [fst snd]. split; [reflexivity|].
      unfold sameButHistory. cbn [ledger statistics calls].
      rewrite Ho, Hs, Hc. repeat split.
Qed.

(** No method lets the closed history flow into the open positions. *)
Lemma runOp_oblivious (op : LedgerOp) : oblivious (runOp config env op).
Proof.
  destruct op; cbn [runOp];
    try apply oblivious_ret;
    try apply oblivious_checkPositions;
    try apply oblivious_handlePositionClosed;
    intros w1 w2 (Ho & Hs & Hc); unfold updateLedger; cbn [fst snd];
    (split; [reflexivity|]);
    unfold sameButHistory; cbn [ledger statistics calls];
    try rewrite !openPositions_removeOpenPosition;
    cbn [addOpenPosition addClosedPosition resetDailyStatistics openPositions];
    rewrite Ho, Hs, Hc; repeat split.
Qed.

End Oblivious.

(** C9, as the code has it.  [resetDailyStatistics] empties the closed
    history.  Every other method of the ledger keeps the records of the
    history, in their order and unchanged, as a prefix of the new history:
    [addClosedPosition] appends exactly one record, [handlePositionClosed]
    at most one, [checkPositions] at most one for each position it tracks,
    and the remaining methods none.  The open positions after any method
    do not depend on the closed history: no closed record goes back to the
    open set. *)
Theorem closed_history_append_only (config : Config) (env : Runtime.Env) :
  (forall w,
      historyAfter (runOp config env OpResetDailyStatistics) w = [])
  /\ (forall op w,
         op <> OpResetDailyStatistics ->
         exists added,
           historyAfter (runOp config env op) w
           = (Position.closedPositions (Runtime.ledger w) ++ added)%list
           /\ (length added <= maxAppended op w)%nat)
  /\ (forall positionData w,
         historyAfter (runOp config env (OpAddClosedPosition positionData)) w
         = (Position.closedPositions (Runtime.ledger w)
            ++ [ {| Position.cp_data := positionData;
                    Position.cp_closedAt := Runtime.dateNow env |} ])%list)
  /\ (forall op w history,
         openAfter (runOp config env op) (withHistory w history)
         = openAfter (runOp config env op) w).
Proof.
  split; [reflexivity|].
  split; [intros op w Hop; exact (runOp_appends config env w Hop)|].
  split; [reflexivity|].
  intros op w history.
  exact (proj1 (proj2 (runOp_oblivious config env op
                         (sameButHistory_withHistory w history)))).
Qed.

(** C9 at a reconciliation tick that closes the tracked position. *)
Lemma closed_history_append_only_witness :
  let env := withTrades (Ok [trade "Sell" 100.5]) in
  let w := withHistory trackingWorld
             [ {| Position.cp_data := closedLong; Position.cp_closedAt := 7 |} ] in
  exists added,
    historyAfter (runOp defaultConfig env OpCheckPositions) w
    = ([ {| Position.cp_data := closedLong; Position.cp_closedAt := 7 |} ] ++ added)%list
    /\ (length added <= 1)%nat.
Proof.
  intros env w.
  apply (proj1 (proj2 (closed_history_append_only defaultConfig env))
           OpCheckPositions w).
  discriminate.
Defined.

(** C9 as stated fails: [resetDailyStatistics] removes the record the
    history holds; the history afterwards is neither the old one nor the
    old one with a record appended. *)
Lemma resetDailyStatistics_drops_history :
  let record := {| Position.cp_data := closedLong; Position.cp_closedAt := 7 |} in
  let this := PositionService.addClosedPosition PositionService.constructor closedLong 7 in
  Position.closedPositions this = [record]
  /\ Position.closedPositions (PositionService.resetDailyStatistics this) = []
  /\ ~ (Position.closedPositions (PositionService.resetDailyStatistics this)
        = Position.closedPositions this
        \/ exists r,
            Position.closedPositions (PositionService.resetDailyStatistics this)
            = (Position.closedPositions this ++ [r])%list).
Proof.
  intros record this. split; [reflexivity|]. split; [reflexivity|].
  intros [H | [r H]]; discriminate H.
Qed.

(** ** Signal validation *)

Ltac finish_check :=
  cbn [negb find evaluated flat_map passes rejection callsOf app
       Runtime.ledger Runtime.calls Runtime.statistics];
  repeat match goal with
         | H : Runtime.getUSDTBalance _ = _ |- _ => rewrite H; clear H
         | H : Runtime.getSymbolInfo _ _ = _ |- _ => rewrite H; clear H
         end;
  rewrite ?app_nil_r, <- ?app_assoc;
  repeat split; reflexivity.

(** C6.  [validateSignal] never throws; it returns the rejection of the
    first check that fails in the order: symbol allowed, direction LONG or
    SHORT, trading hours active, no open position for the symbol, open
    count below the maximum, daily count below the maximum, balance
    positive, instrument tradable; and valid when all pass.  The checks
    after the first failure are not evaluated: the calls made to the
    exchange are those of the checks up to and including the first failing
    one, and the ledger is not changed. *)
Theorem validateSignal_first_failure
    (config : Config) (env : Runtime.Env) (signal : Bot.Signal) (w : Runtime.World) :
  let '(r, w') := Bot.validateSignal config env signal w in
  r = Ok (firstRejection config env w signal)
  /\ Runtime.calls w'
     = (Runtime.calls w
        ++ flat_map (callsOf signal) (evaluated config env w signal checkOrder))%list
  /\ Runtime.ledger w' = Runtime.ledger w.
Proof.
  unfold firstRejection, checkOrder.
  cbv [Bot.validateSignal Bot.checkBalance Bot.checkTradable
       Runtime.try_catch Runtime.bind Runtime.await Runtime.updateStats
       Runtime.getLedger Runtime.getStats Runtime.ret].
  cbn [find evaluated passes].
  destruct (isSymbolAllowed _ _); cbn [negb]; [|finish_check].
  assert (D : negb (Bot.sig_direction signal =? "LONG")%string
              && negb (Bot.sig_direction signal =? "SHORT")%string
              = negb ((Bot.sig_direction signal =? "LONG")%string
                      || (Bot.sig_direction signal =? "SHORT")%string))
    by (symmetry; apply negb_orb).
  rewrite D; clear D.
  destruct ((Bot.sig_direction signal =? "LONG")%string
            || (Bot.sig_direction signal =? "SHORT")%string);
    cbn [negb]; [|finish_check].
  destruct (TimeService.isTradingHoursActive config (Runtime.clock env));
    cbn [negb]; [|finish_check].
  destruct (PositionService.hasOpenPosition (Runtime.ledger w) (Bot.sig_symbol signal));
    cbn [negb]; [finish_check|].
  rewrite Z.geb_leb, Z.ltb_antisym.
  destruct (maxOpenPositions (trading config)
            <=? PositionService.getOpenPositionsCount (Runtime.ledger w))%Z;
    cbn [negb]; [finish_check|].
  rewrite Z.geb_leb, Z.ltb_antisym.
  destruct (maxDailyTrades (trading config)
            <=? Runtime.dailyTrades (Runtime.statistics w))%Z;
    cbn [negb]; [finish_check|].
  destruct (Runtime.getUSDTBalance env) as [balance|e] eqn:Hbalance; [|finish_check].
  unfold Qltb, Qleb. destruct (Qle_bool balance 0); cbn [negb]; [finish_check|].
  destruct (Runtime.getSymbolInfo env (Bot.sig_symbol signal)) as [symbolInfo|e]
    eqn:Hinfo; [|finish_check].
  destruct (Risk.status symbolInfo =? "Trading")%string; finish_check.
Qed.

(** ** What the sizing guarantees *)

Section SizingGuarantees.

Import Risk.
Open Scope Q_scope.

Lemma Qgtb_false (x y : Q) : Qgtb x y = false -> x <= y.
Proof.
  unfold Qgtb, Qltb. intros H. apply negb_false_iff in H.
  apply Qle_bool_iff. exact H.
Qed.

Lemma Qltb_false (x y : Q) : Qltb x y = false -> y <= x.
Proof.
  unfold Qltb. intros H. apply negb_false_iff in H.
  apply Qle_bool_iff. exact H.
Qed.

Lemma Qgtb_true (x y : Q) : Qgtb x y = true -> y < x.
Proof.
  unfold Qgtb, Qltb. intros H. apply negb_true_iff in H.
  apply Qnot_le_lt. intros Hle. apply Qle_bool_iff in Hle. congruence.
Qed.

(** In exact arithmetic, for a step below 1 the rounded quantity is a whole
    number of steps. *)
Lemma roundQuantity_small_step (quantity tickSize : Q) :
  0 < tickSize -> tickSize < 1 ->
  isMultipleOf (roundQuantity quantity tickSize) tickSize.
Proof.
  intros Hpos Hlt. unfold roundQuantity, roundToDecimal, Math_pow10.
  destruct (Qle_bool tickSize 0) eqn:E0.
  { apply Qle_bool_iff in E0. exfalso. exact (Qlt_not_le _ _ Hpos E0). }
  destruct (Qle_bool 1 tickSize) eqn:E1.
  { apply Qle_bool_iff in E1. exfalso. exact (Qlt_not_le _ _ Hlt E1). }
  exists (Math_round (quantity * / tickSize)).
  field. intros H. rewrite H in Hpos. exact (Qlt_irrefl _ Hpos).
Qed.

(** In exact arithmetic, for a step of 1 or more the rounded quantity is a
    whole number of units of [1 / tickSize], not of [tickSize]. *)
Lemma roundQuantity_large_step (quantity tickSize : Q) :
  1 <= tickSize ->
  roundQuantity quantity tickSize
  = inject_Z (Math_round (quantity * tickSize)) / tickSize.
Proof.
  intros Hge. unfold roundQuantity, roundToDecimal, Math_pow10.
  destruct (Qle_bool tickSize 0) eqn:E0.
  { apply Qle_bool_iff in E0. exfalso.
    apply (Qlt_not_le 0 1); [reflexivity|]. exact (Qle_trans _ _ _ Hge E0). }
  apply Qle_bool_iff in Hge. rewrite Hge. reflexivity.
Qed.

(** A successful sizing returns a margin the balance covers, computed from
    the returned quantity, and a quantity between the effective minimum
    and maximum whenever the minimum does not exceed the maximum. *)
Lemma calculatePositionParameters_guarantees
    (config : Config) (balance entryPrice : Q) (direction : string)
    (symbolInfo : SymbolInfo) (p : PositionParameters) :
  calculatePositionParameters config balance entryPrice direction symbolInfo = Ok p ->
  pp_requiredMargin p <= balance
  /\ pp_requiredMargin p
     = (pp_quantity p * entryPrice) / inject_Z (leverage (risk config))
  /\ (match orInfinity (maxQty symbolInfo) with
      | Some m => orElse (minQty symbolInfo) 0 <= m
      | None => True
      end ->
      orElse (minQty symbolInfo) 0 <= pp_quantity p
      /\ match orInfinity (maxQty symbolInfo) with
         | Some m => pp_quantity p <= m
         | None => True
         end).
Proof.
  unfold calculatePositionParameters. cbv zeta.
  destruct (negb (isValidNumber balance) || Qleb balance 0); [discriminate|].
  destruct (negb (isValidNumber entryPrice) || Qleb entryPrice 0); [discriminate|].
  destruct (negb (direction =? "LONG")%string && negb (direction =? "SHORT")%string);
    [discriminate|].
  destruct (Qleb (stopLossDistance config entryPrice direction) 0); [discriminate|].
  set (q0 := roundQuantity (quantity config balance entryPrice direction)
               (orElse (tickSize symbolInfo) 0.0001)).
  set (lo := orElse (minQty symbolInfo) 0).
  destruct (Qltb q0 lo) eqn:Elo; cbv beta iota;
    destruct (orInfinity (maxQty symbolInfo)) as [m|]; cbv beta iota.
  - destruct (Qgtb lo m) eqn:Ehi; cbv beta iota;
      match goal with
      | |- (if ?c then _ else _) = _ -> _ => destruct c eqn:Em; [discriminate|]
      end;
      intros H; inversion H; subst p; clear H; cbn [pp_requiredMargin pp_quantity];
      (split; [exact (Qgtb_false _ _ Em)|]); (split; [reflexivity|]);
      intros Hrange; split.
    + exact Hrange.
    + apply Qle_refl.
    + apply Qle_refl.
    + exact (Qgtb_false _ _ Ehi).
  - match goal with
    | |- (if ?c then _ else _) = _ -> _ => destruct c eqn:Em; [discriminate|]
    end.
    intros H; inversion H; subst p; clear H; cbn [pp_requiredMargin pp_quantity].
    split; [exact (Qgtb_false _ _ Em)|]. split; [reflexivity|].
    intros _. split; [apply Qle_refl | exact I].
  - destruct (Qgtb q0 m) eqn:Ehi; cbv beta iota;
      match goal with
      | |- (if ?c then _ else _) = _ -> _ => destruct c eqn:Em; [discriminate|]
      end;
      intros H; inversion H; subst p; clear H; cbn [pp_requiredMargin pp_quantity];
      (split; [exact (Qgtb_false _ _ Em)|]); (split; [reflexivity|]);
      intros Hrange; split.
    + exact Hrange.
    + apply Qle_refl.
    + exact (Qltb_false _ _ Elo).
    + exact (Qgtb_false _ _ Ehi).
  - match goal with
    | |- (if ?c then _ else _) = _ -> _ => destruct c eqn:Em; [discriminate|]
    end.
    intros H; inversion H; subst p; clear H; cbn [pp_requiredMargin pp_quantity].
    split; [exact (Qgtb_false _ _ Em)|]. split; [reflexivity|].
    intros _. split; [exact (Qltb_false _ _ Elo) | exact I].
Qed.

End SizingGuarantees.

(** Validation at concrete signals: a signal with direction "UP" for a
    symbol that already has an open position is rejected for its
    direction, before the ledger is looked at and without any call; the
    same signal with direction LONG is rejected for the open position; on
    a new ledger it is valid after the balance and the instrument have
    been read, in that order. *)
Lemma validateSignal_order_example :
  let env := withTrades (Ok []) in
  let upSignal :=
    {| Bot.sig_symbol := "ADAUSDT"; Bot.sig_direction := "UP";
       Bot.sig_signalType := "UNKNOWN"; Bot.sig_timestamp := None |} in
  Bot.validateSignal defaultConfig env upSignal trackingWorld
  = (Ok (Bot.Invalid (Bot.InvalidDirectionReason "UP") None), trackingWorld)
  /\ Bot.validateSignal defaultConfig env longSignal trackingWorld
     = (Ok (Bot.Invalid (Bot.OpenPositionExists "ADAUSDT") None), trackingWorld)
  /\ fst (Bot.validateSignal defaultConfig env longSignal initialWorld) = Ok Bot.Valid
  /\ Runtime.calls (snd (Bot.validateSignal defaultConfig env longSignal initialWorld))
     = [Runtime.GetUSDTBalance; Runtime.GetSymbolInfo "ADAUSDT"].
Proof. repeat split. Qed.

(** * Further properties of the code *)

Unset Implicit Arguments.

(** ** Rounding *)

Section RoundingBounds.

Open Scope Q_scope.

Lemma Math_round_near (x : Q) : Qabs (inject_Z (Math_round x) - x) <= 1 # 2.
Proof.
  unfold Math_round.
  assert (L := Qfloor_le (x + (1 # 2))).
  assert (U := Qlt_floor (x + (1 # 2))).
  rewrite inject_Z_plus in U.
  change (inject_Z 1) with 1 in U.
  apply Qabs_Qle_condition. split; lra.
Qed.

Lemma roundToDecimal_near (value : Q) (d : decimals) :
  0 < Math_pow10 d ->
  Qabs (roundToDecimal value d - value) <= (1 # 2) / Math_pow10 d.
Proof.
  intros Hf. unfold roundToDecimal.
  set (f := Math_pow10 d) in *.
  assert (Hne : ~ f == 0) by (intros E; rewrite E in Hf; exact (Qlt_irrefl _ Hf)).
  assert (E : inject_Z (Math_round (value * f)) / f - value
              == (inject_Z (Math_round (value * f)) - value * f) / f)
    by (field; exact Hne).
  rewrite E. unfold Qdiv. rewrite Qabs_Qmult.
  assert (Hinv : 0 < / f) by (apply Qinv_lt_0_compat; exact Hf).
  rewrite (Qabs_pos (/ f)) by (apply Qlt_le_weak; exact Hinv).
  apply Qmult_le_compat_r; [apply Math_round_near | apply Qlt_le_weak; exact Hinv].
Qed.

Lemma Math_round_monotone (x y : Q) : x <= y -> (Math_round x <= Math_round y)%Z.
Proof.
  intros H. unfold Math_round. apply Qfloor_resp_le. lra.
Qed.

Lemma roundToDecimal_monotone (x y : Q) (d : decimals) :
  0 < Math_pow10 d -> x <= y -> roundToDecimal x d <= roundToDecimal y d.
Proof.
  intros Hf H. unfold roundToDecimal.
  assert (Hinv : 0 <= / Math_pow10 d)
    by (apply Qlt_le_weak, Qinv_lt_0_compat; exact Hf).
  unfold Qdiv. apply Qmult_le_compat_r; [|exact Hinv].
  rewrite <- Zle_Qle. apply Math_round_monotone.
  apply Qmult_le_compat_r; [exact H | apply Qlt_le_weak; exact Hf].
Qed.

Lemma roundPrice_monotone (x y : Q) (pricePrecision : option Z) :
  x <= y -> roundPrice x pricePrecision <= roundPrice y pricePrecision.
Proof.
  intros H. rewrite !roundPrice_places.
  apply roundToDecimal_monotone; [apply pow10_positive | exact H].
Qed.

Lemma quantityGrid_positive (tickSize : Q) : 0 < tickSize -> 0 < quantityGrid tickSize.
Proof.
  intros H. unfold quantityGrid.
  destruct (Qle_bool 1 tickSize); [apply Qinv_lt_0_compat|]; exact H.
Qed.

Lemma pow10_grid (tickSize : Q) :
  0 < tickSize -> Math_pow10 (AbsLog10 tickSize) == / quantityGrid tickSize.
Proof.
  intros H. unfold Math_pow10, quantityGrid.
  destruct (Qle_bool 1 tickSize); [|reflexivity].
  rewrite Qinv_involutive. reflexivity.
Qed.

End RoundingBounds.

(** X1.  [roundPrice] moves a price by at most half a unit of the last
    decimal place it keeps. *)
Theorem roundPrice_within_half_unit (price : Q) (pricePrecision : option Z) :
  (Qabs (roundPrice price pricePrecision - price)
   <= (1 # 2) / 10 ^ placesOf pricePrecision)%Q.
Proof.
  rewrite roundPrice_places.
  apply (roundToDecimal_near price (Places (placesOf pricePrecision))).
  apply pow10_positive.
Qed.

(** In exact arithmetic, [roundQuantity] with a positive tick size returns
    a whole number of units of [quantityGrid tickSize], at most half a
    unit away from the quantity. *)
Lemma roundQuantity_exact_grid (quantity tickSize : Q) :
  (0 < tickSize ->
   isMultipleOf (roundQuantity quantity tickSize) (quantityGrid tickSize)
   /\ Qabs (roundQuantity quantity tickSize - quantity)
      <= quantityGrid tickSize / 2)%Q.
Proof.
  intros H. unfold roundQuantity.
  destruct (Qle_bool tickSize 0) eqn:E.
  { apply Qle_bool_iff in E. exfalso. exact (Qlt_not_le _ _ H E). }
  assert (Hg := quantityGrid_positive tickSize H).
  assert (Hne : ~ (quantityGrid tickSize == 0)%Q)
    by (intros E0; rewrite E0 in Hg; exact (Qlt_irrefl _ Hg)).
  assert (Hp := pow10_grid tickSize H).
  split.
  - exists (Math_round (quantity * Math_pow10 (AbsLog10 tickSize))).
    unfold roundToDecimal. cbv zeta.
    set (k := Math_round (quantity * Math_pow10 (AbsLog10 tickSize))).
    rewrite Hp. field. exact Hne.
  - assert (Hpos : (0 < Math_pow10 (AbsLog10 tickSize))%Q).
    { rewrite Hp. apply Qinv_lt_0_compat. exact Hg. }
    assert (B := roundToDecimal_near quantity (AbsLog10 tickSize) Hpos).
    assert (E2 : ((1 # 2) / Math_pow10 (AbsLog10 tickSize)
                  == quantityGrid tickSize / 2)%Q)
      by (rewrite Hp; field; exact Hne).
    rewrite <- E2. exact B.
Qed.

(** At a power of ten the factor of [roundQuantity] is the power of ten
    with the exponent made positive. *)
Lemma pow10_AbsLog10 (k : Z) (tickSize : Q) :
  (tickSize == 10 ^ k ->
   Math_pow10 (AbsLog10 tickSize) == 10 ^ Z.abs k)%Q.
Proof.
  intros E. unfold Math_pow10.
  destruct (Z_le_gt_dec 0 k) as [Hk|Hk].
  - assert (L : (1 <= tickSize)%Q).
    { rewrite E. apply Qpower_1_le; [discriminate | exact Hk]. }
    apply Qle_bool_iff in L. rewrite L, E.
    rewrite Z.abs_eq by exact Hk. reflexivity.
  - assert (L : Qle_bool 1 tickSize = false).
    { destruct (Qle_bool 1 tickSize) eqn:B; [|reflexivity].
      apply Qle_bool_iff in B. rewrite E in B. exfalso.
      assert (P : (10 ^ k < 10 ^ 0)%Q)
        by (apply Qpower_lt_compat_l; [lia | reflexivity]).
      change (10 ^ 0)%Q with 1%Q in P. exact (Qlt_not_le _ _ P B). }
    rewrite L, E. rewrite Z.abs_neq by lia.
    rewrite Qpower_opp. reflexivity.
Qed.

(** X2.  [roundQuantity] returns the quantity untouched for a tick size
    that is zero or negative.  For a tick size that is a power of ten,
    [10 ^ k], it rounds to [|k|] decimal places: in exact arithmetic the
    result is a whole number of units of [10 ^ -|k|], at most half a unit
    away from the quantity.  The unit is the tick size for [k <= 0] and
    the inverse of the tick size for [k > 0]. *)
Theorem roundQuantity_grid (quantity : Q) :
  (forall tickSize : Q,
      (tickSize <= 0)%Q -> roundQuantity quantity tickSize = quantity)
  /\ (forall (k : Z) (tickSize : Q),
         (tickSize == 10 ^ k)%Q ->
         (roundQuantity quantity tickSize
          == roundToDecimal quantity (Places (Z.abs k)))%Q
         /\ isMultipleOf (roundQuantity quantity tickSize) (10 ^ (- Z.abs k))
         /\ (Qabs (roundQuantity quantity tickSize - quantity)
             <= 10 ^ (- Z.abs k) / 2)%Q
         /\ ((k <= 0)%Z -> (10 ^ (- Z.abs k) == tickSize)%Q)
         /\ ((0 < k)%Z -> (10 ^ (- Z.abs k) == / tickSize)%Q)).
Proof.
  split.
  - intros tickSize H. unfold roundQuantity.
    apply Qle_bool_iff in H. rewrite H. reflexivity.
  - intros k tickSize E.
    assert (Hpos : (0 < tickSize)%Q) by (rewrite E; apply pow10_positive).
    assert (F := pow10_AbsLog10 k tickSize E).
    assert (G : (quantityGrid tickSize == 10 ^ (- Z.abs k))%Q).
    { assert (P := pow10_grid tickSize Hpos). rewrite F in P.
      rewrite Qpower_opp.
      assert (Q0 := quantityGrid_positive tickSize Hpos).
      assert (X : (quantityGrid tickSize == / / quantityGrid tickSize)%Q)
        by (rewrite Qinv_involutive; reflexivity).
      rewrite X, <- P. reflexivity. }
    destruct (roundQuantity_exact_grid quantity tickSize Hpos) as [[m Hm] Hnear].
    split.
    { unfold roundQuantity.
      destruct (Qle_bool tickSize 0) eqn:B.
      { apply Qle_bool_iff in B. exfalso. exact (Qlt_not_le _ _ Hpos B). }
      unfold roundToDecimal. cbv zeta.
      change (Math_pow10 (Places (Z.abs k))) with (10 ^ Z.abs k)%Q.
      unfold Math_round.
      rewrite (Qfloor_comp (quantity * Math_pow10 (AbsLog10 tickSize) + (1 # 2))
                           (quantity * 10 ^ Z.abs k + (1 # 2)))
        by (rewrite F; reflexivity).
      rewrite F. reflexivity. }
    split; [exists m; rewrite <- G; exact Hm|].
    split; [rewrite <- G; exact Hnear|].
    split.
    + intros Hk. rewrite E, Z.abs_neq by exact Hk.
      rewrite Z.opp_involutive. reflexivity.
    + intros Hk. rewrite E, Z.abs_eq by lia. apply Qpower_opp.
Qed.

(** X2 at the tick sizes 0.01 and 10, and at a tick size of 0. *)
Lemma roundQuantity_grid_witness :
  (isMultipleOf (roundQuantity 83.3333 0.01) (10 ^ (- Z.abs (-2)))
   /\ (roundQuantity 83.3333 0.01 == 83.33)%Q)
  /\ (isMultipleOf (roundQuantity 83.3333 10) (10 ^ (- Z.abs 1))
      /\ (roundQuantity 83.3333 10 == 83.3)%Q)
  /\ roundQuantity 83.3333 0 = 83.3333%Q.
Proof.
  split; [|split].
  - split; [|reflexivity].
    apply (proj2 (roundQuantity_grid 83.3333) (-2)%Z 0.01%Q). reflexivity.
  - split; [|reflexivity].
    apply (proj2 (roundQuantity_grid 83.3333) 1%Z 10%Q). reflexivity.
  - apply (proj1 (roundQuantity_grid 83.3333) 0%Q). discriminate.
Defined.

(** ** Profit and loss *)

(** X3.  For positive entry price, exit price and quantity, the profit of
    a SHORT position is the opposite of the profit of a LONG position on
    the same prices; a LONG position does not lose exactly when the exit
    price is at least the entry price, a SHORT position exactly when it is
    at most the entry price; and the profit is the percentage of
    [calculatePnLPercent] applied to the entry value.  A direction other
    than LONG or SHORT, or an entry or exit price that is not positive,
    gives a profit and a percentage of 0 instead of an error. *)
Theorem calculatePnL_directions :
  (forall entryPrice exitPrice quantity : Q,
      0 < entryPrice -> 0 < exitPrice -> 0 < quantity ->
      calculatePnL entryPrice exitPrice quantity "SHORT"
      == - calculatePnL entryPrice exitPrice quantity "LONG"
      /\ (0 <= calculatePnL entryPrice exitPrice quantity "LONG"
          <-> entryPrice <= exitPrice)
      /\ (0 <= calculatePnL entryPrice exitPrice quantity "SHORT"
          <-> exitPrice <= entryPrice)
      /\ (forall direction,
             calculatePnL entryPrice exitPrice quantity direction
             == calculatePnLPercent entryPrice exitPrice direction / 100
                * entryPrice * quantity))%Q
  /\ (forall (entryPrice exitPrice quantity : Q) (direction : string),
         direction <> "LONG"%string -> direction <> "SHORT"%string ->
         calculatePnL entryPrice exitPrice quantity direction = 0%Q
         /\ calculatePnLPercent entryPrice exitPrice direction = 0%Q)
  /\ (forall (entryPrice exitPrice quantity : Q) (direction : string),
         (entryPrice <= 0 \/ exitPrice <= 0)%Q ->
         calculatePnL entryPrice exitPrice quantity direction = 0%Q
         /\ calculatePnLPercent entryPrice exitPrice direction = 0%Q).
Proof.
  assert (F : forall v, (0 < v)%Q -> isValidNumber v = true).
  { intros v Hv. unfold isValidNumber, Qltb.
    destruct (Qle_bool v 0) eqn:E; [|reflexivity].
    apply Qle_bool_iff in E. exfalso. exact (Qlt_not_le _ _ Hv E). }
  assert (T : forall v, (v <= 0)%Q -> isValidNumber v = false).
  { intros v Hv. unfold isValidNumber, Qltb.
    apply Qle_bool_iff in Hv. rewrite Hv. reflexivity. }
  split; [|split].
  - intros e x q He Hx Hq.
    unfold calculatePnL, calculatePnLPercent.
    rewrite (F _ He), (F _ Hx), (F _ Hq). cbn [negb orb].
    split; [simpl; ring|].
    split; [simpl; split; intros H; nra|].
    split; [simpl; split; intros H; nra|].
    intros direction.
    destruct (direction =? "LONG")%string;
      [|destruct (direction =? "SHORT")%string].
    + field. intros E. rewrite E in He. exact (Qlt_irrefl _ He).
    + field. intros E. rewrite E in He. exact (Qlt_irrefl _ He).
    + unfold Qdiv. ring.
  - intros e x q direction Hl Hs.
    apply String.eqb_neq in Hl. apply String.eqb_neq in Hs.
    unfold calculatePnL, calculatePnLPercent. rewrite Hl, Hs.
    split.
    + destruct (negb (isValidNumber e) || negb (isValidNumber x)
                || negb (isValidNumber q)); reflexivity.
    + destruct (negb (isValidNumber e) || negb (isValidNumber x)); reflexivity.
  - intros e x q direction [H|H]; unfold calculatePnL, calculatePnLPercent;
      rewrite (T _ H); cbn [negb orb]; rewrite ?orb_true_r; cbn [orb];
      split; reflexivity.
Qed.

(** X3 for 10 contracts entered at 100 and closed at 100.5. *)
Lemma calculatePnL_directions_witness :
  (calculatePnL 100 100.5 10 "SHORT" == - calculatePnL 100 100.5 10 "LONG"
   /\ (0 <= calculatePnL 100 100.5 10 "LONG" <-> 100 <= 100.5)
   /\ (0 <= calculatePnL 100 100.5 10 "SHORT" <-> 100.5 <= 100)
   /\ (forall direction,
          calculatePnL 100 100.5 10 direction
          == calculatePnLPercent 100 100.5 direction / 100 * 100 * 10))%Q
  /\ (calculatePnL 100 100.5 10 "UP" = 0%Q /\ calculatePnLPercent 100 100.5 "UP" = 0%Q)
  /\ (calculatePnL 0 100.5 10 "LONG" = 0%Q /\ calculatePnLPercent 0 100.5 "LONG" = 0%Q).
Proof.
  split; [|split].
  - apply (proj1 calculatePnL_directions); reflexivity.
  - apply (proj1 (proj2 calculatePnL_directions)); discriminate.
  - apply (proj2 (proj2 calculatePnL_directions)). left. discriminate.
Defined.

(** ** Trading hours *)

(** X4.  With the window disabled every hour is active.  With it enabled,
    the start hour is always active; the end hour is inactive unless it
    equals the start hour; and equal start and end hours make every hour
    active.  Only the hour of the clock is read. *)
Theorem trading_hours_edges (config : Config) (now : TimeService.Clock) :
  (enabled (tradingHours config) = false ->
   TimeService.isTradingHoursActive config now = true)
  /\ (TimeService.utcHours now = startHour (tradingHours config) ->
      TimeService.isTradingHoursActive config now = true)
  /\ (enabled (tradingHours config) = true ->
      TimeService.utcHours now = endHour (tradingHours config) ->
      endHour (tradingHours config) <> startHour (tradingHours config) ->
      TimeService.isTradingHoursActive config now = false)
  /\ (startHour (tradingHours config) = endHour (tradingHours config) ->
      TimeService.isTradingHoursActive config now = true)
  /\ (forall other : TimeService.Clock,
         TimeService.utcHours other = TimeService.utcHours now ->
         TimeService.isTradingHoursActive config other
         = TimeService.isTradingHoursActive config now).
Proof.
  unfold TimeService.isTradingHoursActive.
  repeat split.
  - intros H. rewrite H. reflexivity.
  - intros H. rewrite H. destruct (enabled (tradingHours config)); cbn [negb];
      [|reflexivity].
    destruct (endHour (tradingHours config) >? startHour (tradingHours config))%Z eqn:E.
    + apply Z.gtb_lt in E. apply andb_true_iff. split;
        [apply Z.geb_le | apply Z.ltb_lt]; lia.
    + apply orb_true_iff. left. apply Z.geb_le. lia.
  - intros He H Hne. rewrite He, H. cbn [negb].
    destruct (endHour (tradingHours config) >? startHour (tradingHours config))%Z eqn:E.
    + apply andb_false_iff. right. apply Z.ltb_ge. lia.
    + assert (~ (endHour (tradingHours config) > startHour (tradingHours config))%Z).
      { intros G. apply Z.gt_lt, Z.gtb_lt in G. congruence. }
      apply orb_false_iff. split; [|apply Z.ltb_ge; lia].
      destruct (endHour (tradingHours config) >=? startHour (tradingHours config))%Z eqn:G;
        [|reflexivity].
      apply Z.geb_le in G. lia.
  - intros H. rewrite H. destruct (enabled (tradingHours config)); cbn [negb];
      [|reflexivity].
    rewrite Z.gtb_ltb, Z.ltb_irrefl.
    destruct (TimeService.utcHours now >=? endHour (tradingHours config))%Z eqn:G;
      [reflexivity|].
    cbn [orb]. apply Z.ltb_lt.
    destruct (Z.geb_spec (TimeService.utcHours now) (endHour (tradingHours config)));
      [discriminate | lia].
  - intros other H. rewrite H. reflexivity.
Qed.

(** X4 for the window 6 to 22 and the window 22 to 22. *)
Lemma trading_hours_edges_witness :
  let at_ h := {| TimeService.utcHours := h; TimeService.utcMinutes := 30;
                  TimeService.utcSeconds := 0; TimeService.utcMilliseconds := 0 |} in
  TimeService.isTradingHoursActive defaultConfig (at_ 3%Z) = true
  /\ TimeService.isTradingHoursActive (hoursConfig defaultConfig 6 22) (at_ 6%Z) = true
  /\ TimeService.isTradingHoursActive (hoursConfig defaultConfig 6 22) (at_ 22%Z) = false
  /\ TimeService.isTradingHoursActive (hoursConfig defaultConfig 22 22) (at_ 3%Z) = true.
Proof.
  intros at_. split; [|split; [|split]].
  - apply (proj1 (trading_hours_edges defaultConfig (at_ 3%Z))). reflexivity.
  - apply (proj1 (proj2 (trading_hours_edges (hoursConfig defaultConfig 6 22) (at_ 6%Z)))).
    reflexivity.
  - apply (proj1 (proj2 (proj2
             (trading_hours_edges (hoursConfig defaultConfig 6 22) (at_ 22%Z)))));
      [reflexivity | reflexivity | discriminate].
  - apply (proj1 (proj2 (proj2 (proj2
             (trading_hours_edges (hoursConfig defaultConfig 22 22) (at_ 3%Z)))))).
    reflexivity.
Defined.

(** X5.  [getTradingHoursInfo] reports a waiting time exactly when the
    window is inactive.  For hours 0 to 23 and a clock in range, the wait
    is positive and at most a day, it ends at the next start hour sharp,
    and it is reported as whole hours (0 to 23) and whole minutes (0 to
    59), with the seconds dropped. *)
Theorem getTradingHoursInfo_wait (config : Config) (now : TimeService.Clock) :
  validHours config ->
  validClock now ->
  let info := TimeService.getTradingHoursInfo config now in
  TimeService.isActive info = TimeService.isTradingHoursActive config now
  /\ (TimeService.isActive info = true -> TimeService.nextTradingIn info = None)
  /\ (TimeService.isActive info = false ->
      exists diffMs,
        (0 < diffMs < 86400000
         /\ (TimeService.msOfDay now + diffMs) mod 86400000
            = startHour (tradingHours config) * 3600000
         /\ TimeService.nextTradingIn info
            = Some (diffMs / 3600000, (diffMs mod 3600000) / 60000)
         /\ 0 <= diffMs / 3600000 <= 23
         /\ 0 <= (diffMs mod 3600000) / 60000 <= 59
         /\ diffMs - 60000
            < (diffMs / 3600000) * 3600000 + ((diffMs mod 3600000) / 60000) * 60000
            <= diffMs)%Z).
Proof.
  intros (Hs & He) (Hh & Hm & Hsec & Hms) info. subst info.
  unfold TimeService.getTradingHoursInfo.
  cbn [TimeService.isActive TimeService.nextTradingIn].
  split; [reflexivity|].
  destruct (TimeService.isTradingHoursActive config now) eqn:A; cbn [negb].
  { split; [reflexivity | discriminate]. }
  split; [discriminate|]. intros _.
  unfold TimeService.isTradingHoursActive in A.
  destruct (enabled (tradingHours config)); cbn [negb] in A; [|discriminate].
  set (S := startHour (tradingHours config)) in *.
  set (E := endHour (tradingHours config)) in *.
  set (h := TimeService.utcHours now) in *.
  assert (Hday : (h * 3600000 <= TimeService.msOfDay now < h * 3600000 + 3600000)%Z).
  { unfold TimeService.msOfDay. fold h. lia. }
  assert (Hfin : forall diffMs,
             (0 < diffMs < 86400000)%Z ->
             ((TimeService.msOfDay now + diffMs) mod 86400000 = S * 3600000)%Z ->
             exists d,
               (0 < d < 86400000
                /\ (TimeService.msOfDay now + d) mod 86400000 = S * 3600000
                /\ Some (diffMs / 3600000, Z.rem diffMs 3600000 / 60000)
                   = Some (d / 3600000, (d mod 3600000) / 60000)
                /\ 0 <= d / 3600000 <= 23
                /\ 0 <= (d mod 3600000) / 60000 <= 59
                /\ d - 60000
                   < (d / 3600000) * 3600000 + ((d mod 3600000) / 60000) * 60000
                   <= d)%Z).
  { intros d Hd Hmod. exists d.
    rewrite Z.rem_mod_nonneg by lia.
    assert (Q1 := Z.div_mod d 3600000 ltac:(lia)).
    assert (R1 := Z.mod_pos_bound d 3600000 ltac:(lia)).
    assert (Q2 := Z.div_mod (d mod 3600000) 60000 ltac:(lia)).
    assert (R2 := Z.mod_pos_bound (d mod 3600000) 60000 ltac:(lia)).
    repeat split; try assumption; try lia. }
  destruct (E >? S)%Z eqn:G.
  - apply Z.gtb_lt in G. apply andb_false_iff in A.
    destruct (h >=? E)%Z eqn:HE.
    + apply Z.geb_le in HE.
      apply (Hfin (S * 3600000 + 86400000 - TimeService.msOfDay now)%Z); [lia|].
      replace (TimeService.msOfDay now
               + (S * 3600000 + 86400000 - TimeService.msOfDay now))%Z
        with (S * 3600000 + 1 * 86400000)%Z by ring.
      rewrite Z.mod_add by lia. apply Z.mod_small. lia.
    + assert (h < E)%Z by (destruct (Z.geb_spec h E); [discriminate | lia]).
      assert (h < S)%Z.
      { destruct A as [A|A].
        - destruct (Z.geb_spec h S); [discriminate | lia].
        - apply Z.ltb_ge in A. lia. }
      apply (Hfin (S * 3600000 - TimeService.msOfDay now)%Z); [lia|].
      replace (TimeService.msOfDay now + (S * 3600000 - TimeService.msOfDay now))%Z
        with (S * 3600000)%Z by ring.
      apply Z.mod_small. lia.
  - apply orb_false_iff in A. destruct A as [A1 A2].
    assert (h < S)%Z by (destruct (Z.geb_spec h S); [discriminate | lia]).
    apply Z.ltb_lt in H as H'. rewrite H'.
    apply (Hfin (S * 3600000 - TimeService.msOfDay now)%Z); [lia|].
    replace (TimeService.msOfDay now + (S * 3600000 - TimeService.msOfDay now))%Z
      with (S * 3600000)%Z by ring.
    apply Z.mod_small. lia.
Qed.

(** X5 at 22:15:30 for the window 6 to 22: the next window opens in 7
    hours and 44 minutes. *)
Lemma getTradingHoursInfo_wait_witness :
  let now := {| TimeService.utcHours := 22; TimeService.utcMinutes := 15;
                TimeService.utcSeconds := 30; TimeService.utcMilliseconds := 0 |} in
  let info := TimeService.getTradingHoursInfo (hoursConfig defaultConfig 6 22) now in
  TimeService.isActive info = false
  /\ TimeService.nextTradingIn info = Some (7, 44)%Z
  /\ exists diffMs,
       (0 < diffMs < 86400000
        /\ (TimeService.msOfDay now + diffMs) mod 86400000 = 6 * 3600000
        /\ TimeService.nextTradingIn info
           = Some (diffMs / 3600000, (diffMs mod 3600000) / 60000)
        /\ 0 <= diffMs / 3600000 <= 23
        /\ 0 <= (diffMs mod 3600000) / 60000 <= 59
        /\ diffMs - 60000
           < (diffMs / 3600000) * 3600000 + ((diffMs mod 3600000) / 60000) * 60000
           <= diffMs)%Z.
Proof.
  intros now info.
  split; [reflexivity|]. split; [reflexivity|].
  apply (proj2 (proj2 (getTradingHoursInfo_wait (hoursConfig defaultConfig 6 22) now
                         ltac:(unfold validHours; simpl; lia)
                         ltac:(unfold validClock; simpl; lia)))).
  reflexivity.
Defined.

(** ** Position sizing *)

Section SizingFacts.

Import Risk.
Open Scope Q_scope.

Variable config : Config.

Let slp := stopLossPercent (risk config).
Let tpp := takeProfitPercent (risk config).
Let lev := inject_Z (leverage (risk config)).

Lemma isValidNumber_true (v : Q) : isValidNumber v = true <-> 0 < v.
Proof.
  unfold isValidNumber, Qltb. rewrite negb_true_iff. split.
  - intros H. apply Qnot_le_lt. intros L. apply Qle_bool_iff in L. congruence.
  - intros H. destruct (Qle_bool v 0) eqn:E; [|reflexivity].
    apply Qle_bool_iff in E. exfalso. exact (Qlt_not_le _ _ H E).
Qed.

Lemma isValidNumber_false (v : Q) : isValidNumber v = false <-> v <= 0.
Proof.
  unfold isValidNumber, Qltb. rewrite negb_false_iff. apply Qle_bool_iff.
Qed.

Lemma Qleb_true (x y : Q) : Qleb x y = true <-> x <= y.
Proof. apply Qle_bool_iff. Qed.

Lemma Qleb_false (x y : Q) : Qleb x y = false <-> y < x.
Proof.
  unfold Qleb. split.
  - intros H. apply Qnot_le_lt. intros L. apply Qle_bool_iff in L. congruence.
  - intros H. destruct (Qle_bool x y) eqn:E; [|reflexivity].
    apply Qle_bool_iff in E. exfalso. exact (Qlt_not_le _ _ H E).
Qed.

Lemma Qgtb_iff (x y : Q) : Qgtb x y = true <-> y < x.
Proof.
  unfold Qgtb, Qltb. rewrite negb_true_iff. apply Qleb_false.
Qed.

Lemma stopLossDistance_value (entryPrice : Q) (direction : string) :
  stopLossDistance config entryPrice direction == Qabs (entryPrice * slp / 100).
Proof.
  unfold stopLossDistance, stopLossPrice. fold slp.
  destruct (direction =? "LONG")%string.
  - apply Qabs_wd. field.
  - rewrite <- (Qabs_opp (entryPrice * slp / 100)). apply Qabs_wd. field.
Qed.



End SizingFacts.



Section SizingResults.

Import Risk.
Open Scope Q_scope.

Variable config : Config.

(** What a successful sizing says about its inputs and its result. *)
Lemma calculatePositionParameters_Ok
    (balance entryPrice : Q) (direction : string) (symbolInfo : SymbolInfo)
    (p : PositionParameters) :
  calculatePositionParameters config balance entryPrice direction symbolInfo = Ok p ->
  0 < balance /\ 0 < entryPrice
  /\ (direction = "LONG"%string \/ direction = "SHORT"%string)
  /\ 0 < stopLossDistance config entryPrice direction
  /\ pp_entryPrice p
     = roundPrice entryPrice
         (Some match pricePrecision symbolInfo with Some n => n | None => 4%Z end)
  /\ pp_stopLoss p
     = roundPrice (stopLossPrice config entryPrice direction)
         (Some match pricePrecision symbolInfo with Some n => n | None => 4%Z end)
  /\ pp_takeProfit p
     = roundPrice (takeProfitPrice config entryPrice direction)
         (Some match pricePrecision symbolInfo with Some n => n | None => 4%Z end)
  /\ pp_riskAmount p = riskAmount config balance
  /\ pp_leverage p = leverage (risk config)
  /\ pp_direction p = direction.
Proof.
  unfold calculatePositionParameters. cbv zeta.
  destruct (negb (isValidNumber balance) || Qleb balance 0) eqn:Vb; [discriminate|].
  destruct (negb (isValidNumber entryPrice) || Qleb entryPrice 0) eqn:Ve; [discriminate|].
  destruct (negb (direction =? "LONG")%string && negb (direction =? "SHORT")%string)
    eqn:Vd; [discriminate|].
  destruct (Qleb (stopLossDistance config entryPrice direction) 0) eqn:Vs; [discriminate|].
  apply orb_false_iff in Vb. destruct Vb as [_ Vb]. apply Qleb_false in Vb.
  apply orb_false_iff in Ve. destruct Ve as [_ Ve]. apply Qleb_false in Ve.
  apply Qleb_false in Vs.
  assert (D : direction = "LONG"%string \/ direction = "SHORT"%string).
  { apply andb_false_iff in Vd. destruct Vd as [Vd|Vd];
      apply negb_false_iff, String.eqb_eq in Vd; auto. }
  set (q0 := roundQuantity (quantity config balance entryPrice direction)
               (orElse (tickSize symbolInfo) 0.0001)).
  destruct (Qltb q0 (orElse (minQty symbolInfo) 0)); cbv beta iota;
    destruct (orInfinity (maxQty symbolInfo)) as [m|]; cbv beta iota;
    try match goal with
        | |- context [Qgtb ?a m] => destruct (Qgtb a m); cbv beta iota
        end;
    match goal with
    | |- (if ?c then _ else _) = _ -> _ => destruct c; [discriminate|]
    end;
    intros H; inversion H; subst p; clear H;
    cbn [pp_entryPrice pp_stopLoss pp_takeProfit pp_riskAmount pp_leverage pp_direction];
    repeat split; assumption.
Qed.

Lemma stopLossDistance_zero (entryPrice : Q) (direction : string) :
  stopLossPercent (risk config) == 0 ->
  stopLossDistance config entryPrice direction == 0.
Proof.
  intros Hs. rewrite stopLossDistance_value, Hs.
  assert (E : entryPrice * 0 / 100 == 0) by field.
  rewrite E. reflexivity.
Qed.

End SizingResults.

(** ** Doubles: rounding next to 1, and the stop distance *)

Section DoubleStopLoss.

Open Scope Q_scope.

Lemma pow2_le_inv (a b : Z) : Double.pow2 a <= Double.pow2 b -> (a <= b)%Z.
Proof.
  unfold Double.pow2. intros H. apply (Qpower_le_compat_l_inv 2); [exact H | reflexivity].
Qed.

Lemma ilog2_unique (q : Q) (l : Z) :
  Double.pow2 l <= Qabs q -> Qabs q < Double.pow2 (l + 1) -> Double.ilog2 q = l.
Proof.
  intros L U.
  assert (Hq : ~ q == 0).
  { intros E. assert (P := pow2_positive l).
    assert (A : Qabs q == 0) by (rewrite E; reflexivity).
    rewrite A in L. exact (Qlt_not_le _ _ P L). }
  assert (L' := ilog2_le q Hq). assert (U' := ilog2_lt q Hq).
  assert (A : (Double.ilog2 q < l + 1)%Z).
  { apply pow2_lt_inv. eapply Qle_lt_trans; [exact L' | exact U]. }
  assert (B : (l < Double.ilog2 q + 1)%Z).
  { apply pow2_lt_inv. eapply Qle_lt_trans; [exact L | exact U']. }
  lia.
Qed.

Lemma fl_nonneg (q : Q) : 0 <= q -> 0 <= Double.fl q.
Proof.
  intros H. unfold Double.fl. destruct (Qeq_bool q 0); [apply Qle_refl|].
  rewrite Qred_correct.
  set (e := Double.lastBit q). assert (P := pow2_positive e).
  apply Qmult_le_0_compat; [|apply Qlt_le_weak; exact P].
  assert (F : (0 <= Qfloor (q / Double.pow2 e))%Z).
  { change 0%Z with (Qfloor 0). apply Qfloor_resp_le.
    apply Qle_shift_div_l; [exact P|]. lra. }
  unfold Double.nearestEven.
  destruct (Qcompare _ _); [destruct (Z.even _)| |];
    change 0 with (inject_Z 0); rewrite <- Zle_Qle; lia.
Qed.

Lemma inject_Z_pred (m : Z) : inject_Z (m - 1) == inject_Z m - 1.
Proof. unfold Z.sub. rewrite inject_Z_plus. reflexivity. Qed.

Lemma inject_Z_succ (m : Z) : inject_Z (m + 1) == inject_Z m + 1.
Proof. rewrite inject_Z_plus. reflexivity. Qed.

Lemma nearestEven_upper_half (y : Q) (m : Z) :
  Z.even m = true ->
  inject_Z m - (1 # 2) <= y -> y < inject_Z m ->
  Double.nearestEven y = m.
Proof.
  intros Hm L U. unfold Double.nearestEven.
  assert (F : Qfloor y = (m - 1)%Z).
  { assert (A := Qfloor_le y). assert (B := Qlt_floor y).
    rewrite inject_Z_succ in B.
    assert (H1 : inject_Z (m - 1) < inject_Z (Qfloor y + 1)).
    { rewrite inject_Z_succ, inject_Z_pred. lra. }
    assert (H2 : inject_Z (Qfloor y) < inject_Z m) by lra.
    rewrite <- Zlt_Qlt in H1, H2. lia. }
  rewrite F.
  assert (Odd : Z.even (m - 1) = false).
  { rewrite Z.even_sub, Hm. reflexivity. }
  rewrite Odd.
  destruct (Qcompare_spec (y - inject_Z (m - 1)) (1 # 2)) as [E|E|E]; try lia.
  exfalso. rewrite inject_Z_pred in E. lra.
Qed.

Lemma nearestEven_lower_half (y : Q) (m : Z) :
  Z.even m = true ->
  inject_Z m <= y -> y <= inject_Z m + (1 # 2) ->
  Double.nearestEven y = m.
Proof.
  intros Hm L U. unfold Double.nearestEven.
  assert (F : Qfloor y = m).
  { assert (A := Qfloor_le y). assert (B := Qlt_floor y).
    rewrite inject_Z_succ in B.
    assert (H1 : inject_Z m < inject_Z (Qfloor y + 1)).
    { rewrite inject_Z_succ. lra. }
    assert (H2 : inject_Z (Qfloor y) < inject_Z (m + 1)).
    { rewrite inject_Z_succ. lra. }
    rewrite <- Zlt_Qlt in H1, H2. lia. }
  rewrite F, Hm.
  destruct (Qcompare_spec (y - inject_Z m) (1 # 2)) as [E|E|E]; try reflexivity.
  exfalso. lra.
Qed.

(** Just below 1 and just above 1 the nearest double is 1. *)
Lemma fl_below_one (x : Q) : 0 <= x -> x <= Double.pow2 (-54) -> Double.fl (1 - x) = 1.
Proof.
  intros H0 H1.
  destruct (Qeq_dec x 0) as [E|E].
  { rewrite (fl_comp (1 - x) 1) by (rewrite E; reflexivity). reflexivity. }
  assert (Hx : 0 < x).
  { destruct (Qlt_le_dec 0 x) as [H|H]; [exact H|].
    exfalso. apply E. apply Qle_antisym; assumption. }
  assert (V : Double.pow2 (-54) == 1 # 18014398509481984) by reflexivity.
  rewrite V in H1.
  assert (A : Qabs (1 - x) == 1 - x) by (apply Qabs_pos; lra).
  assert (I : Double.ilog2 (1 - x) = (-1)%Z).
  { apply ilog2_unique; rewrite A.
    - change (Double.pow2 (-1)) with (1 # 2). lra.
    - change (Double.pow2 (-1 + 1)) with 1. lra. }
  unfold Double.fl.
  destruct (Qeq_bool (1 - x) 0) eqn:Z0.
  { apply Qeq_bool_iff in Z0. exfalso. lra. }
  unfold Double.lastBit. rewrite I. change (Z.max (-1 - 52) (-1074)) with (-53)%Z.
  rewrite (nearestEven_upper_half _ 9007199254740992).
  - reflexivity.
  - reflexivity.
  - change (Double.pow2 (-53)) with (1 # 9007199254740992).
    change (inject_Z 9007199254740992) with 9007199254740992.
    apply Qle_shift_div_l; [reflexivity|]. lra.
  - change (Double.pow2 (-53)) with (1 # 9007199254740992).
    change (inject_Z 9007199254740992) with 9007199254740992.
    apply Qlt_shift_div_r; [reflexivity|]. lra.
Qed.

Lemma fl_above_one (x : Q) : 0 <= x -> x <= Double.pow2 (-53) -> Double.fl (1 + x) = 1.
Proof.
  intros H0 H1.
  assert (V : Double.pow2 (-53) == 1 # 9007199254740992) by reflexivity.
  rewrite V in H1.
  assert (A : Qabs (1 + x) == 1 + x) by (apply Qabs_pos; lra).
  assert (I : Double.ilog2 (1 + x) = 0%Z).
  { apply ilog2_unique; rewrite A.
    - change (Double.pow2 0) with 1. lra.
    - change (Double.pow2 (0 + 1)) with 2. lra. }
  unfold Double.fl.
  destruct (Qeq_bool (1 + x) 0) eqn:Z0.
  { apply Qeq_bool_iff in Z0. exfalso. lra. }
  unfold Double.lastBit. rewrite I. change (Z.max (0 - 52) (-1074)) with (-52)%Z.
  rewrite (nearestEven_lower_half _ 4503599627370496).
  - reflexivity.
  - reflexivity.
  - change (Double.pow2 (-52)) with (1 # 4503599627370496).
    change (inject_Z 4503599627370496) with 4503599627370496.
    apply Qle_shift_div_l; [reflexivity|]. lra.
  - change (Double.pow2 (-52)) with (1 # 4503599627370496).
    change (inject_Z 4503599627370496) with 4503599627370496.
    apply Qle_shift_div_r; [reflexivity|]. lra.
Qed.

(** A hundredth of a percentage of at most [10 ^ -15] is too small to
    move 1. *)
Lemma tiny_percent (percent : Q) :
  0 <= percent -> percent <= 1 # 1000000000000000 ->
  0 <= Double.div percent 100 /\ Double.div percent 100 <= Double.pow2 (-54).
Proof.
  intros H0 H1. unfold Double.div. split.
  - apply fl_nonneg. apply Qle_shift_div_l; [reflexivity|]. lra.
  - assert (B : Qabs (percent / 100) <= 1 # 100000000000000000).
    { rewrite Qabs_pos by (apply Qle_shift_div_l; [reflexivity|]; lra).
      apply Qle_shift_div_r; [reflexivity|]. lra. }
    assert (E := fl_error (percent / 100) _ B).
    apply Qabs_Qle_condition in E.
    assert (Q1 : percent / 100 <= 1 # 100000000000000000).
    { apply Qle_shift_div_r; [reflexivity|]. lra. }
    set (u := Double.pow2 (-53)) in *. set (eta := Double.pow2 (-1075)) in *.
    assert (Hu : u == 1 # 9007199254740992) by reflexivity.
    assert (Heta : eta <= 1 # 36028797018963968000)
      by (apply Qle_bool_iff; vm_compute; reflexivity).
    assert (V : Double.pow2 (-54) == 1 # 18014398509481984) by reflexivity.
    rewrite V. lra.
Qed.

(** *** The doubles are the fixed points of the rounding *)

Lemma nearestEven_Z (m : Z) : Double.nearestEven (inject_Z m) = m.
Proof.
  unfold Double.nearestEven. rewrite Qfloor_Z.
  destruct (Qcompare_spec (inject_Z m - inject_Z m) (1 # 2)) as [E|E|E];
    try reflexivity; exfalso; lra.
Qed.

(** A number with a significand of at most 53 bits and a last bit not
    below [2 ^ -1074] is a double: it is its own nearest double. *)
Lemma fl_double (m e : Z) :
  (Z.abs m < 2 ^ 53)%Z -> (-1074 <= e)%Z ->
  Double.fl (inject_Z m * Double.pow2 e) == inject_Z m * Double.pow2 e.
Proof.
  intros Hm He. unfold Double.fl.
  destruct (Qeq_bool (inject_Z m * Double.pow2 e) 0) eqn:Z0.
  { apply Qeq_bool_iff in Z0. rewrite Z0. reflexivity. }
  assert (Hq : ~ inject_Z m * Double.pow2 e == 0)
    by (intros H; apply Qeq_bool_iff in H; congruence).
  rewrite Qred_correct.
  assert (Pe := pow2_positive e).
  assert (Hm0 : m <> 0%Z).
  { intros ->. apply Hq. ring. }
  set (j := Z.log2 (Z.abs m)).
  assert (Hj : (0 <= j <= 52)%Z).
  { split; [apply Z.log2_nonneg|].
    assert (A : (Z.log2 (Z.abs m) < 53)%Z) by (apply Z.log2_lt_pow2; lia). lia. }
  assert (L : (2 ^ j <= Z.abs m < 2 ^ (j + 1))%Z).
  { replace (j + 1)%Z with (Z.succ j) by lia. apply Z.log2_spec. lia. }
  assert (A : Qabs (inject_Z m * Double.pow2 e) == inject_Z (Z.abs m) * Double.pow2 e).
  { rewrite Qabs_Qmult, (Qabs_pos (Double.pow2 e)) by (apply Qlt_le_weak; exact Pe).
    reflexivity. }
  assert (I : Double.ilog2 (inject_Z m * Double.pow2 e) = (j + e)%Z).
  { apply ilog2_unique; rewrite A.
    - rewrite pow2_plus, (pow2_Z j) by lia.
      apply Qmult_le_compat_r; [|apply Qlt_le_weak; exact Pe].
      rewrite <- Zle_Qle. lia.
    - replace (j + e + 1)%Z with ((j + 1) + e)%Z by lia.
      rewrite pow2_plus, (pow2_Z (j + 1)) by lia.
      apply Qmult_lt_compat_r; [exact Pe|].
      rewrite <- Zlt_Qlt. lia. }
  unfold Double.lastBit. rewrite I.
  set (e' := Z.max (j + e - 52) (-1074)).
  assert (He' : (e' <= e)%Z) by (unfold e'; lia).
  assert (Pe' := pow2_positive e').
  assert (S : Double.pow2 e == inject_Z (2 ^ (e - e')) * Double.pow2 e').
  { rewrite <- pow2_Z by lia. rewrite <- pow2_plus.
    replace (e - e' + e')%Z with e by lia. reflexivity. }
  assert (D : inject_Z m * Double.pow2 e / Double.pow2 e' == inject_Z (m * 2 ^ (e - e'))).
  { rewrite S, inject_Z_mult. field.
    intros H0. rewrite H0 in Pe'. exact (Qlt_irrefl _ Pe'). }
  rewrite (nearestEven_comp _ _ D), nearestEven_Z.
  rewrite inject_Z_mult, S. ring.
Qed.

Lemma fl_canonical (q : Q) : Qred (Double.fl q) = Double.fl q.
Proof.
  unfold Double.fl. destruct (Qeq_bool q 0); [reflexivity|].
  apply Qred_complete, Qred_correct.
Qed.

Lemma nearestEven_bound (y : Q) (b : Z) :
  Qabs y <= inject_Z b -> (Z.abs (Double.nearestEven y) <= b)%Z.
Proof.
  intros H. apply Qabs_Qle_condition in H. destruct H as [L U].
  assert (F1 := Qfloor_le y). assert (F2 := Qlt_floor y).
  rewrite inject_Z_succ in F2.
  assert (G1 : (- b <= Qfloor y)%Z).
  { rewrite <- (Qfloor_Z (- b)). apply Qfloor_resp_le.
    rewrite inject_Z_opp. exact L. }
  assert (G2 : (Qfloor y <= b)%Z).
  { rewrite <- (Qfloor_Z b). apply Qfloor_resp_le. exact U. }
  unfold Double.nearestEven.
  destruct (Qcompare_spec (y - inject_Z (Qfloor y)) (1 # 2)) as [E|E|E].
  - destruct (Z.even (Qfloor y)); [lia|].
    assert (X : inject_Z (Qfloor y) < inject_Z b) by lra.
    rewrite <- Zlt_Qlt in X. lia.
  - lia.
  - assert (X : inject_Z (Qfloor y) < inject_Z b) by lra.
    rewrite <- Zlt_Qlt in X. lia.
Qed.

(** The nearest double is a double: rounding it again changes nothing. *)
Lemma fl_idempotent (q : Q) : Double.fl (Double.fl q) = Double.fl q.
Proof.
  rewrite <- (fl_canonical (Double.fl q)).
  etransitivity; [|apply fl_canonical].
  apply Qred_complete.
  unfold Double.fl at 2 3.
  destruct (Qeq_bool q 0) eqn:Z0; [reflexivity|].
  assert (Hq : ~ q == 0) by (intros H; apply Qeq_bool_iff in H; congruence).
  set (e := Double.lastBit q). set (z := Double.nearestEven (q / Double.pow2 e)).
  rewrite (fl_comp _ _ (Qred_correct _)).
  rewrite Qred_correct.
  assert (Pe := pow2_positive e).
  assert (He : (-1074 <= e)%Z) by (unfold e, Double.lastBit; lia).
  assert (Hz : (Z.abs z <= 2 ^ 53)%Z).
  { apply nearestEven_bound.
    unfold Qdiv. rewrite Qabs_Qmult.
    rewrite (Qabs_pos (/ Double.pow2 e)) by (apply Qlt_le_weak, Qinv_lt_0_compat; exact Pe).
    apply Qle_shift_div_r; [exact Pe|].
    assert (U := ilog2_lt q Hq).
    apply Qlt_le_weak. eapply Qlt_le_trans; [exact U|].
    rewrite <- (pow2_Z 53) by lia. rewrite <- pow2_plus.
    unfold Double.pow2. apply Qpower_le_compat_l; [|discriminate].
    unfold e, Double.lastBit. lia. }
  destruct (Z.eq_dec (Z.abs z) (2 ^ 53)) as [Top|NotTop].
  - assert (S : inject_Z z * Double.pow2 e == inject_Z (z / 2) * Double.pow2 (e + 1)).
    { rewrite pow2_plus. change (Double.pow2 1) with 2.
      assert (Hz2 : z = (2 * (z / 2))%Z).
      { change (2 ^ 53)%Z with 9007199254740992%Z in Top.
        assert (M : (z mod 2 = 0)%Z).
        { destruct (Z.abs_eq_or_opp z) as [A|A]; rewrite A in Top.
          - subst z. rewrite Top. reflexivity.
          - assert (z = (-9007199254740992)%Z) by lia.
            subst z. rewrite H. reflexivity. }
        rewrite (Z.div_mod z 2) at 1 by lia. lia. }
      rewrite Hz2 at 1. rewrite inject_Z_mult. change (inject_Z 2) with 2. ring. }
    rewrite (fl_comp _ _ S), S.
    apply fl_double; [|lia].
    change (2 ^ 53)%Z with 9007199254740992%Z in *.
    destruct (Z.abs_eq_or_opp z) as [A|A]; rewrite A in Top.
    + rewrite Top. reflexivity.
    + assert (H : z = (-9007199254740992)%Z) by lia. rewrite H. reflexivity.
  - apply fl_double; lia.
Qed.

(** On doubles a stop-loss percent of at most [10 ^ -15] does not move
    the entry price. *)
Lemma Double_stopLossDistance_zero
    (config : Config) (entryPrice : Q) (direction : string) :
  Double.fl entryPrice = entryPrice ->
  0 <= stopLossPercent (risk config) ->
  stopLossPercent (risk config) <= 1 # 1000000000000000 ->
  Double.stopLossDistance config entryPrice direction = 0.
Proof.
  intros Hd H0 H1.
  destruct (tiny_percent (stopLossPercent (risk config)) H0 H1) as [T0 T1].
  assert (One : Double.stopLossPrice config entryPrice direction = entryPrice).
  { unfold Double.stopLossPrice.
    destruct (direction =? "LONG")%string.
    - unfold Double.sub. rewrite (fl_below_one _ T0 T1).
      unfold Double.mul. rewrite (fl_comp (entryPrice * 1) entryPrice) by ring.
      exact Hd.
    - unfold Double.add. rewrite fl_above_one; [|exact T0|].
      + unfold Double.mul. rewrite (fl_comp (entryPrice * 1) entryPrice) by ring.
        exact Hd.
      + eapply Qle_trans; [exact T1|]. apply Qle_bool_iff. reflexivity. }
  unfold Double.stopLossDistance. rewrite One.
  unfold Double.sub. rewrite (fl_comp (entryPrice - entryPrice) 0) by ring.
  reflexivity.
Qed.

End DoubleStopLoss.

(** X7.  [calculatePositionParameters] reports its failures in a fixed
    order: a balance that is not positive, then an entry price that is not
    positive, then a direction other than LONG and SHORT, then a stop
    distance that is not positive.  With a positive stop distance the only
    failure left is the final margin check, which throws only with a
    margin above the balance.  A stop-loss percent of 0 always gives a
    stop distance of 0; and on doubles so does every percent up to
    [10 ^ -15], which leaves the stop price at the entry price. *)
Theorem calculatePositionParameters_errors
    (config : Config) (balance entryPrice : Q) (direction : string)
    (symbolInfo : Risk.SymbolInfo) :
  let sizing :=
    Risk.calculatePositionParameters config balance entryPrice direction symbolInfo in
  ((balance <= 0 -> sizing = Throw (InvalidBalance balance))
   /\ (0 < balance -> entryPrice <= 0 -> sizing = Throw (InvalidEntryPrice entryPrice))
   /\ (0 < balance -> 0 < entryPrice ->
       direction <> "LONG"%string -> direction <> "SHORT"%string ->
       sizing = Throw (InvalidDirection direction))
   /\ (0 < balance -> 0 < entryPrice ->
       direction = "LONG"%string \/ direction = "SHORT"%string ->
       Risk.stopLossDistance config entryPrice direction <= 0 ->
       sizing = Throw StopLossDistanceZero)
   /\ (0 < balance -> 0 < entryPrice ->
       direction = "LONG"%string \/ direction = "SHORT"%string ->
       0 < Risk.stopLossDistance config entryPrice direction ->
       (exists p, sizing = Ok p)
       \/ (exists margin,
              sizing = Throw (InsufficientBalance margin balance)
              /\ balance < margin))
   /\ (stopLossPercent (risk config) == 0 ->
       Risk.stopLossDistance config entryPrice direction == 0)
   /\ (Double.fl entryPrice = entryPrice ->
       0 <= stopLossPercent (risk config) <= 1 # 1000000000000000 ->
       Double.stopLossDistance config entryPrice direction = 0))%Q.
Proof.
  intros sizing. subst sizing. unfold Risk.calculatePositionParameters. cbv zeta.
  split.
  { intros H. apply isValidNumber_false in H. rewrite H. reflexivity. }
  split.
  { intros Hb H. assert (Hb' := Hb).
    apply isValidNumber_true in Hb. apply Qleb_false in Hb'.
    rewrite Hb, Hb'. apply isValidNumber_false in H. rewrite H. reflexivity. }
  assert (Pre : forall X Y : result Risk.PositionParameters,
             (0 < balance)%Q -> (0 < entryPrice)%Q ->
             (if negb (isValidNumber balance) || Qleb balance 0 then X
              else if negb (isValidNumber entryPrice) || Qleb entryPrice 0
                   then Throw (InvalidEntryPrice entryPrice)
                   else Y) = Y).
  { intros X Y Hb He. assert (Hb' := Hb). assert (He' := He).
    apply isValidNumber_true in Hb. apply Qleb_false in Hb'.
    apply isValidNumber_true in He. apply Qleb_false in He'.
    rewrite Hb, Hb', He, He'. reflexivity. }
  split.
  { intros Hb He Hl Hs. rewrite (Pre _ _ Hb He).
    apply String.eqb_neq in Hl. apply String.eqb_neq in Hs.
    rewrite Hl, Hs. reflexivity. }
  assert (Dir : forall X Y : result Risk.PositionParameters,
             direction = "LONG"%string \/ direction = "SHORT"%string ->
             (if negb (direction =? "LONG")%string && negb (direction =? "SHORT")%string
              then X else Y) = Y).
  { intros X Y [D|D]; subst direction; reflexivity. }
  split.
  { intros Hb He D Hs. rewrite (Pre _ _ Hb He), (Dir _ _ D).
    apply Qleb_true in Hs. rewrite Hs. reflexivity. }
  split.
  { intros Hb He D P. rewrite (Pre _ _ Hb He), (Dir _ _ D).
    apply Qleb_false in P. rewrite P.
    set (q0 := Helpers.roundQuantity (Risk.quantity config balance entryPrice direction)
                 (Risk.orElse (Risk.tickSize symbolInfo) 0.0001)).
    destruct (Qltb q0 (Risk.orElse (Risk.minQty symbolInfo) 0)); cbv beta iota;
      destruct (Risk.orInfinity (Risk.maxQty symbolInfo)) as [m|]; cbv beta iota;
      try match goal with
          | |- context [Qgtb ?a m] => destruct (Qgtb a m); cbv beta iota
          end;
      match goal with
      | |- context [if Qgtb ?a ?b then _ else _] => destruct (Qgtb a b) eqn:G
      end;
      try (left; eexists; reflexivity);
      right; eexists; (split; [reflexivity | apply Qgtb_iff; exact G]). }
  split; [apply stopLossDistance_zero|].
  intros Hd [H0 H1]. apply Double_stopLossDistance_zero; assumption.
Qed.

(** X7 under the default settings, and on doubles with a stop-loss percent
    of [1e-22] at the entry price 100. *)
Lemma calculatePositionParameters_errors_witness :
  Risk.calculatePositionParameters defaultConfig 0 100 "LONG" scriptedInstrument
  = Throw (InvalidBalance 0)
  /\ Risk.calculatePositionParameters defaultConfig 1000 (-1) "UP" scriptedInstrument
     = Throw (InvalidEntryPrice (-1))
  /\ Risk.calculatePositionParameters defaultConfig 1000 100 "UP" scriptedInstrument
     = Throw (InvalidDirection "UP")
  /\ ((exists p,
          Risk.calculatePositionParameters defaultConfig 1000 100 "LONG" scriptedInstrument
          = Ok p)
      \/ (exists margin,
             Risk.calculatePositionParameters defaultConfig 1000 100 "LONG"
               scriptedInstrument
             = Throw (InsufficientBalance margin 1000)
             /\ (1000 < margin)%Q))
  /\ Double.stopLossDistance (withStopLoss (Double.fl 1e-22)) 100 "LONG" = 0%Q.
Proof.
  split; [|split; [|split; [|split]]].
  - apply (proj1 (calculatePositionParameters_errors defaultConfig 0 100 "LONG"
                    scriptedInstrument)). discriminate.
  - apply (proj1 (proj2 (calculatePositionParameters_errors defaultConfig 1000 (-1) "UP"
                    scriptedInstrument))); [reflexivity | discriminate].
  - apply (proj1 (proj2 (proj2 (calculatePositionParameters_errors defaultConfig 1000 100
                    "UP" scriptedInstrument)))); [reflexivity | reflexivity | | ];
      discriminate.
  - apply (proj1 (proj2 (proj2 (proj2 (proj2 (calculatePositionParameters_errors
                    defaultConfig 1000 100 "LONG" scriptedInstrument))))));
      [reflexivity | reflexivity | left; reflexivity | reflexivity].
  - apply (proj2 (proj2 (proj2 (proj2 (proj2 (proj2
             (calculatePositionParameters_errors (withStopLoss (Double.fl 1e-22))
                1000 100 "LONG" scriptedInstrument))))))); [reflexivity|].
    split; vm_compute; discriminate.
Defined.

(** X8.  A successful sizing returns a margin the balance covers, equal to
    the returned quantity times the entry price over the leverage; and
    when the effective minimum quantity does not exceed the effective
    maximum, the returned quantity lies between them. *)
Theorem sizing_margin_and_range
    (config : Config) (balance entryPrice : Q) (direction : string)
    (symbolInfo : Risk.SymbolInfo) (p : Risk.PositionParameters) :
  Risk.calculatePositionParameters config balance entryPrice direction symbolInfo = Ok p ->
  (Risk.pp_requiredMargin p <= balance
   /\ Risk.pp_requiredMargin p
      = (Risk.pp_quantity p * entryPrice) / inject_Z (leverage (risk config))
   /\ (match Risk.orInfinity (Risk.maxQty symbolInfo) with
       | Some m => Risk.orElse (Risk.minQty symbolInfo) 0 <= m
       | None => True
       end ->
       Risk.orElse (Risk.minQty symbolInfo) 0 <= Risk.pp_quantity p
       /\ match Risk.orInfinity (Risk.maxQty symbolInfo) with
          | Some m => Risk.pp_quantity p <= m
          | None => True
          end))%Q.
Proof.
  intros H.
  exact (@calculatePositionParameters_guarantees config balance entryPrice direction
           symbolInfo p H).
Qed.

(** X8 for the scripted instrument: quantity 83.33 between 0.01 and
    100000, margin 416.65 within the balance of 1000. *)
Lemma sizing_margin_and_range_witness :
  (Risk.pp_requiredMargin scriptedParams <= 1000
   /\ Risk.pp_requiredMargin scriptedParams
      = (Risk.pp_quantity scriptedParams * 100) / inject_Z 20
   /\ (0.01 <= 100000 ->
       0.01 <= Risk.pp_quantity scriptedParams
       /\ Risk.pp_quantity scriptedParams <= 100000))%Q.
Proof.
  exact (@sizing_margin_and_range defaultConfig 1000 100 "LONG" scriptedInstrument
           scriptedParams eq_refl).
Defined.

(** X9.  With stop-loss and take-profit percents that are not negative,
    the prices a successful sizing returns keep their order after
    rounding: stop-loss at most entry at most take-profit for LONG, and
    the reverse for SHORT.  The order is not strict: rounding can make the
    three prices equal. *)
Theorem sizing_prices_ordered
    (config : Config) (balance entryPrice : Q) (direction : string)
    (symbolInfo : Risk.SymbolInfo) (p : Risk.PositionParameters) :
  (0 <= stopLossPercent (risk config))%Q ->
  (0 <= takeProfitPercent (risk config))%Q ->
  Risk.calculatePositionParameters config balance entryPrice direction symbolInfo = Ok p ->
  ((direction = "LONG"%string ->
    Risk.pp_stopLoss p <= Risk.pp_entryPrice p <= Risk.pp_takeProfit p)
   /\ (direction = "SHORT"%string ->
       Risk.pp_takeProfit p <= Risk.pp_entryPrice p <= Risk.pp_stopLoss p))%Q.
Proof.
  intros Hs Ht H.
  destruct (calculatePositionParameters_Ok config balance entryPrice direction
              symbolInfo p H)
    as (_ & He & _ & _ & E1 & E2 & E3 & _).
  rewrite E1, E2, E3.
  assert (Up : forall k : Q, (0 <= k)%Q -> (entryPrice <= entryPrice * (1 + k / 100))%Q).
  { intros k Hk.
    assert (0 <= entryPrice * (k / 100))%Q.
    { apply Qmult_le_0_compat; [apply Qlt_le_weak; exact He|].
      unfold Qdiv. apply Qmult_le_0_compat; [exact Hk | discriminate]. }
    lra. }
  assert (Down : forall k : Q, (0 <= k)%Q -> (entryPrice * (1 - k / 100) <= entryPrice)%Q).
  { intros k Hk.
    assert (0 <= entryPrice * (k / 100))%Q.
    { apply Qmult_le_0_compat; [apply Qlt_le_weak; exact He|].
      unfold Qdiv. apply Qmult_le_0_compat; [exact Hk | discriminate]. }
    lra. }
  unfold Risk.stopLossPrice, Risk.takeProfitPrice.
  split; intros ->; cbn [String.eqb Ascii.eqb Bool.eqb]; cbv beta iota;
    split; apply roundPrice_monotone; auto.
Qed.

(** X9 at a price of 100 with two decimals, and at a price of 0.004 where
    the three rounded prices coincide. *)
Lemma sizing_prices_ordered_witness :
  (Risk.pp_stopLoss scriptedParams <= Risk.pp_entryPrice scriptedParams
   <= Risk.pp_takeProfit scriptedParams)%Q
  /\ exists p,
       Risk.calculatePositionParameters defaultConfig 1000 0.004 "LONG" scriptedInstrument
       = Ok p
       /\ (Risk.pp_stopLoss p == 0 /\ Risk.pp_entryPrice p == 0
           /\ Risk.pp_takeProfit p == 0)%Q.
Proof.
  split.
  - apply (proj1 (sizing_prices_ordered defaultConfig 1000 100 "LONG" scriptedInstrument
                    scriptedParams ltac:(discriminate) ltac:(discriminate) eq_refl)).
    reflexivity.
  - eexists. split; [vm_compute; reflexivity|]. repeat split.
Defined.



(** ** Opening a position *)

(** X11.  After a successful sizing, the balance check of [openPosition]
    passes exactly when the margin is positive.  A sizing whose quantity
    rounds to nothing, so that the margin is zero, makes [openPosition]
    throw the insufficient-balance error after its three reads, in dry-run
    mode as in live mode, with no order placed and the ledger unchanged. *)
Theorem openPosition_zero_margin
    (config : Config) (env : Runtime.Env) (signal : Bot.Signal) (w : Runtime.World)
    (balance currentPrice : Q) (symbolInfo : Risk.SymbolInfo)
    (params : Risk.PositionParameters) :
  Runtime.getUSDTBalance env = Ok balance ->
  Runtime.getCurrentPrice env (Bot.sig_symbol signal) = Ok currentPrice ->
  Runtime.getSymbolInfo env (Bot.sig_symbol signal) = Ok symbolInfo ->
  Risk.calculatePositionParameters config balance currentPrice
    (Bot.sig_direction signal) symbolInfo = Ok params ->
  (Risk.hasSufficientBalance balance (Risk.pp_requiredMargin params) = true
   <-> (0 < Risk.pp_requiredMargin params)%Q)
  /\ ((Risk.pp_requiredMargin params <= 0)%Q ->
      Bot.openPosition config env signal w
      = (Throw (InsufficientBalance (Risk.pp_requiredMargin params) balance),
         afterCalls w balance (sizingCalls signal))).
Proof.
  intros Hb Hp Hi Hc.
  destruct (calculatePositionParameters_Ok config balance currentPrice
              (Bot.sig_direction signal) symbolInfo params Hc) as (Hpos & _).
  destruct (@calculatePositionParameters_guarantees config balance currentPrice
              (Bot.sig_direction signal) symbolInfo params Hc) as (Hle & _).
  assert (Iff : Risk.hasSufficientBalance balance (Risk.pp_requiredMargin params) = true
                <-> (0 < Risk.pp_requiredMargin params)%Q).
  { unfold Risk.hasSufficientBalance.
    apply isValidNumber_true in Hpos. rewrite Hpos. cbn [andb].
    assert (G : Qgeb balance (Risk.pp_requiredMargin params) = true)
      by (apply Qle_bool_iff; exact Hle).
    rewrite G, andb_true_r. apply isValidNumber_true. }
  split; [exact Iff|].
  intros Hz.
  assert (Hs : Risk.hasSufficientBalance balance (Risk.pp_requiredMargin params) = false).
  { apply not_true_is_false. intros E. apply Iff in E.
    exact (Qlt_not_le _ _ E Hz). }
  cbv [Bot.openPosition Runtime.try_catch Runtime.bind Runtime.await
       Runtime.updateStats Runtime.updateLedger Runtime.lift Runtime.throw Runtime.ret].
  rewrite Hb, Hp, Hi, Hc, Hs. cbv [negb].
  unfold afterCalls, sizingCalls. cbn [Runtime.ledger Runtime.statistics Runtime.calls].
  repeat rewrite <- app_assoc. reflexivity.
Qed.

(** X11 for a balance of 0.001 at a price of 100 and a step of 0.01: the
    quantity rounds to 0. *)
Lemma openPosition_zero_margin_witness :
  exists params,
    Risk.calculatePositionParameters defaultConfig 0.001 100 "LONG" noMinimumInstrument
    = Ok params
    /\ (Risk.pp_quantity params == 0)%Q
    /\ Bot.openPosition defaultConfig (withAccount 0.001 noMinimumInstrument) longSignal
         initialWorld
       = (Throw (InsufficientBalance (Risk.pp_requiredMargin params) 0.001),
          afterCalls initialWorld 0.001 (sizingCalls longSignal)).
Proof.
  eexists. split; [vm_compute; reflexivity|]. split; [reflexivity|].
  apply (proj2 (openPosition_zero_margin defaultConfig
                  (withAccount 0.001 noMinimumInstrument) longSignal initialWorld
                  0.001 100 noMinimumInstrument _ eq_refl eq_refl eq_refl eq_refl)).
  discriminate.
Defined.

(** ** The ledger *)

Section MapMore.

Variable V : Type.
Implicit Types (m : JsMap.t V) (k : string) (v : V).

Lemma delete_absent k m : JsMap.has k m = false -> JsMap.delete k m = m.
Proof.
  unfold JsMap.has. induction m as [|[k0 v0] r IH]; simpl; [reflexivity|].
  destruct (k =? k0)%string; [discriminate|].
  intros H. rewrite (IH H). reflexivity.
Qed.

Lemma delete_set_absent k v m :
  JsMap.has k m = false -> JsMap.delete k (JsMap.set k v m) = m.
Proof.
  unfold JsMap.has. induction m as [|[k0 v0] r IH]; simpl.
  - intros _. rewrite String.eqb_refl. reflexivity.
  - destruct (k =? k0)%string eqn:E; [discriminate|].
    intros H. simpl. rewrite E, (IH H). reflexivity.
Qed.

Lemma size_delete k m :
  JsMap.has k m = true -> JsMap.size (JsMap.delete k m) = (JsMap.size m - 1)%Z.
Proof.
  unfold JsMap.has, JsMap.size. induction m as [|[k0 v0] r IH]; simpl length.
  - discriminate.
  - simpl JsMap.get. simpl JsMap.delete.
    destruct (k =? k0)%string; [intros _; lia|].
    intros H. simpl length. rewrite Nat2Z.inj_succ, (IH H). lia.
Qed.

Lemma get_app_absent k v (kept rest : JsMap.t V) :
  ~ In k (JsMap.keys kept) -> JsMap.get k (kept ++ (k, v) :: rest) = Some v.
Proof.
  induction kept as [|[k0 v0] r IH]; simpl; intros H.
  - rewrite String.eqb_refl. reflexivity.
  - destruct (k =? k0)%string eqn:E.
    + apply String.eqb_eq in E. exfalso. apply H. left. congruence.
    + apply IH. tauto.
Qed.

Lemma delete_app_absent k v (kept rest : JsMap.t V) :
  ~ In k (JsMap.keys kept) -> JsMap.delete k (kept ++ (k, v) :: rest) = kept ++ rest.
Proof.
  induction kept as [|[k0 v0] r IH]; simpl; intros H.
  - rewrite String.eqb_refl. reflexivity.
  - destruct (k =? k0)%string eqn:E.
    + apply String.eqb_eq in E. exfalso. apply H. left. congruence.
    + rewrite IH; [reflexivity | tauto].
Qed.

End MapMore.

(** X12.  [removeOpenPosition] on a symbol that is not open returns null
    and leaves the ledger as it is.  On an open symbol of a ledger with
    unique keys it returns the stored record, the symbol is no longer
    open, the count drops by one, and the other symbols and the closed
    history are untouched.  Adding a position for a symbol that was not
    open and removing it again gives back the ledger and the record that
    was stored. *)
Theorem removeOpenPosition_roundtrip :
  (forall (this : Position.Ledger) (symbol : string),
      PositionService.hasOpenPosition this symbol = false ->
      PositionService.removeOpenPosition this symbol = (this, None))
  /\ (forall (this : Position.Ledger) (symbol : string) (position : Position.OpenPosition),
         wellKeyed this ->
         PositionService.getOpenPosition this symbol = Some position ->
         let '(this', returned) := PositionService.removeOpenPosition this symbol in
         returned = Some position
         /\ PositionService.hasOpenPosition this' symbol = false
         /\ PositionService.getOpenPositionsCount this'
            = (PositionService.getOpenPositionsCount this - 1)%Z
         /\ (forall other, other <> symbol ->
                PositionService.getOpenPosition this' other
                = PositionService.getOpenPosition this other)
         /\ Position.closedPositions this' = Position.closedPositions this
         /\ wellKeyed this')
  /\ (forall (this : Position.Ledger) (positionData : Position.PositionData) (now : Z),
         PositionService.hasOpenPosition this (Position.pd_symbol positionData) = false ->
         PositionService.removeOpenPosition
           (PositionService.addOpenPosition this positionData now)
           (Position.pd_symbol positionData)
         = (this, Some (PositionService.trackedRecord positionData now))).
Proof.
  split; [|split].
  - intros this symbol H.
    unfold PositionService.removeOpenPosition, PositionService.hasOpenPosition,
      JsMap.has in *.
    destruct (JsMap.get symbol (Position.openPositions this)); [discriminate|reflexivity].
  - intros this symbol position Hwk Hget.
    assert (Hw' := @wellKeyed_removeOpenPosition this symbol Hwk).
    unfold PositionService.removeOpenPosition in *.
    unfold PositionService.getOpenPosition in Hget. rewrite Hget in *.
    cbn [fst] in Hw'.
    unfold PositionService.hasOpenPosition, PositionService.getOpenPosition,
      PositionService.getOpenPositionsCount.
    cbn [Position.openPositions Position.closedPositions].
    destruct Hwk as [Hnd _].
    split; [reflexivity|].
    split; [unfold JsMap.has; rewrite (@get_delete_same _ symbol _ Hnd); reflexivity|].
    split; [apply size_delete; unfold JsMap.has; rewrite Hget; reflexivity|].
    split; [intros other Hne; apply get_delete_other; exact Hne|].
    split; [reflexivity | exact Hw'].
  - intros this positionData now H.
    unfold PositionService.removeOpenPosition, PositionService.addOpenPosition.
    cbn [Position.openPositions Position.closedPositions].
    rewrite get_set_same.
    unfold PositionService.hasOpenPosition in H.
    rewrite (delete_set_absent _ _ _ _ H).
    destruct this; reflexivity.
Qed.

(** X12 on the ledger that tracks one LONG position. *)
Lemma removeOpenPosition_roundtrip_witness :
  PositionService.removeOpenPosition (Runtime.ledger trackingWorld) "TAOUSDT"
  = (Runtime.ledger trackingWorld, None)
  /\ (let '(this', returned) :=
        PositionService.removeOpenPosition (Runtime.ledger trackingWorld) "ADAUSDT" in
      returned = Some trackedLong
      /\ PositionService.hasOpenPosition this' "ADAUSDT" = false
      /\ PositionService.getOpenPositionsCount this'
         = (PositionService.getOpenPositionsCount (Runtime.ledger trackingWorld) - 1)%Z
      /\ (forall other, other <> "ADAUSDT"%string ->
             PositionService.getOpenPosition this' other
             = PositionService.getOpenPosition (Runtime.ledger trackingWorld) other)
      /\ Position.closedPositions this'
         = Position.closedPositions (Runtime.ledger trackingWorld)
      /\ wellKeyed this').
Proof.
  split.
  - apply (proj1 removeOpenPosition_roundtrip). reflexivity.
  - apply (proj1 (proj2 removeOpenPosition_roundtrip)
             (Runtime.ledger trackingWorld) "ADAUSDT"%string trackedLong).
    + split; simpl; repeat constructor. intros [].
    + reflexivity.
Defined.

(** X13.  In [getStatistics] the wins and the losses add up to the number
    of closed positions, which is the length of the history; a closed
    position with a profit of exactly 0 counts as a win.  Closing one more
    position adds one trade, adds one win exactly when its profit is not
    negative, and adds its profit to the total; [resetDailyStatistics]
    brings the three counts back to 0 and leaves the open positions. *)
Theorem getStatistics_counts (this : Position.Ledger) :
  let s := PositionService.getStatistics this in
  (PositionService.ps_winTrades s + PositionService.ps_loseTrades s
   = PositionService.ps_totalTrades s
   /\ 0 <= PositionService.ps_winTrades s <= PositionService.ps_totalTrades s
   /\ PositionService.ps_totalTrades s
      = Z.of_nat (length (Position.closedPositions this))
   /\ PositionService.ps_openPositions s = PositionService.getOpenPositionsCount this)%Z
  /\ (forall (positionData : Position.ClosedPositionData) (now : Z),
         let s' := PositionService.getStatistics
                     (PositionService.addClosedPosition this positionData now) in
         PositionService.ps_totalTrades s' = (PositionService.ps_totalTrades s + 1)%Z
         /\ PositionService.ps_winTrades s'
            = (PositionService.ps_winTrades s
               + if Qle_bool 0 (Position.cpd_pnl positionData) then 1 else 0)%Z
         /\ PositionService.ps_totalPnl s'
            = (PositionService.ps_totalPnl s + Position.cpd_pnl positionData)%Q
         /\ PositionService.ps_openPositions s' = PositionService.ps_openPositions s)
  /\ (let s0 := PositionService.getStatistics
                  (PositionService.resetDailyStatistics this) in
      PositionService.ps_totalTrades s0 = 0%Z
      /\ PositionService.ps_winTrades s0 = 0%Z
      /\ PositionService.ps_loseTrades s0 = 0%Z
      /\ PositionService.ps_totalPnl s0 = 0%Q
      /\ PositionService.ps_openPositions s0 = PositionService.ps_openPositions s).
Proof.
  intros s. subst s. unfold PositionService.getStatistics.
  cbn [PositionService.ps_winTrades PositionService.ps_loseTrades
       PositionService.ps_totalTrades PositionService.ps_totalPnl
       PositionService.ps_openPositions].
  split; [|split].
  - assert (L := filter_length_le
                   (fun p => Qgeb (Position.cpd_pnl (Position.cp_data p)) 0)
                   (Position.closedPositions this)).
    unfold PositionService.getOpenPositionsCount. repeat split; lia.
  - intros positionData now.
    unfold PositionService.addClosedPosition.
    cbn [Position.openPositions Position.closedPositions].
    rewrite filter_app, !length_app, fold_left_app.
    cbn [filter fold_left length Position.cp_data]. unfold Qgeb.
    split; [lia|].
    split; [destruct (Qle_bool 0 (Position.cpd_pnl positionData));
            cbn [length]; lia|].
    split; reflexivity.
  - cbn. repeat split.
Qed.

(** ** A whole reconciliation tick *)

Section Tick.

Import Position Runtime PositionService.

Variable config : Config.
Variable env : Env.
Variable exchangePositions : list Bybit.ExchangePosition.

(** One step of the loop, by what [tickRecord] says. *)
Lemma checkPosition_step (entry : string * OpenPosition) (w : World) :
  let '(r, w') := checkPosition config env exchangePositions entry w in
  r = Ok tt
  /\ statistics w' = statistics w
  /\ match tickRecord env exchangePositions entry with
     | Some record =>
         ledger w'
         = fst (removeOpenPosition
                  {| openPositions := openPositions (ledger w);
                     closedPositions := closedPositions (ledger w) ++ [record] |}
                  (fst entry))
     | None => ledger w' = ledger w
     end.
Proof.
  destruct entry as [symbol trackedPosition].
  unfold checkPosition, tickRecord. cbn [fst snd].
  assert (H : let '(r, w') := handlePositionClosed config env symbol trackedPosition w in
              r = Ok tt
              /\ statistics w' = statistics w
              /\ match
                   match getTradeHistory env symbol 10 with
                   | Ok trades =>
                       Some {| cp_data :=
                                 closedPositionData env symbol trackedPosition trades;
                               cp_closedAt := dateNow env |}
                   | Throw _ => None
                   end
                 with
                 | Some record =>
                     ledger w'
                     = fst (removeOpenPosition
                              {| openPositions := openPositions (ledger w);
                                 closedPositions := closedPositions (ledger w) ++ [record] |}
                              symbol)
                 | None => ledger w' = ledger w
                 end).
  { destruct (getTradeHistory env symbol 10) as [trades|e] eqn:Ht.
    - rewrite (handlePositionClosed_trades config env symbol trackedPosition w Ht).
      repeat split.
    - rewrite (handlePositionClosed_no_trades config env symbol trackedPosition w Ht).
      repeat split. }
  destruct (find _ exchangePositions) as [pos|]; [|exact H].
  destruct (Qeq_bool (Bybit.ep_size pos) 0); [exact H|].
  repeat split.
Qed.

(** The loop over the entries still to visit, [rest], when the entries
    kept so far are [kept]. *)
Lemma forEach_checkPosition (rest kept : list (string * OpenPosition)) (w : World) :
  openPositions (ledger w) = kept ++ rest ->
  NoDup (JsMap.keys (kept ++ rest)) ->
  let '(r, w') := forEach rest (checkPosition config env exchangePositions) w in
  r = Ok tt
  /\ statistics w' = statistics w
  /\ openPositions (ledger w') = kept ++ keptByTick env exchangePositions rest
  /\ closedPositions (ledger w')
     = closedPositions (ledger w) ++ closedByTick env exchangePositions rest.
Proof.
  revert kept w. induction rest as [|entry rest IH]; intros kept w Hopen Hnd.
  - cbn. rewrite !app_nil_r in *. repeat split. exact Hopen.
  - cbn [forEach]. unfold bind.
    assert (Step := checkPosition_step entry w).
    destruct (checkPosition config env exchangePositions entry w) as [r1 w1].
    destruct Step as (Hr & Hst & Hled). subst r1.
    unfold keptByTick, closedByTick. cbn [filter flat_map].
    destruct entry as [symbol trackedPosition]. cbn [fst] in Hled.
    assert (Hnotin : ~ In symbol (JsMap.keys kept)).
    { unfold JsMap.keys in *. rewrite map_app in Hnd. cbn [map fst] in Hnd.
      apply NoDup_remove_2 in Hnd. intros Hin. apply Hnd.
      apply in_or_app. left. exact Hin. }
    destruct (tickRecord env exchangePositions (symbol, trackedPosition)) as [record|].
    + unfold removeOpenPosition in Hled. cbn [openPositions closedPositions] in Hled.
      rewrite Hopen in Hled.
      rewrite (get_app_absent _ symbol trackedPosition kept rest Hnotin) in Hled.
      rewrite (delete_app_absent _ symbol trackedPosition kept rest Hnotin) in Hled.
      cbn [fst] in Hled.
      assert (Hnd' : NoDup (JsMap.keys (kept ++ rest))).
      { unfold JsMap.keys in *. rewrite map_app in *. cbn [map fst] in Hnd.
        apply NoDup_remove_1 in Hnd. exact Hnd. }
      assert (Hopen1 : openPositions (ledger w1) = kept ++ rest)
        by (rewrite Hled; reflexivity).
      assert (IH' := IH kept w1 Hopen1 Hnd').
      destruct (forEach rest (checkPosition config env exchangePositions) w1) as [r2 w2].
      destruct IH' as (Hr2 & Hst2 & Ho2 & Hc2).
      split; [exact Hr2|]. split; [congruence|]. split; [exact Ho2|].
      rewrite Hc2, Hled. cbn [closedPositions]. rewrite <- app_assoc. reflexivity.
    + assert (Hopen1 : openPositions (ledger w1) = (kept ++ [(symbol, trackedPosition)]) ++ rest)
        by (rewrite Hled, Hopen, <- app_assoc; reflexivity).
      assert (Hnd' : NoDup (JsMap.keys ((kept ++ [(symbol, trackedPosition)]) ++ rest)))
        by (rewrite <- app_assoc; exact Hnd).
      assert (IH' := IH (kept ++ [(symbol, trackedPosition)]) w1 Hopen1 Hnd').
      destruct (forEach rest (checkPosition config env exchangePositions) w1) as [r2 w2].
      destruct IH' as (Hr2 & Hst2 & Ho2 & Hc2).
      split; [exact Hr2|]. split; [congruence|].
      split; [rewrite Ho2, <- app_assoc; reflexivity|].
      rewrite Hc2, Hled. cbn [app]. reflexivity.
Qed.

End Tick.

(** What a tick keeps is still well keyed. *)
Lemma wellKeyed_keptByTick
    (env : Runtime.Env) (exchangePositions : list Bybit.ExchangePosition)
    (ledger ledger' : Position.Ledger) :
  wellKeyed ledger ->
  Position.openPositions ledger'
  = keptByTick env exchangePositions (Position.openPositions ledger) ->
  wellKeyed ledger'.
Proof.
  intros [Hnd Hkeys] Ho.
  unfold wellKeyed. rewrite Ho. unfold keptByTick. split.
  - unfold JsMap.keys in *. clear - Hnd.
    induction (Position.openPositions ledger) as [|e l IH]; [constructor|].
    cbn [filter map] in *. inversion Hnd as [|x xs Hnin Hnd']; subst.
    destruct (tickRecord env exchangePositions e); [apply IH; exact Hnd'|].
    cbn [map]. constructor; [|apply IH; exact Hnd'].
    intros Hin. apply Hnin. apply in_map_iff in Hin. destruct Hin as [y [Hy Hin]].
    apply filter_In in Hin. apply in_map_iff. exists y. tauto.
  - apply Forall_forall. intros e He. apply filter_In in He.
    rewrite Forall_forall in Hkeys. apply Hkeys. tauto.
Qed.

(** The ledger and the statistics after a tick whose live-position query
    is answered. *)
Lemma checkPositions_tick
    (config : Config) (env : Runtime.Env)
    (exchangePositions : list Bybit.ExchangePosition) (w : Runtime.World) :
  NoDup (JsMap.keys (Position.openPositions (Runtime.ledger w))) ->
  Runtime.getOpenPositions env = Ok exchangePositions ->
  let '(r, w') := PositionService.checkPositions config env w in
  let entries := Position.openPositions (Runtime.ledger w) in
  r = Ok tt
  /\ Position.openPositions (Runtime.ledger w')
     = keptByTick env exchangePositions entries
  /\ Position.closedPositions (Runtime.ledger w')
     = (Position.closedPositions (Runtime.ledger w)
        ++ closedByTick env exchangePositions entries)%list
  /\ Runtime.statistics w' = Runtime.statistics w.
Proof.
  intros Hnd Hlive.
  cbv [PositionService.checkPositions Runtime.try_catch Runtime.bind
       Runtime.getLedger Runtime.await Runtime.ret].
  rewrite Hlive.
  destruct (JsMap.size (Position.openPositions (Runtime.ledger w)) =? 0)%Z eqn:Z0.
  - cbv zeta.
    assert (E : Position.openPositions (Runtime.ledger w) = []).
    { unfold JsMap.size in Z0. apply Z.eqb_eq in Z0.
      destruct (Position.openPositions (Runtime.ledger w)); [reflexivity|].
      simpl in Z0. lia. }
    rewrite E. cbn. rewrite app_nil_r.
    repeat split; try assumption.
  - set (w0 := {| Runtime.ledger := Runtime.ledger w;
                  Runtime.statistics := Runtime.statistics w;
                  Runtime.calls := Runtime.calls w ++ [Runtime.GetOpenPositions] |}).
    assert (F := forEach_checkPosition config env exchangePositions
                   (Position.openPositions (Runtime.ledger w)) [] w0 eq_refl Hnd).
    unfold JsMap.entries.
    destruct (Runtime.forEach (Position.openPositions (Runtime.ledger w))
                (PositionService.checkPosition config env exchangePositions) w0)
      as [r1 w1].
    destruct F as (Hr & Hst & Ho & Hc). subst r1. cbv zeta.
    split; [reflexivity|]. split; [exact Ho|]. split; [exact Hc|exact Hst].
Qed.

(** X14.  A reconciliation tick whose live-position query is answered
    closes exactly the tracked positions that the exchange no longer lists
    (or lists with size zero) and whose trade history can be read: they
    leave the open set, the others stay in their order, and one record per
    closed position is appended to the history in the order the positions
    were tracked.  The tick returns normally and leaves the statistics
    object alone. *)
Theorem checkPositions_closes_exactly
    (config : Config) (env : Runtime.Env)
    (exchangePositions : list Bybit.ExchangePosition) (w : Runtime.World) :
  wellKeyed (Runtime.ledger w) ->
  Runtime.getOpenPositions env = Ok exchangePositions ->
  let '(r, w') := PositionService.checkPositions config env w in
  let entries := Position.openPositions (Runtime.ledger w) in
  r = Ok tt
  /\ Position.openPositions (Runtime.ledger w')
     = keptByTick env exchangePositions entries
  /\ Position.closedPositions (Runtime.ledger w')
     = (Position.closedPositions (Runtime.ledger w)
        ++ closedByTick env exchangePositions entries)%list
  /\ Runtime.statistics w' = Runtime.statistics w
  /\ wellKeyed (Runtime.ledger w').
Proof.
  intros Hwk Hlive.
  assert (T := checkPositions_tick config env exchangePositions w (proj1 Hwk) Hlive).
  destruct (PositionService.checkPositions config env w) as [r w'].
  cbv zeta in *. destruct T as (Hr & Ho & Hc & Hst).
  split; [exact Hr|]. split; [exact Ho|]. split; [exact Hc|]. split; [exact Hst|].
  exact (wellKeyed_keptByTick env exchangePositions _ _ Hwk Ho).
Qed.

(** X14 on a ledger that tracks ADAUSDT and TAOUSDT when the exchange
    lists only TAOUSDT: ADAUSDT is closed at the Sell price 100.5 and
    TAOUSDT stays open. *)
Lemma checkPositions_closes_exactly_witness :
  let env := withLive (Ok [live "TAOUSDT" 2]) (Ok [trade "Sell" 100.5]) in
  let '(r, w') := PositionService.checkPositions defaultConfig env twoPositionsWorld in
  let entries := Position.openPositions (Runtime.ledger twoPositionsWorld) in
  (r = Ok tt
   /\ Position.openPositions (Runtime.ledger w')
      = keptByTick env [live "TAOUSDT" 2] entries
   /\ Position.closedPositions (Runtime.ledger w')
      = (Position.closedPositions (Runtime.ledger twoPositionsWorld)
         ++ closedByTick env [live "TAOUSDT" 2] entries)%list
   /\ Runtime.statistics w' = Runtime.statistics twoPositionsWorld
   /\ wellKeyed (Runtime.ledger w'))
  /\ keptByTick env [live "TAOUSDT" 2] entries = [("TAOUSDT"%string, trackedShort)]
  /\ map (fun c => Position.cpd_position (Position.cp_data c))
         (closedByTick env [live "TAOUSDT" 2] entries) = [trackedLong].
Proof.
  intros env.
  assert (Hwk : wellKeyed (Runtime.ledger twoPositionsWorld)).
  { split; simpl.
    - repeat constructor; simpl; intuition discriminate.
    - repeat constructor. }
  generalize (checkPositions_closes_exactly defaultConfig env [live "TAOUSDT" 2]
                twoPositionsWorld Hwk eq_refl).
  destruct (PositionService.checkPositions defaultConfig env twoPositionsWorld) as [r w'].
  cbv zeta. intros H. split; [exact H|]. split; reflexivity.
Defined.

Section TickAlways.

Import Position Runtime PositionService.

Variable config : Config.
Variable env : Env.

Lemma forEach_checkPosition_returns
    (exchangePositions : list Bybit.ExchangePosition)
    (entries : list (string * OpenPosition)) (w : World) :
  let '(r, w') := forEach entries (checkPosition config env exchangePositions) w in
  r = Ok tt /\ statistics w' = statistics w.
Proof.
  revert w. induction entries as [|entry rest IH]; intros w.
  - cbn. split; reflexivity.
  - cbn [forEach]. unfold bind.
    assert (Step := checkPosition_step config env exchangePositions entry w).
    destruct (checkPosition config env exchangePositions entry w) as [r1 w1].
    destruct Step as (Hr & Hst & _). subst r1.
    assert (IH' := IH w1).
    destruct (forEach rest (checkPosition config env exchangePositions) w1) as [r2 w2].
    destruct IH' as (Hr2 & Hst2). split; [exact Hr2 | congruence].
Qed.

End TickAlways.

(** X15.  [checkPositions] never throws and never writes the statistics
    object, whatever the exchange and the channel answer.  With no
    position tracked it makes no call at all and leaves the world as it
    is.  When positions are tracked and the live-position query throws,
    the only call made is that query and the ledger is unchanged. *)
Theorem checkPositions_never_throws
    (config : Config) (env : Runtime.Env) (w : Runtime.World) :
  let '(r, w') := PositionService.checkPositions config env w in
  r = Ok tt
  /\ Runtime.statistics w' = Runtime.statistics w
  /\ (Position.openPositions (Runtime.ledger w) = [] -> w' = w)
  /\ (forall e,
         Position.openPositions (Runtime.ledger w) <> [] ->
         Runtime.getOpenPositions env = Throw e ->
         Runtime.ledger w' = Runtime.ledger w
         /\ Runtime.calls w' = (Runtime.calls w ++ [Runtime.GetOpenPositions])%list).
Proof.
  cbv [PositionService.checkPositions Runtime.try_catch Runtime.bind
       Runtime.getLedger Runtime.await Runtime.ret].
  destruct (JsMap.size (Position.openPositions (Runtime.ledger w)) =? 0)%Z eqn:Z0.
  - assert (E : Position.openPositions (Runtime.ledger w) = []).
    { unfold JsMap.size in Z0. apply Z.eqb_eq in Z0.
      destruct (Position.openPositions (Runtime.ledger w)); [reflexivity|].
      simpl in Z0. lia. }
    repeat split; congruence.
  - assert (NE : Position.openPositions (Runtime.ledger w) <> []).
    { intros E. rewrite E in Z0. discriminate. }
    destruct (Runtime.getOpenPositions env) as [exchangePositions|e0].
    + set (w0 := {| Runtime.ledger := Runtime.ledger w;
                    Runtime.statistics := Runtime.statistics w;
                    Runtime.calls := Runtime.calls w ++ [Runtime.GetOpenPositions] |}).
      assert (F := forEach_checkPosition_returns config env exchangePositions
                     (JsMap.entries (Position.openPositions (Runtime.ledger w))) w0).
      destruct (Runtime.forEach _ _ w0) as [r1 w1].
      destruct F as (Hr & Hst). subst r1.
      split; [reflexivity|]. split; [exact Hst|].
      split; [intros E; contradiction | intros e _ H; discriminate H].
    + split; [reflexivity|]. split; [reflexivity|].
      split; [intros E; contradiction|].
      intros e _ _. split; reflexivity.
Qed.

(** X15 on a new ledger, and on a tracked position when the exchange
    cannot be reached. *)
Lemma checkPositions_never_throws_witness :
  PositionService.checkPositions defaultConfig
    (withLive (Throw (ApiError "Failed to get positions: timeout")) (Ok [])) initialWorld
  = (Ok tt, initialWorld)
  /\ (let '(r, w') :=
        PositionService.checkPositions defaultConfig
          (withLive (Throw (ApiError "Failed to get positions: timeout")) (Ok []))
          trackingWorld in
      Runtime.ledger w' = Runtime.ledger trackingWorld
      /\ Runtime.calls w' = (Runtime.calls trackingWorld ++ [Runtime.GetOpenPositions])%list).
Proof.
  split.
  - generalize (checkPositions_never_throws defaultConfig
                  (withLive (Throw (ApiError "Failed to get positions: timeout")) (Ok []))
                  initialWorld).
    destruct (PositionService.checkPositions defaultConfig _ initialWorld) as [r w'].
    intros (Hr & _ & Hsame & _). rewrite Hr, (Hsame eq_refl). reflexivity.
  - generalize (checkPositions_never_throws defaultConfig
                  (withLive (Throw (ApiError "Failed to get positions: timeout")) (Ok []))
                  trackingWorld).
    destruct (PositionService.checkPositions defaultConfig _ trackingWorld) as [r w'].
    intros (_ & _ & _ & H).
    apply (H (ApiError "Failed to get positions: timeout")); [discriminate | reflexivity].
Defined.

(** ** What [openPosition] does to the ledger *)

Section OpenFrame.

Import Bybit Runtime Bot.

Variable config : Config.
Variable env : Env.
Variable signal : Signal.

Lemma openPosition_cases (w : World) :
  let '(r, w') := openPosition config env signal w in
  (openedNothing w w' \/ openedOne env signal w w')
  /\ exists made, calls w' = (calls w ++ made)%list.
Proof.
  cbv [openPosition try_catch bind await updateStats updateLedger lift throw ret].
  destruct (getUSDTBalance env) as [balance|e];
    [|split; [left; repeat split | eexists; reflexivity]].
  destruct (getCurrentPrice env (sig_symbol signal)) as [currentPrice|e];
    [|split; [left; repeat split | eexists; cbn [calls]; rewrite <- ?app_assoc; reflexivity]].
  destruct (getSymbolInfo env (sig_symbol signal)) as [symbolInfo|e];
    [|split; [left; repeat split | eexists; cbn [calls]; rewrite <- ?app_assoc; reflexivity]].
  destruct (Risk.calculatePositionParameters config balance currentPrice
              (sig_direction signal) symbolInfo) as [params|e];
    [|split; [left; repeat split | eexists; cbn [calls]; rewrite <- ?app_assoc; reflexivity]].
  destruct (Risk.hasSufficientBalance balance (Risk.pp_requiredMargin params));
    cbv [negb];
    [|split; [left; repeat split | eexists; cbn [calls]; rewrite <- ?app_assoc; reflexivity]].
  destruct (dryRun (trading config)).
  { split; [|eexists; cbn [calls]; rewrite <- ?app_assoc; reflexivity].
    right. eexists. split; [|split; [reflexivity|split; reflexivity]]. reflexivity. }
  destruct (setLeverage _) as [b|e];
    [|split; [left; repeat split | eexists; cbn [calls]; rewrite <- ?app_assoc; reflexivity]].
  destruct (openMarketOrder _) as [orderResult|e];
    [|split; [left; repeat split | eexists; cbn [calls]; rewrite <- ?app_assoc; reflexivity]].
  destruct (setTakeProfit _) as [tpResult|e];
    [|split; [left; repeat split | eexists; cbn [calls]; rewrite <- ?app_assoc; reflexivity]].
  destruct (setStopLoss _) as [slResult|e];
    [|split; [left; repeat split | eexists; cbn [calls]; rewrite <- ?app_assoc; reflexivity]].
  cbv [TelegramService.formatPositionOpenedMessage openedMessageData pod_symbol].
  split; [|eexists; cbn [calls]; rewrite <- ?app_assoc; reflexivity].
  right; eexists; (split; [|split; [reflexivity|split; reflexivity]]); reflexivity.
Qed.

End OpenFrame.

(** X16.  Whatever the exchange and the channel answer, [openPosition]
    either leaves the ledger and the trade counters as they were, or it
    has stored one position under the symbol of the signal and counted one
    trade.  It never touches the open position of another symbol or the
    closed history, the number of open positions grows by at most one, the
    calls already recorded are kept, and a ledger with unique keys keeps
    unique keys. *)
Theorem openPosition_frame
    (config : Config) (env : Runtime.Env) (signal : Bot.Signal) (w : Runtime.World) :
  let '(r, w') := Bot.openPosition config env signal w in
  (openedNothing w w' \/ openedOne env signal w w')
  /\ Position.closedPositions (Runtime.ledger w')
     = Position.closedPositions (Runtime.ledger w)
  /\ (forall other,
         other <> Bot.sig_symbol signal ->
         PositionService.getOpenPosition (Runtime.ledger w') other
         = PositionService.getOpenPosition (Runtime.ledger w) other)
  /\ (PositionService.getOpenPositionsCount (Runtime.ledger w)
      <= PositionService.getOpenPositionsCount (Runtime.ledger w')
      <= PositionService.getOpenPositionsCount (Runtime.ledger w) + 1)%Z
  /\ (exists made, Runtime.calls w' = (Runtime.calls w ++ made)%list)
  /\ (wellKeyed (Runtime.ledger w) -> wellKeyed (Runtime.ledger w')).
Proof.
  assert (C := openPosition_cases config env signal w).
  destruct (Bot.openPosition config env signal w) as [r w'].
  destruct C as [[(Hl & Ht & Hd) | (pd & Hsym & Hl & Ht & Hd)] Hcalls].
  - split; [left; repeat split; assumption|]. rewrite Hl.
    split; [reflexivity|]. split; [reflexivity|]. split; [lia|].
    split; [exact Hcalls | tauto].
  - split; [right; exists pd; repeat split; assumption|]. rewrite Hl.
    unfold PositionService.getOpenPosition, PositionService.getOpenPositionsCount.
    cbn [PositionService.addOpenPosition Position.openPositions Position.closedPositions].
    split; [reflexivity|].
    split; [intros other Hne; apply get_set_other; congruence|].
    split.
    { rewrite size_set.
      destruct (JsMap.has (Position.pd_symbol pd) (Position.openPositions (Runtime.ledger w)));
        lia. }
    split; [exact Hcalls|].
    intros H. exact (@wellKeyed_addOpenPosition (Runtime.ledger w) pd (Runtime.dateNow env) H).
Qed.

(** X16 for a LONG signal on a new ledger. *)
Lemma openPosition_frame_witness :
  let '(r, w') :=
    Bot.openPosition defaultConfig (withChannel (Ok tt)) longSignal initialWorld in
  wellKeyed (Runtime.ledger w')
  /\ (PositionService.getOpenPositionsCount (Runtime.ledger w') <= 1)%Z
  /\ Position.closedPositions (Runtime.ledger w') = [].
Proof.
  generalize (openPosition_frame defaultConfig (withChannel (Ok tt)) longSignal
                initialWorld).
  destruct (Bot.openPosition defaultConfig (withChannel (Ok tt)) longSignal initialWorld)
    as [r w'].
  intros (_ & Hclosed & _ & Hcount & _ & Hwk).
  split; [apply Hwk; split; constructor|].
  split; [exact (proj2 Hcount) | exact Hclosed].
Defined.

Section OpenOutcomes.

Import Bybit Runtime Bot.

Variable config : Config.
Variable env : Env.
Variable signal : Signal.
Variable balance : Q.
Variable params : Risk.PositionParameters.

Hypothesis sizing : sizingSucceeds config env signal balance params.

Lemma openPosition_simulated (w : World) :
  dryRun (trading config) = true ->
  openPosition config env signal w
  = (Ok tt,
     {| ledger :=
          PositionService.addOpenPosition (ledger w)
            (dryRunPositionData env signal params) (dateNow env);
        statistics := countTrade (setCurrentBalance balance (statistics w));
        calls := (calls w ++ sizingCalls signal)%list |}).
Proof.
  intros Hdry.
  destruct sizing as (currentPrice & symbolInfo & Hb & Hp & Hi & Hc & Hs).
  cbv [openPosition try_catch bind await updateStats updateLedger lift throw ret].
  rewrite Hb, Hp, Hi, Hc, Hs, Hdry. cbv [negb].
  cbn [ledger statistics calls]. unfold sizingCalls, dryRunPositionData.
  rewrite <- !app_assoc. reflexivity.
Qed.

End OpenOutcomes.

(** X17.  In dry-run mode, once the balance, the price and the instrument
    are read and the sizing succeeds, [openPosition] makes no further
    call: no leverage is set, no order is placed and no message is sent.
    It returns normally, tracks the position with the order ids
    DRY_RUN_<time>, DRY_RUN_TP and DRY_RUN_SL, and counts one trade. *)
Theorem openPosition_dry_run
    (config : Config) (env : Runtime.Env) (signal : Bot.Signal)
    (balance : Q) (params : Risk.PositionParameters) (w : Runtime.World) :
  dryRun (trading config) = true ->
  sizingSucceeds config env signal balance params ->
  let '(r, w') := Bot.openPosition config env signal w in
  r = Ok tt
  /\ Runtime.calls w' = (Runtime.calls w ++ sizingCalls signal)%list
  /\ PositionService.getOpenPosition (Runtime.ledger w') (Bot.sig_symbol signal)
     = Some (PositionService.trackedRecord (dryRunPositionData env signal params)
               (Runtime.dateNow env))
  /\ Runtime.totalTrades (Runtime.statistics w')
     = (Runtime.totalTrades (Runtime.statistics w) + 1)%Z
  /\ Runtime.dailyTrades (Runtime.statistics w')
     = (Runtime.dailyTrades (Runtime.statistics w) + 1)%Z
  /\ Runtime.currentBalance (Runtime.statistics w') = balance.
Proof.
  intros Hdry Hsizing.
  rewrite (openPosition_simulated config env signal balance params Hsizing w Hdry).
  split; [reflexivity|]. split; [reflexivity|].
  split; [|repeat split].
  unfold PositionService.getOpenPosition, PositionService.addOpenPosition.
  cbn [Runtime.ledger Position.openPositions]. apply get_set_same.
Qed.

(** X17 in the scripted world, even with an exchange that would refuse
    every order. *)
Lemma openPosition_dry_run_witness :
  let env := scriptedEnv (respond 10001 "refused" None) (respond 10001 "refused" None)
               (respond 10001 "refused" None) (respond 10001 "refused" None) in
  let '(r, w') := Bot.openPosition dryRunConfig env longSignal initialWorld in
  r = Ok tt
  /\ Runtime.calls w' = (Runtime.calls initialWorld ++ sizingCalls longSignal)%list
  /\ PositionService.getOpenPosition (Runtime.ledger w') "ADAUSDT"
     = Some (PositionService.trackedRecord
               (dryRunPositionData env longSignal scriptedParams)
               (Runtime.dateNow env))
  /\ Runtime.totalTrades (Runtime.statistics w') = (0 + 1)%Z
  /\ Runtime.dailyTrades (Runtime.statistics w') = (0 + 1)%Z
  /\ Runtime.currentBalance (Runtime.statistics w') = 1000%Q.
Proof.
  intros env.
  apply (openPosition_dry_run dryRunConfig env longSignal 1000%Q scriptedParams
           initialWorld).
  - reflexivity.
  - exists 100%Q, scriptedInstrument. repeat split.
Defined.

(** X18.  In live mode, when the leverage is set and the three orders are
    placed, [openPosition] stores the position with the order ids the
    exchange returned, counts the trade, and then throws a [TypeError]:
    the object it hands to [formatPositionOpenedMessage] is the sizing
    result with the balance and the timestamp, and has no [symbol].  No
    message is sent, whatever the channel would answer, and the caller
    sees a failure although the position is open on the exchange, tracked
    and counted. *)
Theorem openPosition_placed_then_throws
    (config : Config) (env : Runtime.Env) (signal : Bot.Signal)
    (balance : Q) (params : Risk.PositionParameters) (w : Runtime.World)
    (orderResult tpResult slResult : Bybit.OrderResult) :
  dryRun (trading config) = false ->
  sizingSucceeds config env signal balance params ->
  Bybit.setLeverage (leverageOutcome config env signal) = Ok true ->
  Bybit.openMarketOrder (entryOutcome config env signal params) = Ok orderResult ->
  Bybit.setTakeProfit (takeProfitOutcome config env signal params) = Ok tpResult ->
  Bybit.setStopLoss (stopLossOutcome config env signal params) = Ok slResult ->
  let '(r, w') := Bot.openPosition config env signal w in
  r = Throw (TypeError "replace")
  /\ PositionService.getOpenPosition (Runtime.ledger w') (Bot.sig_symbol signal)
     = Some (PositionService.trackedRecord
               (livePositionData signal params orderResult tpResult slResult)
               (Runtime.dateNow env))
  /\ Runtime.totalTrades (Runtime.statistics w')
     = (Runtime.totalTrades (Runtime.statistics w) + 1)%Z
  /\ Runtime.dailyTrades (Runtime.statistics w')
     = (Runtime.dailyTrades (Runtime.statistics w) + 1)%Z
  /\ Runtime.calls w'
     = (Runtime.calls w ++ callsUpToLeverage config signal
        ++ [entryOrderCall config signal params;
            takeProfitCall config signal params;
            stopLossCall config signal params])%list
  /\ (forall message,
         In (Runtime.SendMessage message) (Runtime.calls w') ->
         In (Runtime.SendMessage message) (Runtime.calls w)).
Proof.
  intros Hlive Hsizing Hl He Ht Hsl.
  rewrite (@openPosition_all_placed config env signal balance params Hlive Hsizing w
             orderResult tpResult slResult Hl He Ht Hsl).
  cbn [Runtime.ledger Runtime.statistics Runtime.calls].
  split; [reflexivity|].
  split.
  { unfold PositionService.getOpenPosition, PositionService.addOpenPosition.
    cbn [Position.openPositions]. apply get_set_same. }
  split; [reflexivity|]. split; [reflexivity|]. split; [reflexivity|].
  intros message Hin.
  apply in_app_or in Hin. destruct Hin as [Hin|Hin]; [exact Hin|].
  exfalso. apply in_app_or in Hin.
  unfold callsUpToLeverage, entryOrderCall, takeProfitCall, stopLossCall in Hin.
  cbn [In] in Hin.
  repeat match goal with
         | H : _ \/ _ |- _ => destruct H as [H|H]
         end; try discriminate; exact Hin.
Qed.

(** X18 in the scripted world, with a channel that would accept the
    message. *)
Lemma openPosition_placed_then_throws_witness :
  let env := withChannel (Ok tt) in
  let '(r, w') := Bot.openPosition defaultConfig env longSignal initialWorld in
  r = Throw (TypeError "replace")
  /\ PositionService.getOpenPosition (Runtime.ledger w') "ADAUSDT"
     = Some (PositionService.trackedRecord
               (livePositionData longSignal scriptedParams
                  {| Bybit.orderId := Some "E1"%string |}
                  {| Bybit.orderId := Some "TP_SET_TRADING_STOP"%string |}
                  {| Bybit.orderId := Some "S1"%string |})
               (Runtime.dateNow env))
  /\ Runtime.totalTrades (Runtime.statistics w') = (0 + 1)%Z
  /\ Runtime.dailyTrades (Runtime.statistics w') = (0 + 1)%Z
  /\ Runtime.calls w'
     = ([] ++ callsUpToLeverage defaultConfig longSignal
        ++ [entryOrderCall defaultConfig longSignal scriptedParams;
            takeProfitCall defaultConfig longSignal scriptedParams;
            stopLossCall defaultConfig longSignal scriptedParams])%list
  /\ (forall message,
         In (Runtime.SendMessage message) (Runtime.calls w') ->
         In (Runtime.SendMessage message) []).
Proof.
  intros env.
  apply (openPosition_placed_then_throws defaultConfig env longSignal 1000%Q
           scriptedParams initialWorld
           {| Bybit.orderId := Some "E1"%string |}
           {| Bybit.orderId := Some "TP_SET_TRADING_STOP"%string |}
           {| Bybit.orderId := Some "S1"%string |}).
  - reflexivity.
  - exists 100%Q, scriptedInstrument. repeat split.
  - reflexivity.
  - reflexivity.
  - reflexivity.
  - reflexivity.
Defined.

(** ** Validation followed by opening *)

Section ValidThenOpen.

Import Runtime Bot.

Variable config : Config.
Variable env : Env.
Variable signal : Signal.

(** What a valid verdict says about the world it was given in. *)
Lemma validateSignal_Valid (w : World) :
  fst (validateSignal config env signal w) = Ok Valid ->
  (forall c, In c checkOrder -> passes config env w signal c = true)
  /\ ledger (snd (validateSignal config env signal w)) = ledger w.
Proof.
  cbv [validateSignal checkBalance checkTradable
       try_catch bind await updateStats getLedger getStats ret].
  unfold checkOrder.
  assert (All : forall P : Check -> Prop,
             P SymbolAllowed -> P DirectionWellFormed -> P TradingHoursActive ->
             P NoOpenPosition -> P OpenCountBelowMax -> P DailyCountBelowMax ->
             P BalancePositive -> P InstrumentTradable ->
             forall c, In c [SymbolAllowed; DirectionWellFormed; TradingHoursActive;
                             NoOpenPosition; OpenCountBelowMax; DailyCountBelowMax;
                             BalancePositive; InstrumentTradable] -> P c).
  { intros P H1 H2 H3 H4 H5 H6 H7 H8 c Hc. simpl in Hc.
    repeat (destruct Hc as [<-|Hc]; [assumption|]). contradiction. }
  destruct (isSymbolAllowed _ _) eqn:E1; cbn [negb fst snd]; [|discriminate].
  assert (D : negb (sig_direction signal =? "LONG")%string
              && negb (sig_direction signal =? "SHORT")%string
              = negb ((sig_direction signal =? "LONG")%string
                      || (sig_direction signal =? "SHORT")%string))
    by (symmetry; apply negb_orb).
  rewrite D; clear D.
  destruct ((sig_direction signal =? "LONG")%string
            || (sig_direction signal =? "SHORT")%string) eqn:E2;
    cbn [negb fst snd]; [|discriminate].
  destruct (TimeService.isTradingHoursActive config (clock env)) eqn:E3;
    cbn [negb fst snd]; [|discriminate].
  destruct (PositionService.hasOpenPosition (ledger w) (sig_symbol signal)) eqn:E4;
    cbn [negb fst snd]; [discriminate|].
  rewrite Z.geb_leb.
  destruct (maxOpenPositions (trading config)
            <=? PositionService.getOpenPositionsCount (ledger w))%Z eqn:E5;
    cbn [negb fst snd]; [discriminate|].
  rewrite Z.geb_leb.
  destruct (maxDailyTrades (trading config) <=? dailyTrades (statistics w))%Z eqn:E6;
    cbn [negb fst snd]; [discriminate|].
  destruct (getUSDTBalance env) as [balance|e] eqn:E7; cbn [fst snd]; [|discriminate].
  unfold Qleb. destruct (Qle_bool balance 0) eqn:E7'; cbn [fst snd]; [discriminate|].
  destruct (getSymbolInfo env (sig_symbol signal)) as [symbolInfo|e] eqn:E8;
    cbn [fst snd]; [|discriminate].
  destruct (Risk.status symbolInfo =? "Trading")%string eqn:E8';
    cbn [negb fst snd ledger]; [|discriminate].
  intros _. split; [|reflexivity].
  apply All; cbn [passes].
  - exact E1.
  - exact E2.
  - exact E3.
  - rewrite E4. reflexivity.
  - rewrite Z.ltb_antisym, E5. reflexivity.
  - rewrite Z.ltb_antisym, E6. reflexivity.
  - rewrite E7. unfold Qltb. rewrite E7'. reflexivity.
  - rewrite E8. exact E8'.
Qed.

End ValidThenOpen.

(** X19.  When [validateSignal] answers valid and [openPosition] then runs
    in the world validation left, as the signal handler does, the ledger
    stays within its limits whatever the exchange answers to the second
    operation: the number of open positions does not exceed
    maxOpenPositions, every symbol has at most one open position, no
    position of the signal's symbol is overwritten (there was none), and
    the open positions of the other symbols are untouched. *)
Theorem valid_signal_keeps_limits
    (config : Config) (validationEnv openingEnv : Runtime.Env)
    (signal : Bot.Signal) (w : Runtime.World) :
  wellKeyed (Runtime.ledger w) ->
  fst (Bot.validateSignal config validationEnv signal w) = Ok Bot.Valid ->
  let w1 := snd (Bot.validateSignal config validationEnv signal w) in
  let '(r, w2) := Bot.openPosition config openingEnv signal w1 in
  (PositionService.getOpenPositionsCount (Runtime.ledger w2)
   <= maxOpenPositions (trading config))%Z
  /\ uniqueSymbols (Runtime.ledger w2)
  /\ PositionService.hasOpenPosition (Runtime.ledger w) (Bot.sig_symbol signal) = false
  /\ (forall other,
         other <> Bot.sig_symbol signal ->
         PositionService.getOpenPosition (Runtime.ledger w2) other
         = PositionService.getOpenPosition (Runtime.ledger w) other).
Proof.
  intros Hwk Hvalid w1. subst w1.
  destruct (validateSignal_Valid config validationEnv signal w Hvalid) as [Hall Hled].
  assert (H4 := Hall NoOpenPosition ltac:(simpl; tauto)).
  assert (H5 := Hall OpenCountBelowMax ltac:(simpl; tauto)).
  cbn [passes] in H4, H5. apply negb_true_iff in H4. apply Z.ltb_lt in H5.
  set (w1 := snd (Bot.validateSignal config validationEnv signal w)) in *.
  assert (C := openPosition_cases config openingEnv signal w1).
  destruct (Bot.openPosition config openingEnv signal w1) as [r w2].
  destruct C as [[(Hl & _) | (pd & Hsym & Hl & _)] _]; rewrite Hl, Hled.
  - split; [lia|]. split; [exact (wellKeyed_uniqueSymbols Hwk)|].
    split; [exact H4 | reflexivity].
  - split.
    { unfold PositionService.getOpenPositionsCount in *.
      cbn [PositionService.addOpenPosition Position.openPositions].
      rewrite size_set.
      destruct (JsMap.has (Position.pd_symbol pd) (Position.openPositions (Runtime.ledger w)));
        lia. }
    split.
    { apply wellKeyed_uniqueSymbols.
      exact (@wellKeyed_addOpenPosition (Runtime.ledger w) pd
               (Runtime.dateNow openingEnv) Hwk). }
    split; [exact H4|].
    intros other Hne. unfold PositionService.getOpenPosition.
    cbn [PositionService.addOpenPosition Position.openPositions].
    apply get_set_other. congruence.
Qed.

(** X19 for a LONG signal on a new ledger in the scripted world. *)
Lemma valid_signal_keeps_limits_witness :
  let env := withChannel (Ok tt) in
  let w1 := snd (Bot.validateSignal defaultConfig env longSignal initialWorld) in
  let '(r, w2) := Bot.openPosition defaultConfig env longSignal w1 in
  (PositionService.getOpenPositionsCount (Runtime.ledger w2) <= 3)%Z
  /\ uniqueSymbols (Runtime.ledger w2)
  /\ PositionService.hasOpenPosition (Runtime.ledger initialWorld) "ADAUSDT" = false
  /\ (forall other,
         other <> "ADAUSDT"%string ->
         PositionService.getOpenPosition (Runtime.ledger w2) other
         = PositionService.getOpenPosition (Runtime.ledger initialWorld) other).
Proof.
  intros env.
  apply (valid_signal_keeps_limits defaultConfig env env longSignal initialWorld).
  - split; constructor.
  - reflexivity.
Defined.

(** ** The allow-list *)

Section AllowList.

Import JsString.
Open Scope string_scope.

Lemma split_noComma (s : string) : noComma s = true -> split "," s = [s].
Proof.
  induction s as [|c r IH]; simpl; [reflexivity|].
  intros H. apply andb_true_iff in H. destruct H as [Hc Hr].
  apply negb_true_iff in Hc. rewrite Hc, (IH Hr). reflexivity.
Qed.

Lemma split_app_comma (x rest : string) :
  noComma x = true -> split "," (x ++ String "," rest) = x :: split "," rest.
Proof.
  induction x as [|c r IH]; simpl; [reflexivity|].
  intros H. apply andb_true_iff in H. destruct H as [Hc Hr].
  apply negb_true_iff in Hc. rewrite Hc, (IH Hr). reflexivity.
Qed.

Lemma split_join (l : list string) :
  l <> [] ->
  Forall (fun x => noComma x = true) l ->
  split "," (join "," l) = l.
Proof.
  induction l as [|x r IH]; [congruence|].
  intros _ H. inversion H as [|y ys Hx Hr]; subst.
  destruct r as [|x' r'].
  - simpl. apply split_noComma. exact Hx.
  - change (join "," (x :: x' :: r')) with (x ++ String "," (join "," (x' :: r'))).
    rewrite (split_app_comma x _ Hx), IH; [reflexivity | discriminate | exact Hr].
Qed.

Lemma join_empty (l : list string) :
  join "," l = "" -> l = [] \/ l = [""].
Proof.
  destruct l as [|x [|y r]]; simpl; auto.
  - intros ->. auto.
  - destruct x; simpl; discriminate.
Qed.

Lemma toUpperCase_empty (s : string) : toUpperCase s = "" <-> s = "".
Proof. destruct s; simpl; split; intros H; try reflexivity; discriminate. Qed.

Lemma upper_ascii_idempotent (c : ascii) : upper_ascii (upper_ascii c) = upper_ascii c.
Proof.
  destruct c as [[] [] [] [] [] [] [] []]; reflexivity.
Qed.

Lemma toUpperCase_idempotent (s : string) : toUpperCase (toUpperCase s) = toUpperCase s.
Proof.
  induction s as [|c r IH]; simpl; [reflexivity|].
  rewrite upper_ascii_idempotent, IH. reflexivity.
Qed.

Lemma array_includes_In (x : string) (l : list string) :
  array_includes x l = true <-> In x l.
Proof.
  unfold array_includes. rewrite existsb_exists. split.
  - intros [y [Hin Hy]]. apply String.eqb_eq in Hy. subst y. exact Hin.
  - intros H. exists x. split; [exact H | apply String.eqb_refl].
Qed.

End AllowList.

(** X20.  A symbol is allowed exactly when it is not empty and, put in
    upper case, equals one of the configured symbols trimmed and put in
    upper case: joining the configured list with commas and splitting it
    again gives the list back.  The test does not depend on the case of
    the symbol, and an empty symbol or an empty list allows nothing. *)
Theorem isSymbolAllowed_membership :
  (forall (symbol : string) (allowed : list string),
      Forall (fun x => noComma x = true) allowed ->
      (isSymbolAllowed symbol (JsString.join "," allowed) = true
       <-> symbol <> EmptyString
           /\ In (JsString.toUpperCase symbol) (map normalized allowed)))
  /\ (forall (allowed : list string),
         allowed <> [] ->
         Forall (fun x => noComma x = true) allowed ->
         JsString.split "," (JsString.join "," allowed) = allowed)
  /\ (forall symbol allowedSymbols : string,
         isSymbolAllowed (JsString.toUpperCase symbol) allowedSymbols
         = isSymbolAllowed symbol allowedSymbols)
  /\ (forall symbol allowedSymbols : string,
         symbol = EmptyString \/ allowedSymbols = EmptyString ->
         isSymbolAllowed symbol allowedSymbols = false).
Proof.
  split; [|split; [exact split_join|split]].
  - intros symbol allowed Hall. unfold isSymbolAllowed.
    destruct (symbol =? "")%string eqn:Es.
    { apply String.eqb_eq in Es. cbn [orb]. split; [discriminate|].
      intros [H _]. contradiction. }
    apply String.eqb_neq in Es. cbn [orb].
    destruct (JsString.join "," allowed =? "")%string eqn:Ej.
    + apply String.eqb_eq in Ej. split; [discriminate|].
      intros [_ Hin]. exfalso.
      destruct (join_empty allowed Ej) as [->| ->]; simpl in Hin.
      * exact Hin.
      * destruct Hin as [Hin|[]]. symmetry in Hin.
        change (normalized "") with EmptyString in Hin.
        apply (proj1 (toUpperCase_empty symbol)) in Hin. exact (Es Hin).
    + assert (Hne : allowed <> []).
      { intros ->. simpl in Ej. discriminate. }
      rewrite (split_join allowed Hne Hall), array_includes_In.
      unfold normalized. tauto.
  - intros symbol allowedSymbols. unfold isSymbolAllowed.
    rewrite toUpperCase_idempotent.
    destruct symbol; reflexivity.
  - intros symbol allowedSymbols [-> | ->]; unfold isSymbolAllowed.
    + reflexivity.
    + destruct (symbol =? "")%string; reflexivity.
Qed.

(** X20 on the default list: "adausdt" is allowed, "BTCUSDT" is not. *)
Lemma isSymbolAllowed_membership_witness :
  (isSymbolAllowed "adausdt" (JsString.join "," (allowedSymbols (trading defaultConfig)))
   = true
   <-> "adausdt"%string <> EmptyString
       /\ In (JsString.toUpperCase "adausdt")
             (map normalized (allowedSymbols (trading defaultConfig))))
  /\ JsString.split "," (JsString.join "," (allowedSymbols (trading defaultConfig)))
     = allowedSymbols (trading defaultConfig)
  /\ isSymbolAllowed "BTCUSDT" (JsString.join "," (allowedSymbols (trading defaultConfig)))
     = false
  /\ isSymbolAllowed "" "ADAUSDT" = false.
Proof.
  split; [|split; [|split]].
  - apply (proj1 isSymbolAllowed_membership). repeat constructor.
  - apply (proj1 (proj2 isSymbolAllowed_membership));
      [discriminate | repeat constructor].
  - reflexivity.
  - apply (proj2 (proj2 (proj2 isSymbolAllowed_membership))). left. reflexivity.
Defined.

(** ** The daily report *)

Section Report.

Import Position Runtime DailyReport.

Variable config : Config.
Variable env : Env.

Lemma sendDailyReport_run (currentDate : string) (w : World) :
  let w1 := dayChecked currentDate w in
  let '(r, w') := sendDailyReport config env currentDate w in
  ledger w' = ledger w1
  /\ statistics w' = statistics w1
  /\ calls w' = (calls w ++ [GetUSDTBalance])%list
  /\ match getUSDTBalance env with
     | Ok balance =>
         exists report,
           r = Ok (Some report)
           /\ rep_date report = currentDate
           /\ rep_totalSignals report = totalSignals (statistics w1)
           /\ rep_signalsIgnored report = signalsIgnored (statistics w1)
           /\ rep_totalTrades report
              = PositionService.ps_totalTrades (PositionService.getStatistics (ledger w1))
           /\ rep_winTrades report
              = PositionService.ps_winTrades (PositionService.getStatistics (ledger w1))
           /\ rep_loseTrades report
              = PositionService.ps_loseTrades (PositionService.getStatistics (ledger w1))
           /\ rep_startBalance report = startBalance (statistics w)
           /\ rep_currentBalance report = balance
           /\ rep_totalPnl report = (balance - startBalance (statistics w))%Q
           /\ rep_roi report
              = (if Qgtb (startBalance (statistics w)) 0
                 then (balance - startBalance (statistics w))
                      / startBalance (statistics w) * 100
                 else 0)%Q
     | Throw _ => r = Ok None
     end.
Proof.
  intros w1. subst w1. unfold dayChecked.
  cbv [sendDailyReport try_catch bind await updateStats updateLedger
       getLedger getStats ret].
  destruct (currentDate =? lastResetDate (statistics w))%string; cbv [negb];
    cbn [ledger statistics calls];
    destruct (getUSDTBalance env) as [balance|e];
    cbn [ledger statistics calls rollover startBalance];
    repeat split; eexists; repeat split.
Qed.

End Report.

(** X21.  [sendDailyReport] never throws and never touches the open
    positions.  On the day of the last reset it changes neither the ledger
    nor the statistics.  On another day it first empties the closed
    history, zeroes the daily trade and ignored-signal counters and
    records the new date, and only then reads the figures: the report of
    that call shows 0 trades, wins, losses and ignored signals whatever
    happened before, and the reset stays in place even when the balance
    cannot be read and no report is built. *)
Theorem sendDailyReport_rollover
    (config : Config) (env : Runtime.Env) (currentDate : string) (w : Runtime.World) :
  let '(r, w') := DailyReport.sendDailyReport config env currentDate w in
  (exists returned,
      r = Ok returned
      /\ (returned = None <-> exists e, Runtime.getUSDTBalance env = Throw e)
      /\ (currentDate <> Runtime.lastResetDate (Runtime.statistics w) ->
          forall report,
            returned = Some report ->
            DailyReport.rep_totalTrades report = 0%Z
            /\ DailyReport.rep_winTrades report = 0%Z
            /\ DailyReport.rep_loseTrades report = 0%Z
            /\ DailyReport.rep_signalsIgnored report = 0%Z)
      /\ (currentDate = Runtime.lastResetDate (Runtime.statistics w) ->
          forall report,
            returned = Some report ->
            DailyReport.rep_totalTrades report
            = Z.of_nat (length (Position.closedPositions (Runtime.ledger w)))
            /\ DailyReport.rep_signalsIgnored report
               = Runtime.signalsIgnored (Runtime.statistics w)))
  /\ Position.openPositions (Runtime.ledger w')
     = Position.openPositions (Runtime.ledger w)
  /\ (currentDate = Runtime.lastResetDate (Runtime.statistics w) ->
      Runtime.ledger w' = Runtime.ledger w
      /\ Runtime.statistics w' = Runtime.statistics w)
  /\ (currentDate <> Runtime.lastResetDate (Runtime.statistics w) ->
      Position.closedPositions (Runtime.ledger w') = []
      /\ Runtime.dailyTrades (Runtime.statistics w') = 0%Z
      /\ Runtime.signalsIgnored (Runtime.statistics w') = 0%Z
      /\ Runtime.lastResetDate (Runtime.statistics w') = currentDate
      /\ Runtime.totalTrades (Runtime.statistics w')
         = Runtime.totalTrades (Runtime.statistics w)
      /\ Runtime.totalSignals (Runtime.statistics w')
         = Runtime.totalSignals (Runtime.statistics w)).
Proof.
  assert (R := sendDailyReport_run config env currentDate w).
  cbv zeta in R.
  destruct (DailyReport.sendDailyReport config env currentDate w) as [r w'].
  destruct R as (Hl & Hs & Hc & Hr).
  rewrite Hl, Hs. unfold dayChecked in *.
  destruct (currentDate =? Runtime.lastResetDate (Runtime.statistics w))%string eqn:E.
  - apply String.eqb_eq in E.
    split.
    { destruct (Runtime.getUSDTBalance env) as [balance|e].
      - destruct Hr as (report & -> & _ & _ & Hi & Ht & _).
        exists (Some report). split; [reflexivity|].
        split; [split; [discriminate | intros [e0 H]; discriminate H]|].
        split; [intros Hne; contradiction|].
        intros _ report' Hrep. inversion Hrep; subst report'.
        rewrite Ht, Hi. split; reflexivity.
      - subst r. exists None. split; [reflexivity|].
        split; [split; [intros _; exists e; reflexivity | reflexivity]|].
        split; intros _ report Hrep; discriminate Hrep. }
    split; [reflexivity|].
    split; [intros _; split; reflexivity | intros Hne; contradiction].
  - apply String.eqb_neq in E.
    split.
    { destruct (Runtime.getUSDTBalance env) as [balance|e].
      - destruct Hr as (report & -> & _ & _ & Hi & Ht & Hw & Hlo & _).
        exists (Some report). split; [reflexivity|].
        split; [split; [discriminate | intros [e0 H]; discriminate H]|].
        split; [|intros Heq; contradiction].
        intros _ report' Hrep. inversion Hrep; subst report'.
        rewrite Ht, Hw, Hlo, Hi. repeat split.
      - subst r. exists None. split; [reflexivity|].
        split; [split; [intros _; exists e; reflexivity | reflexivity]|].
        split; intros _ report Hrep; discriminate Hrep. }
    split; [reflexivity|].
    split; [intros Heq; contradiction | intros _; repeat split].
Qed.

(** X21 after a day with two closed positions: the report of the next day
    shows no trade, and the history is gone. *)
Lemma sendDailyReport_rollover_witness :
  let env := withChannel (Ok tt) in
  let '(r, w') := DailyReport.sendDailyReport defaultConfig env "2024-01-02" eveningWorld in
  (forall report,
      r = Ok (Some report) ->
      DailyReport.rep_totalTrades report = 0%Z
      /\ DailyReport.rep_winTrades report = 0%Z
      /\ DailyReport.rep_loseTrades report = 0%Z
      /\ DailyReport.rep_signalsIgnored report = 0%Z)
  /\ Position.closedPositions (Runtime.ledger w') = []
  /\ Runtime.dailyTrades (Runtime.statistics w') = 0%Z
  /\ length (Position.closedPositions (Runtime.ledger eveningWorld)) = 2%nat.
Proof.
  intros env.
  generalize (sendDailyReport_rollover defaultConfig env "2024-01-02" eveningWorld).
  destruct (DailyReport.sendDailyReport defaultConfig env "2024-01-02" eveningWorld)
    as [r w'].
  intros ((returned & Hr & _ & Hnew & _) & _ & _ & Hreset).
  assert (Hne : "2024-01-02"%string
                <> Runtime.lastResetDate (Runtime.statistics eveningWorld))
    by discriminate.
  split.
  { intros report Hrep. apply (Hnew Hne). congruence. }
  destruct (Hreset Hne) as (Hc & Hd & _).
  split; [exact Hc|]. split; [exact Hd | reflexivity].
Defined.

(** X22.  A report is built exactly when the balance is read.  It carries
    that balance and the start balance, their difference as total profit,
    and as return on investment the difference as a percentage of the
    start balance, or 0 when the start balance is not positive; its wins
    and losses add up to its trades. *)
Theorem sendDailyReport_figures
    (config : Config) (env : Runtime.Env) (currentDate : string) (w : Runtime.World)
    (balance : Q) :
  Runtime.getUSDTBalance env = Ok balance ->
  exists report,
    fst (DailyReport.sendDailyReport config env currentDate w) = Ok (Some report)
    /\ DailyReport.rep_date report = currentDate
    /\ DailyReport.rep_currentBalance report = balance
    /\ DailyReport.rep_startBalance report = Runtime.startBalance (Runtime.statistics w)
    /\ DailyReport.rep_totalPnl report
       = (balance - Runtime.startBalance (Runtime.statistics w))%Q
    /\ ((0 < Runtime.startBalance (Runtime.statistics w))%Q ->
        DailyReport.rep_roi report
        = ((balance - Runtime.startBalance (Runtime.statistics w))
           / Runtime.startBalance (Runtime.statistics w) * 100)%Q)
    /\ ((Runtime.startBalance (Runtime.statistics w) <= 0)%Q ->
        DailyReport.rep_roi report = 0%Q)
    /\ (DailyReport.rep_winTrades report + DailyReport.rep_loseTrades report
        = DailyReport.rep_totalTrades report)%Z
    /\ DailyReport.rep_totalSignals report = Runtime.totalSignals (Runtime.statistics w).
Proof.
  intros Hb.
  assert (R := sendDailyReport_run config env currentDate w).
  cbv zeta in R.
  destruct (DailyReport.sendDailyReport config env currentDate w) as [r w'].
  destruct R as (_ & _ & _ & Hr). rewrite Hb in Hr.
  destruct Hr as (report & -> & Hd & Hts & _ & Ht & Hw & Hlo & Hsb & Hcb & Hp & Hroi).
  exists report. cbn [fst].
  split; [reflexivity|]. split; [exact Hd|]. split; [exact Hcb|].
  split; [exact Hsb|]. split; [exact Hp|].
  split.
  { intros Hpos. rewrite Hroi. apply Qgtb_iff in Hpos. rewrite Hpos. reflexivity. }
  split.
  { intros Hle. rewrite Hroi.
    destruct (Qgtb (Runtime.startBalance (Runtime.statistics w)) 0) eqn:G;
      [|reflexivity].
    apply Qgtb_iff in G. exfalso. exact (Qlt_not_le _ _ G Hle). }
  split.
  { rewrite Ht, Hw, Hlo. unfold PositionService.getStatistics.
    cbn [PositionService.ps_winTrades PositionService.ps_loseTrades
         PositionService.ps_totalTrades]. lia. }
  rewrite Hts. unfold dayChecked.
  destruct (currentDate =? Runtime.lastResetDate (Runtime.statistics w))%string;
    reflexivity.
Qed.

(** X22 in the evening of the same day, with a balance of 1000 at the
    start and now. *)
Lemma sendDailyReport_figures_witness :
  exists report,
    fst (DailyReport.sendDailyReport defaultConfig (withChannel (Ok tt)) "2024-01-01"
           eveningWorld) = Ok (Some report)
    /\ DailyReport.rep_date report = "2024-01-01"%string
    /\ DailyReport.rep_currentBalance report = 1000%Q
    /\ DailyReport.rep_startBalance report = 1000%Q
    /\ DailyReport.rep_totalPnl report = (1000 - 1000)%Q
    /\ ((0 < 1000)%Q ->
        DailyReport.rep_roi report = ((1000 - 1000) / 1000 * 100)%Q)
    /\ ((1000 <= 0)%Q -> DailyReport.rep_roi report = 0%Q)
    /\ (DailyReport.rep_winTrades report + DailyReport.rep_loseTrades report
        = DailyReport.rep_totalTrades report)%Z
    /\ DailyReport.rep_totalSignals report = 9%Z.
Proof.
  exact (sendDailyReport_figures defaultConfig (withChannel (Ok tt)) "2024-01-01"
           eveningWorld 1000%Q eq_refl).
Defined.

(** ** The polling timer *)

Section TimerInvariant.

Import Monitoring.

Lemma tidy_startMonitoring (this : Timers) : tidy this -> tidy (startMonitoring this).
Proof.
  destruct this as [[handle|] run next]; unfold tidy, startMonitoring; cbn;
    intros H; [exact H|].
  rewrite H. reflexivity.
Qed.

Lemma tidy_stopMonitoring (this : Timers) : tidy this -> tidy (stopMonitoring this).
Proof.
  destruct this as [[handle|] run next]; unfold tidy, stopMonitoring; cbn;
    intros H; [|exact H].
  rewrite H. unfold clearInterval. cbn. rewrite Nat.eqb_refl. reflexivity.
Qed.

Lemma tidy_afterRequests (requests : list TimerRequest) (this : Timers) :
  tidy this -> tidy (afterRequests requests this).
Proof.
  revert this. induction requests as [|[] rest IH]; intros this H; cbn.
  - exact H.
  - apply IH, tidy_startMonitoring, H.
  - apply IH, tidy_stopMonitoring, H.
Qed.

End TimerInvariant.

(** X23.  Whatever sequence of [startMonitoring] and [stopMonitoring]
    calls a new position service receives, at most one polling interval
    runs, and it is the one whose handle the service keeps: a second start
    does not create a second interval, and after a stop none runs. *)
Theorem monitoring_single_interval (requests : list TimerRequest) :
  let this := afterRequests requests Monitoring.constructor in
  tidy this
  /\ (length (Monitoring.running this) <= 1)%nat
  /\ Monitoring.running (Monitoring.stopMonitoring this) = []
  /\ Monitoring.startMonitoring (Monitoring.startMonitoring this)
     = Monitoring.startMonitoring this
  /\ length (Monitoring.running (Monitoring.startMonitoring this)) = 1%nat.
Proof.
  intros this.
  assert (T : tidy this) by (apply tidy_afterRequests; reflexivity).
  assert (T1 := tidy_stopMonitoring this T).
  assert (T2 := tidy_startMonitoring this T).
  clearbody this. destruct this as [[handle|] run next];
    unfold tidy in *; cbn in *; subst run; cbn;
    rewrite ?Nat.eqb_refl; repeat split; lia.
Qed.

(** ** The order ids of a stored position *)

Section OrderIds.

Import Bybit.
Open Scope string_scope.

Lemma orString_nonempty (x : option string) (dflt : string) :
  dflt <> "" -> orString x dflt <> "".
Proof.
  intros H. unfold orString. destruct x as [s|]; [|exact H].
  destruct (s =? "") eqn:E; [exact H|]. apply String.eqb_neq. exact E.
Qed.

Lemma setTakeProfit_id (outcome : ClientOutcome) (r : OrderResult) :
  setTakeProfit outcome = Ok r -> exists id, orderId r = Some id /\ id <> "".
Proof.
  unfold setTakeProfit. destruct outcome as [response|message]; [|discriminate].
  destruct (negb (retCode response =? 0)%Z); [discriminate|].
  intros H. inversion H. eexists. split; [reflexivity|].
  apply orString_nonempty. discriminate.
Qed.

Lemma setStopLoss_id (outcome : ClientOutcome) (r : OrderResult) :
  setStopLoss outcome = Ok r -> exists id, orderId r = Some id /\ id <> "".
Proof.
  unfold setStopLoss. destruct outcome as [response|message]; [|discriminate].
  destruct (negb (retCode response =? 0)%Z); [discriminate|].
  intros H. inversion H. eexists. split; [reflexivity|].
  apply orString_nonempty. discriminate.
Qed.

End OrderIds.

(** X24.  A position that [openPosition] stores in live mode always has a
    take-profit and a stop-loss order id that are defined and not empty,
    even when the exchange's answers carry none; its entry order id is
    whatever the exchange returned for the market order, possibly
    undefined; and its timestamp is the signal's, or the time of the call
    when the signal has none. *)
Theorem stored_position_order_ids
    (config : Config) (env : Runtime.Env) (signal : Bot.Signal)
    (balance : Q) (params : Risk.PositionParameters) (w : Runtime.World)
    (orderResult tpResult slResult : Bybit.OrderResult) :
  dryRun (trading config) = false ->
  sizingSucceeds config env signal balance params ->
  Bybit.setLeverage (leverageOutcome config env signal) = Ok true ->
  Bybit.openMarketOrder (entryOutcome config env signal params) = Ok orderResult ->
  Bybit.setTakeProfit (takeProfitOutcome config env signal params) = Ok tpResult ->
  Bybit.setStopLoss (stopLossOutcome config env signal params) = Ok slResult ->
  exists stored,
    PositionService.getOpenPosition
      (Runtime.ledger (snd (Bot.openPosition config env signal w)))
      (Bot.sig_symbol signal) = Some stored
    /\ (exists id, Position.op_tpOrderId stored = Some id /\ id <> EmptyString)
    /\ (exists id, Position.op_slOrderId stored = Some id /\ id <> EmptyString)
    /\ (exists response,
           entryOutcome config env signal params = Bybit.Resolved response
           /\ Position.op_orderId stored = Bybit.result_orderId response)
    /\ Position.op_timestamp stored
       = PositionService.timestampOr (Bot.sig_timestamp signal) (Runtime.dateNow env)
    /\ Position.op_quantity stored = Risk.pp_quantity params
    /\ Position.op_entryPrice stored = Risk.pp_entryPrice params.
Proof.
  intros Hlive Hsizing Hl He Ht Hsl.
  rewrite (@openPosition_all_placed config env signal balance params Hlive Hsizing w
             orderResult tpResult slResult Hl He Ht Hsl).
  cbn [snd Runtime.ledger].
  eexists. split.
  { unfold PositionService.getOpenPosition, PositionService.addOpenPosition.
    cbn [Position.openPositions livePositionData Position.pd_symbol].
    apply get_set_same. }
  cbn [PositionService.trackedRecord livePositionData Position.op_tpOrderId
       Position.op_slOrderId Position.op_orderId Position.op_timestamp
       Position.op_quantity Position.op_entryPrice Position.pd_tpOrderId
       Position.pd_slOrderId Position.pd_orderId Position.pd_timestamp
       Position.pd_quantity Position.pd_entryPrice].
  split; [exact (setTakeProfit_id _ _ Ht)|].
  split; [exact (setStopLoss_id _ _ Hsl)|].
  split.
  { unfold Bybit.openMarketOrder in He.
    destruct (entryOutcome config env signal params) as [response|message];
      [|discriminate].
    destruct (negb (Bybit.retCode response =? 0)%Z); [discriminate|].
    inversion He. exists response. split; reflexivity. }
  repeat split.
Qed.

(** X24 in the scripted world, where the take-profit answer carries no
    order id and the market order answer carries "E1". *)
Lemma stored_position_order_ids_witness :
  exists stored,
    PositionService.getOpenPosition
      (Runtime.ledger
         (snd (Bot.openPosition defaultConfig (withChannel (Ok tt)) longSignal
                 initialWorld)))
      "ADAUSDT" = Some stored
    /\ Position.op_tpOrderId stored = Some "TP_SET_TRADING_STOP"%string
    /\ Position.op_slOrderId stored = Some "S1"%string
    /\ Position.op_orderId stored = Some "E1"%string.
Proof.
  destruct (stored_position_order_ids defaultConfig (withChannel (Ok tt)) longSignal
              1000%Q scriptedParams initialWorld
              {| Bybit.orderId := Some "E1"%string |}
              {| Bybit.orderId := Some "TP_SET_TRADING_STOP"%string |}
              {| Bybit.orderId := Some "S1"%string |}
              eq_refl
              (ex_intro _ 100%Q (ex_intro _ scriptedInstrument
                 (conj eq_refl (conj eq_refl (conj eq_refl (conj eq_refl eq_refl))))))
              eq_refl eq_refl eq_refl eq_refl)
    as (stored & Hget & _).
  exists stored. split; [exact Hget|].
  vm_compute in Hget. inversion Hget. repeat split.
Defined.

(** ** More on validation and on the entry order *)

(** X25.  [validateSignal] writes nothing but the [currentBalance] field
    of the statistics, and only when it gets as far as reading the
    balance and the read succeeds: the counters of signals and trades, the
    ledger, and the calls already recorded are the same afterwards. *)
Theorem validateSignal_frame
    (config : Config) (env : Runtime.Env) (signal : Bot.Signal) (w : Runtime.World) :
  let '(r, w') := Bot.validateSignal config env signal w in
  (Runtime.statistics w' = Runtime.statistics w
   \/ exists balance,
        Runtime.getUSDTBalance env = Ok balance
        /\ In Runtime.GetUSDTBalance (Runtime.calls w')
        /\ Runtime.statistics w' = Bot.setCurrentBalance balance (Runtime.statistics w))
  /\ Runtime.dailyTrades (Runtime.statistics w') = Runtime.dailyTrades (Runtime.statistics w)
  /\ Runtime.totalTrades (Runtime.statistics w') = Runtime.totalTrades (Runtime.statistics w)
  /\ Runtime.totalSignals (Runtime.statistics w')
     = Runtime.totalSignals (Runtime.statistics w)
  /\ Runtime.signalsIgnored (Runtime.statistics w')
     = Runtime.signalsIgnored (Runtime.statistics w)
  /\ Runtime.ledger w' = Runtime.ledger w
  /\ exists made, Runtime.calls w' = (Runtime.calls w ++ made)%list.
Proof.
  cbv [Bot.validateSignal Bot.checkBalance Bot.checkTradable
       Runtime.try_catch Runtime.bind Runtime.await Runtime.updateStats
       Runtime.getLedger Runtime.getStats Runtime.ret].
  repeat match goal with
         | |- context [if ?c then _ else _] => destruct c
         | |- context [match Runtime.getUSDTBalance env with _ => _ end] =>
             destruct (Runtime.getUSDTBalance env) as [balance|e]
         | |- context [match Runtime.getSymbolInfo env ?s with _ => _ end] =>
             destruct (Runtime.getSymbolInfo env s) as [symbolInfo|e']
         end;
    cbn [Runtime.ledger Runtime.statistics Runtime.calls Bot.setCurrentBalance
         Runtime.dailyTrades Runtime.totalTrades Runtime.totalSignals
         Runtime.signalsIgnored];
    (split;
     [ first [ left; reflexivity
             | right; eexists; split; [reflexivity|]; split; [|reflexivity];
               rewrite ?in_app_iff; cbn [In]; auto 6 ]
     | repeat split;
       first [ exists []; rewrite app_nil_r; reflexivity
             | eexists; rewrite <- ?app_assoc; reflexivity ] ]).
Qed.

(** X26.  When the leverage is set and the market entry order is refused,
    [openPosition] throws the entry error at once: neither the take-profit
    nor the stop-loss call is made, nothing is stored and no trade is
    counted. *)
Theorem openPosition_entry_refused
    (config : Config) (env : Runtime.Env) (signal : Bot.Signal)
    (balance : Q) (params : Risk.PositionParameters) (w : Runtime.World) (e : error) :
  dryRun (trading config) = false ->
  sizingSucceeds config env signal balance params ->
  Bybit.setLeverage (leverageOutcome config env signal) = Ok true ->
  Bybit.openMarketOrder (entryOutcome config env signal params) = Throw e ->
  let '(r, w') := Bot.openPosition config env signal w in
  r = Throw e
  /\ Runtime.ledger w' = Runtime.ledger w
  /\ Runtime.calls w'
     = (Runtime.calls w ++ callsUpToLeverage config signal
        ++ [entryOrderCall config signal params])%list
  /\ Runtime.totalTrades (Runtime.statistics w')
     = Runtime.totalTrades (Runtime.statistics w)
  /\ Runtime.dailyTrades (Runtime.statistics w')
     = Runtime.dailyTrades (Runtime.statistics w).
Proof.
  intros Hlive Hsizing Hl He.
  rewrite (@openPosition_entry_fails config env signal balance params Hlive Hsizing w e
             Hl He).
  repeat split.
Qed.

(** X26 in the scripted world with a market order refused for its size. *)
Lemma openPosition_entry_refused_witness :
  let env := scriptedEnv (respond 0 "OK" None) (respond 110007 "ab not enough" None)
               (respond 0 "OK" None) (respond 0 "OK" None) in
  let '(r, w') := Bot.openPosition defaultConfig env longSignal initialWorld in
  r = Throw (ApiError "Failed to open order: ab not enough")
  /\ Runtime.ledger w' = Runtime.ledger initialWorld
  /\ Runtime.calls w'
     = (Runtime.calls initialWorld ++ callsUpToLeverage defaultConfig longSignal
        ++ [entryOrderCall defaultConfig longSignal scriptedParams])%list
  /\ Runtime.totalTrades (Runtime.statistics w') = 0%Z
  /\ Runtime.dailyTrades (Runtime.statistics w') = 0%Z.
Proof.
  intros env.
  apply (openPosition_entry_refused defaultConfig env longSignal 1000%Q scriptedParams
           initialWorld (ApiError "Failed to open order: ab not enough")).
  - reflexivity.
  - exists 100%Q, scriptedInstrument. repeat split.
  - reflexivity.
  - reflexivity.
Defined.

(** ** A second tick *)

(** A tick closes none of the entries the same tick kept. *)
Lemma keptByTick_idempotent
    (env : Runtime.Env) (exchangePositions : list Bybit.ExchangePosition)
    (entries : list (string * Position.OpenPosition)) :
  keptByTick env exchangePositions (keptByTick env exchangePositions entries)
  = keptByTick env exchangePositions entries
  /\ closedByTick env exchangePositions (keptByTick env exchangePositions entries) = [].
Proof.
  unfold keptByTick, closedByTick.
  induction entries as [|entry rest [IHk IHc]]; [split; reflexivity|].
  cbn [filter].
  destruct (tickRecord env exchangePositions entry) eqn:T.
  - split; assumption.
  - cbn [filter flat_map]. rewrite T. cbn [app]. rewrite IHk, IHc.
    split; reflexivity.
Qed.

(** X27.  Reconciliation closes a position once: when the exchange and
    the trade history answer a second tick as they answered the first,
    the second tick returns normally and leaves the ledger (the open set
    and the closed history) and the statistics exactly as the first tick
    left them. *)
Theorem checkPositions_second_tick
    (config : Config) (env : Runtime.Env)
    (exchangePositions : list Bybit.ExchangePosition) (w : Runtime.World) :
  wellKeyed (Runtime.ledger w) ->
  Runtime.getOpenPositions env = Ok exchangePositions ->
  let '(_, w1) := PositionService.checkPositions config env w in
  let '(r2, w2) := PositionService.checkPositions config env w1 in
  r2 = Ok tt
  /\ Runtime.ledger w2 = Runtime.ledger w1
  /\ Runtime.statistics w2 = Runtime.statistics w.
Proof.
  intros Hwk Hlive.
  assert (T1 := checkPositions_tick config env exchangePositions w (proj1 Hwk) Hlive).
  destruct (PositionService.checkPositions config env w) as [r1 w1].
  cbv zeta in T1. destruct T1 as (_ & Ho1 & _ & Hst1).
  assert (Hwk1 := wellKeyed_keptByTick env exchangePositions _ _ Hwk Ho1).
  assert (T2 := checkPositions_tick config env exchangePositions w1 (proj1 Hwk1) Hlive).
  destruct (PositionService.checkPositions config env w1) as [r2 w2].
  cbv zeta in T2. destruct T2 as (Hr2 & Ho2 & Hc2 & Hst2).
  rewrite Ho1 in Ho2, Hc2.
  destruct (keptByTick_idempotent env exchangePositions
              (Position.openPositions (Runtime.ledger w))) as [Hk Hc].
  rewrite Hk in Ho2. rewrite Hc, app_nil_r in Hc2. rewrite <- Ho1 in Ho2.
  split; [exact Hr2|]. split; [|congruence].
  destruct (Runtime.ledger w2), (Runtime.ledger w1).
  cbn [Position.openPositions Position.closedPositions] in Ho2, Hc2.
  congruence.
Qed.

(** X27 on the ledger that tracks ADAUSDT and TAOUSDT when the exchange
    lists only TAOUSDT: the first tick closes ADAUSDT, the second changes
    nothing. *)
Lemma checkPositions_second_tick_witness :
  let env := withLive (Ok [live "TAOUSDT" 2]) (Ok [trade "Sell" 100.5]) in
  let '(_, w1) := PositionService.checkPositions defaultConfig env twoPositionsWorld in
  let '(r2, w2) := PositionService.checkPositions defaultConfig env w1 in
  (r2 = Ok tt
   /\ Runtime.ledger w2 = Runtime.ledger w1
   /\ Runtime.statistics w2 = Runtime.statistics twoPositionsWorld)
  /\ JsMap.keys (Position.openPositions (Runtime.ledger w2)) = ["TAOUSDT"%string]
  /\ length (Position.closedPositions (Runtime.ledger w2)) = 1%nat.
Proof.
  intros env.
  assert (Hwk : wellKeyed (Runtime.ledger twoPositionsWorld)).
  { split; simpl.
    - repeat constructor; simpl; intuition discriminate.
    - repeat constructor. }
  generalize (checkPositions_second_tick defaultConfig env [live "TAOUSDT" 2]
                twoPositionsWorld Hwk eq_refl).
  destruct (PositionService.checkPositions defaultConfig env twoPositionsWorld)
    as [r1 w1] eqn:E1.
  destruct (PositionService.checkPositions defaultConfig env w1) as [r2 w2] eqn:E2.
  intros H. split; [exact H|].
  vm_compute in E1. injection E1 as _ E1. subst w1.
  vm_compute in E2. injection E2 as _ E2. subst w2.
  split; reflexivity.
Defined.
